(** * Calory Diary automation (Google Apps Script)

    A shallow embedding of the aggregation and goal-synchronisation code of
    [CaloryDiaryAutomation_v2.gs]: [getMaxCaloriesFromDashboard],
    [computeDailyTotalsFromLog], [upsertDailySummary],
    [updateDashboardTodayView], [refreshCaloryDiary], [onEdit] and [doGet],
    with [calculateMaxCalories] of [CaloryDiaryAutomation_v1.gs]; then of
    the set-up, menu and sample-data functions of version 2 and of
    [updateDailyTracker], [refreshCaloryDiary] and [onEdit] of version 1.

    Conventions of the model.
    - A JavaScript number is [NaN] or a finite value held as an exact,
      reduced rational (every decimal literal and every double is one, and
      the script only adds, subtracts, multiplies and rounds).  Infinities,
      the sign of zero and binary rounding error are outside the model; the
      values of the examples are checked against double precision
      ([Binary64]), and what is stated of sums of calories is stated for
      whole numbers, where double precision is exact ([wholeCalories]).
    - [Str.parseFloat] is the [parseFloat] of JavaScript on ASCII texts
      without [Infinity] ([plainText]); [Str.ofNum] prints a number in
      positional notation.
    - A sheet is the grid returned by [getDataRange().getValues()]: rows
      [1..getLastRow()], row 1 first.
    - The services of the host (the script time zone, [Date] parsing,
      [Utilities.formatDate], the clock, the UI) are the fields of [Env],
      the host at one instant ([atTime] is the same host at another one);
      [Host.host] is a host with a fixed-offset time zone.
    - [Logger.log] calls are left out: they change no state and no result. *)

From Stdlib Require Import ZArith QArith Qabs Qround Lia Ascii String PrimFloat.
From stdpp Require Import base option list gmap strings.

Local Open Scope string_scope.

(** ** Numbers *)

Module Num.

Inductive t : Type :=
| NaN
| Fin (q : Q).

Definition fin (q : Q) : t := Fin (Qred q).
Definition ofZ (z : Z) : t := Fin (inject_Z z).
Definition zero : t := ofZ 0.

Definition add (a b : t) : t :=
  match a, b with
  | Fin x, Fin y => fin (x + y)
  | _, _ => NaN
  end.

Definition sub (a b : t) : t :=
  match a, b with
  | Fin x, Fin y => fin (x - y)
  | _, _ => NaN
  end.

Definition mul (a b : t) : t :=
  match a, b with
  | Fin x, Fin y => fin (x * y)
  | _, _ => NaN
  end.

(** ToBoolean on a number: [NaN] and zero are falsy. *)
Definition truthy (a : t) : bool :=
  match a with
  | NaN => false
  | Fin x => negb (Qeq_bool x 0)
  end.

(** [a >= 0]; every comparison with [NaN] is false. *)
Definition geZero (a : t) : bool :=
  match a with
  | NaN => false
  | Fin x => Qle_bool 0 x
  end.

(** [a || b] on numbers. *)
Definition orElse (a b : t) : t := if truthy a then a else b.

(** [Math.round]: the integer nearest to [x], a tie going to the larger
    one, that is [floor (x + 1/2)]. *)
Definition round (a : t) : t :=
  match a with
  | NaN => NaN
  | Fin x => ofZ (Qfloor (x + (1 # 2)))
  end.

(** Equality of values (the rational inside need not be reduced). *)
Definition eqv (a b : t) : Prop :=
  match a, b with
  | NaN, NaN => True
  | Fin x, Fin y => (x == y)%Q
  | _, _ => False
  end.

Definition isFin (a : t) : Prop :=
  match a with Fin _ => True | NaN => False end.

End Num.

Abbreviation Num := Num.t.

(** ** Strings: the [String.prototype] methods the script calls *)

Module Str.

Definition lowerChar (c : ascii) : ascii :=
  let n := nat_of_ascii c in
  if (65 <=? n)%nat && (n <=? 90)%nat then ascii_of_nat (n + 32) else c.

(** [s.toLowerCase()], on ASCII letters. *)
Fixpoint toLowerCase (s : string) : string :=
  match s with
  | EmptyString => EmptyString
  | String c r => String (lowerChar c) (toLowerCase r)
  end.

Fixpoint startsWith (p s : string) : bool :=
  match p, s with
  | EmptyString, _ => true
  | String a p', String b s' => Ascii.eqb a b && startsWith p' s'
  | String _ _, EmptyString => false
  end.

(** [s.includes(p)] *)
Fixpoint includes (p s : string) : bool :=
  startsWith p s ||
  match s with
  | EmptyString => false
  | String _ r => includes p r
  end.

(** [s.split(' ')[0]]: the text before the first space. *)
Fixpoint beforeSpace (s : string) : string :=
  match s with
  | EmptyString => EmptyString
  | String c r => if Ascii.eqb c " " then EmptyString else String c (beforeSpace r)
  end.

Definition isDigit (c : ascii) : bool :=
  let n := nat_of_ascii c in (48 <=? n)%nat && (n <=? 57)%nat.

Definition digitVal (c : ascii) : Z := Z.of_nat (nat_of_ascii c) - 48.

(** White space skipped by [parseFloat]: tab, LF, VT, FF, CR, space. *)
Definition isSpace (c : ascii) : bool :=
  let n := nat_of_ascii c in
  ((9 <=? n)%nat && (n <=? 13)%nat) || (n =? 32)%nat.

Fixpoint trimStart (s : string) : string :=
  match s with
  | String c r => if isSpace c then trimStart r else s
  | EmptyString => EmptyString
  end.

(** The digits at the head of [s]: their value appended to [acc], how many
    there are, and the rest of the text. *)
Fixpoint digits (s : string) (acc : Z) (n : nat) : Z * nat * string :=
  match s with
  | String c r => if isDigit c then digits r (10 * acc + digitVal c) (S n) else (acc, n, s)
  | EmptyString => (acc, n, s)
  end.

Definition pow10 (e : Z) : Q :=
  if (0 <=? e)%Z then inject_Z (10 ^ e) else (1 # Z.to_pos (10 ^ (- e))).

(** The exponent part [e[+-]ddd] when one is well formed at the head of
    [s]; 0 otherwise. *)
Definition exponent (s : string) : Z :=
  match s with
  | String c r =>
      if Ascii.eqb c "e" || Ascii.eqb c "E" then
        match r with
        | String "-" r' => let '(v, n, _) := digits r' 0 0 in if (n =? 0)%nat then 0 else (- v)
        | String "+" r' => let '(v, n, _) := digits r' 0 0 in v
        | _ => let '(v, n, _) := digits r 0 0 in v
        end%Z
      else 0%Z
  | EmptyString => 0%Z
  end.

(** The unsigned decimal literal at the head of [s]; [None] when there is
    no digit. *)
Definition unsignedLiteral (s : string) : option Q :=
  let '(ip, ni, r1) := digits s 0 0 in
  let '(m, nf, r2) :=
    match r1 with
    | String "." r => digits r ip 0
    | _ => (ip, 0%nat, r1)
    end in
  if ((ni + nf)%nat =? 0)%nat then None
  else Some (inject_Z m * pow10 (- Z.of_nat nf) * pow10 (exponent r2))%Q.

(** [parseFloat(s)]: leading white space, an optional sign, the longest
    decimal literal; [NaN] when there is none. *)
Definition parseFloat (s : string) : Num :=
  let s := trimStart s in
  let '(neg, body) :=
    match s with
    | String "-" r => (true, r)
    | String "+" r => (false, r)
    | _ => (false, s)
    end in
  match unsignedLiteral body with
  | None => Num.NaN
  | Some q => Num.fin (if neg then - q else q)
  end.

Definition digitChar (d : Z) : ascii := ascii_of_nat (48 + Z.to_nat d).

Fixpoint natDigits (fuel : nat) (n : Z) (acc : string) : string :=
  match fuel with
  | O => acc
  | S f =>
      let acc' := String (digitChar (n mod 10)) acc in
      if (n / 10 =? 0)%Z then acc' else natDigits f (n / 10) acc'
  end.

(** Decimal digits of a natural number. *)
Definition ofNonneg (n : Z) : string := natDigits (S (Z.to_nat (Z.log2 n))) n "".

(** Digits of a fraction [num/den] in [0, 1), until it is exhausted. *)
Fixpoint fracDigits (fuel : nat) (num den : Z) : string :=
  match fuel with
  | O => ""
  | S f =>
      if (num =? 0)%Z then ""
      else String (digitChar (10 * num / den)) (fracDigits f ((10 * num) mod den) den)
  end.

Definition ofNonnegQ (q : Q) : string :=
  let q := Qred q in
  let n := Qnum q in
  let d := Zpos (Qden q) in
  let frac := fracDigits (Pos.size_nat (Qden q)) (n mod d) d in
  ofNonneg (n / d) ++ (if String.eqb frac "" then "" else "." ++ frac).

(** [Number.prototype.toString]: a negative value is the minus sign
    followed by the text of its opposite.  The text is positional, as
    JavaScript prints the magnitudes from 1e-6 up to 1e21. *)
Definition ofNum (a : Num) : string :=
  match a with
  | Num.NaN => "NaN"
  | Num.Fin q => if Qle_bool 0 q then ofNonnegQ q else "-" ++ ofNonnegQ (- q)
  end.

End Str.

(** ** Cell values, errors and the host environment *)

(** What [getValue()] returns for a cell: a number, a text (the empty text
    for an empty cell), a boolean, or a [Date] ([None] is the invalid date,
    which the script can build but a sheet never returns). *)
Inductive Cell : Type :=
| CNum (n : Num)
| CStr (s : string)
| CBool (b : bool)
| CDate (d : option Z).

(** The two presentations of a status cell:
    [setBackground('#d4edda').setFontColor('#155724')] and
    [setBackground('#f8d7da').setFontColor('#721c24')]. *)
Inductive Style : Type := Green | Red.

Inductive Error : Type :=
| ErrorMsg (msg : string)   (* [throw new Error(msg)] *)
| TypeError (msg : string). (* raised by the runtime *)

Inductive Result (A : Type) : Type :=
| Ok (a : A)
| Err (e : Error).
Arguments Ok {A} a.
Arguments Err {A} e.

#[global] Instance Result_ret : MRet Result := fun _ a => Ok a.

#[global] Instance Result_bind : MBind Result := fun _ _ k r =>
  match r with
  | Ok a => k a
  | Err e => Err e
  end.

(** The host: instants are milliseconds since the epoch. *)
Record Env : Type := {
  (** [Utilities.formatDate(d, Session.getScriptTimeZone(), 'yyyy-MM-dd')]
      on a valid date *)
  formatDate : Z -> string;
  (** the same call on the invalid date: a text, or [None] when it throws *)
  formatInvalidDate : option string;
  (** [new Date(s).getTime()] for a text [s]; [None] when it is [NaN] *)
  parseDate : string -> option Z;
  (** [Date.prototype.toString] *)
  dateToString : option Z -> string;
  (** [new Date().getTime()] *)
  now : Z;
  (** whether [SpreadsheetApp.getUi()] is available in this context *)
  hasUi : bool
}.

Section Values.

Context (env : Env).

(** ToBoolean *)
Definition truthy (c : Cell) : bool :=
  match c with
  | CNum n => Num.truthy n
  | CStr s => negb (String.eqb s "")
  | CBool b => b
  | CDate _ => true
  end.

(** [c === 0] *)
Definition isNumberZero (c : Cell) : bool :=
  match c with
  | CNum (Num.Fin q) => Qeq_bool q 0
  | _ => false
  end.

(** [c.toString()] *)
Definition toString (c : Cell) : string :=
  match c with
  | CNum n => Str.ofNum n
  | CStr s => s
  | CBool true => "true"
  | CBool false => "false"
  | CDate d => dateToString env d
  end.

(** [parseFloat(c)]: the argument is first converted to a text. *)
Definition parseFloat (c : Cell) : Num := Str.parseFloat (toString c).

(** The time values of [Date]: 100 million days either side of the epoch. *)
Definition timeClip (t : Z) : option Z :=
  if (Z.abs t <=? 8640000000000000)%Z then Some t else None.

(** [new Date(c).getTime()]; [None] when it is [NaN]. *)
Definition newDate (c : Cell) : option Z :=
  match c with
  | CDate d => d
  | CNum Num.NaN => None
  | CNum (Num.Fin q) => timeClip (Z.quot (Qnum q) (Zpos (Qden q)))
  | CStr s => parseDate env s
  | CBool true => Some 1%Z
  | CBool false => Some 0%Z
  end.

(** [Utilities.formatDate(new Date(c), tz, 'yyyy-MM-dd')] *)
Definition dateKeyOf (c : Cell) : Result string :=
  match newDate c with
  | Some t => Ok (formatDate env t)
  | None =>
      match formatInvalidDate env with
      | Some s => Ok s
      | None => Err (ErrorMsg "Invalid argument: date")
      end
  end.

(** [row[i]]; reading past the end of a row gives [undefined], which the
    script treats like the empty text (falsy and not [=== 0]). *)
Definition cellAt (row : list Cell) (i : nat) : Cell :=
  default (CStr "") (row !! i).

End Values.

(** ** The spreadsheet *)

(** The Dashboard cells the script reads and writes: [DASHBOARD_METRICS]
    (H2..H7) and [DAILY_TRACKER] (A2..D2, with the format of D2). *)
Record Dashboard : Type := {
  GENDER_CELL : Cell;
  WEIGHT_CELL : Cell;
  HEIGHT_CELL : Cell;
  AGE_CELL : Cell;
  ACTIVITY_MULTIPLIER_CELL : Cell;
  GOAL_OFFSET_CELL : Cell;
  DATE_INPUT_CELL : Cell;
  TOTAL_CONSUMED_CELL : Cell;
  MAX_LIMIT_CELL : Cell;
  STATUS_CELL : Cell;
  STATUS_FORMAT : option Style
}.

(** A row of the Daily Summary sheet: its values and the format of its
    status cell (column 4). *)
Record SRow : Type := {
  cells : list Cell;
  statusFormat : option Style
}.

(** [getSheetByName] gives [null] for a sheet that is [None] here. *)
Record Spreadsheet : Type := {
  dashboardSheet : option Dashboard;
  logSheet : option (list (list Cell));
  summarySheet : option (list SRow)
}.

(** [dailyTotalsMap]: an object used as a map from date keys to totals.
    [Object.entries] lists its keys in insertion order. *)
Abbreviation TotalsMap := (list (string * Num)).

Fixpoint mapGet (k : string) (m : TotalsMap) : option Num :=
  match m with
  | [] => None
  | (k', v) :: r => if String.eqb k k' then Some v else mapGet k r
  end.

(** [m[k] = v]: in place for a known key, at the end for a new one. *)
Fixpoint mapSet (k : string) (v : Num) (m : TotalsMap) : TotalsMap :=
  match m with
  | [] => [(k, v)]
  | (k', v') :: r => if String.eqb k k' then (k, v) :: r else (k', v') :: mapSet k v r
  end.

Definition LOG_DATE : nat := 0.     (* LOG_COLUMNS.DATE - 1 *)
Definition LOG_CALORIES : nat := 4. (* LOG_COLUMNS.CALORIES - 1 *)

Section Engine.

Context (env : Env).

(** *** getMaxCaloriesFromDashboard *)

Definition bmrOf (gender : string) (weight height age : Num) : Num :=
  if Str.includes "male" gender || String.eqb gender "m" then
    Num.add (Num.sub (Num.add (Num.mul (Num.ofZ 10) weight) (Num.mul (Num.Fin 6.25) height))
                     (Num.mul (Num.ofZ 5) age)) (Num.ofZ 5)
  else
    Num.sub (Num.sub (Num.add (Num.mul (Num.ofZ 10) weight) (Num.mul (Num.Fin 6.25) height))
                     (Num.mul (Num.ofZ 5) age)) (Num.ofZ 161).

Definition readActivityMultiplier (activityText : string) : Num :=
  if Str.includes "(" activityText
  then Str.parseFloat (Str.beforeSpace activityText)
  else Str.parseFloat activityText.

Definition readGoalOffset (goalText : string) : Num :=
  if Str.includes "(" goalText
  then Str.parseFloat (Str.beforeSpace goalText)
  else Num.orElse (Str.parseFloat goalText) Num.zero.

Definition MISSING_METRICS : string :=
  "Missing required personal metrics: weight, height, age, or activity multiplier".

Definition maxCaloriesOf (d : Dashboard) : Result Num :=
  let genderText := toString env (GENDER_CELL d) in
  let gender := Str.toLowerCase genderText in
  let weight := parseFloat env (WEIGHT_CELL d) in
  let height := parseFloat env (HEIGHT_CELL d) in
  let age := parseFloat env (AGE_CELL d) in
  let activityMultiplier := readActivityMultiplier (toString env (ACTIVITY_MULTIPLIER_CELL d)) in
  let goalOffset := readGoalOffset (toString env (GOAL_OFFSET_CELL d)) in
  if negb (Num.truthy weight) || negb (Num.truthy height) || negb (Num.truthy age)
     || negb (Num.truthy activityMultiplier)
  then Err (ErrorMsg MISSING_METRICS)
  else
    let bmr := bmrOf gender weight height age in
    let tdee := Num.mul bmr activityMultiplier in
    Ok (Num.round (Num.add tdee goalOffset)).

Definition getMaxCaloriesFromDashboard (ss : Spreadsheet) : Result Num :=
  match dashboardSheet ss with
  | None => Err (ErrorMsg "Dashboard sheet not found")
  | Some d => maxCaloriesOf d
  end.

(** *** computeDailyTotalsFromLog *)

(** One turn of the loop over the rows of the Log sheet. *)
Definition addLogRow (dailyTotalsMap : TotalsMap) (row : list Cell) : TotalsMap :=
  let dateValue := cellAt row LOG_DATE in
  let caloriesValue := cellAt row LOG_CALORIES in
  if negb (truthy dateValue) || (negb (truthy caloriesValue) && negb (isNumberZero caloriesValue))
  then dailyTotalsMap
  else
    match newDate env dateValue with
    | None => dailyTotalsMap
    | Some entryDate =>
        let dateKey := formatDate env entryDate in
        let calories := Num.orElse (parseFloat env caloriesValue) Num.zero in
        let m :=
          match mapGet dateKey dailyTotalsMap with
          | Some v => if Num.truthy v then dailyTotalsMap else mapSet dateKey Num.zero dailyTotalsMap
          | None => mapSet dateKey Num.zero dailyTotalsMap
          end in
        mapSet dateKey (Num.add (default Num.NaN (mapGet dateKey m)) calories) m
    end.

(** The result is [None] where the script returns [undefined]: the
    [return] of the empty-log branch stands alone on its line, so the
    statement ends there and the object literal below it is never
    returned. *)
Definition computeDailyTotalsFromLog (ss : Spreadsheet) : Result (option TotalsMap) :=
  match logSheet ss with
  | None => Err (ErrorMsg "Log sheet not found")
  | Some logData =>
      if (length logData <=? 1)%nat then Ok None
      else Ok (Some (foldl addLogRow [] (drop 1 logData)))
  end.

(** *** upsertDailySummary *)

(** [existingDatesMap], from row index [i] on (row number [i + 1]). *)
Fixpoint scanExisting (i : nat) (rows : list (list Cell)) (acc : gmap string nat)
  : Result (gmap string nat) :=
  match rows with
  | [] => Ok acc
  | row :: rest =>
      let existingDate := cellAt row 0 in
      if truthy existingDate then
        dateKey ← dateKeyOf env existingDate;
        scanExisting (S i) rest (<[dateKey := (i + 1)%nat]> acc)
      else scanExisting (S i) rest acc
  end.

Definition statusText (remaining : Num) : string :=
  if Num.geZero remaining
  then "Under Goal (+" ++ Str.ofNum remaining ++ ")"
  else "Over Goal (" ++ Str.ofNum remaining ++ ")".

Definition statusStyle (remaining : Num) : Style :=
  if Num.geZero remaining then Green else Red.

Definition rowDataOf (dateKey : string) (totalCalories maxCalories : Num) : list Cell :=
  let dateObj := CDate (parseDate env dateKey) in
  let remaining := Num.sub maxCalories totalCalories in
  [dateObj; CNum totalCalories; CNum maxCalories; CStr (statusText remaining)].

(** [getRange(rowNum, 1, 1, 4).setValues([rowData])] followed by the
    formatting of [getRange(rowNum, 4)]: columns past the fourth keep
    their values; a row below the last one extends the sheet. *)
Definition setRow (rowNum : nat) (rowData : list Cell) (st : Style) (sh : list SRow)
  : list SRow :=
  match sh !! (rowNum - 1)%nat with
  | Some old =>
      <[(rowNum - 1)%nat := {| cells := rowData ++ drop 4 (cells old); statusFormat := Some st |}]> sh
  | None =>
      sh ++ replicate (rowNum - 1 - length sh) {| cells := []; statusFormat := None |}
         ++ [ {| cells := rowData; statusFormat := Some st |} ]
  end.

(** One turn of the loop over [Object.entries(dailyTotalsMap)].  A row
    number in [existingDatesMap] is at least 2, hence truthy. *)
Definition upsertEntry (existingDatesMap : gmap string nat) (maxCalories : Num)
    (sh : list SRow) (entry : string * Num) : list SRow :=
  let '(dateKey, totalCalories) := entry in
  let remaining := Num.sub maxCalories totalCalories in
  let rowData := rowDataOf dateKey totalCalories maxCalories in
  match existingDatesMap !! dateKey with
  | Some rowNum => setRow rowNum rowData (statusStyle remaining) sh
  | None =>
      let lastRow := length sh in
      let newRow := (lastRow + 1)%nat in
      setRow newRow rowData (statusStyle remaining) sh
  end.

Definition upsertRows (sh : list SRow) (dailyTotalsMap : option TotalsMap) (maxCalories : Num)
  : Result (list SRow) :=
  let existingData := cells <$> sh in
  existingDatesMap ← scanExisting 1 (drop 1 existingData) ∅;
  match dailyTotalsMap with
  | None => Err (TypeError "Cannot convert undefined or null to object")
  | Some m => Ok (foldl (upsertEntry existingDatesMap maxCalories) sh m)
  end.

Definition SUMMARY_MISSING : string :=
  "Daily Summary sheet not found. Please run Setup Daily Summary Sheet first.".

Definition upsertDailySummary (ss : Spreadsheet) (dailyTotalsMap : option TotalsMap)
    (maxCalories : Num) : Result Spreadsheet :=
  match summarySheet ss with
  | None => Err (ErrorMsg SUMMARY_MISSING)
  | Some sh =>
      sh' ← upsertRows sh dailyTotalsMap maxCalories;
      Ok {| dashboardSheet := dashboardSheet ss; logSheet := logSheet ss;
            summarySheet := Some sh' |}
  end.

(** *** updateDashboardTodayView *)

(** The search for the row of today; [Err] when a date key cannot be
    formatted. *)
Fixpoint findToday (todayKey : string) (rows : list (list Cell)) : Result (option (list Cell)) :=
  match rows with
  | [] => Ok None
  | row :: rest =>
      let rowDate := cellAt row 0 in
      if truthy rowDate then
        rowDateKey ← dateKeyOf env rowDate;
        if String.eqb rowDateKey todayKey then Ok (Some row) else findToday todayKey rest
      else findToday todayKey rest
  end.

Definition setTracker (d : Dashboard) (date total limit status : Cell) (st : Style) : Dashboard :=
  {| GENDER_CELL := GENDER_CELL d; WEIGHT_CELL := WEIGHT_CELL d; HEIGHT_CELL := HEIGHT_CELL d;
     AGE_CELL := AGE_CELL d; ACTIVITY_MULTIPLIER_CELL := ACTIVITY_MULTIPLIER_CELL d;
     GOAL_OFFSET_CELL := GOAL_OFFSET_CELL d;
     DATE_INPUT_CELL := date; TOTAL_CONSUMED_CELL := total; MAX_LIMIT_CELL := limit;
     STATUS_CELL := status; STATUS_FORMAT := Some st |}.

Definition withDashboard (ss : Spreadsheet) (d : Dashboard) : Spreadsheet :=
  {| dashboardSheet := Some d; logSheet := logSheet ss; summarySheet := summarySheet ss |}.

(** Errors raised inside are caught and logged there; all of them arise
    before the first write. *)
Definition updateDashboardTodayView (ss : Spreadsheet) : Spreadsheet :=
  match dashboardSheet ss, summarySheet ss with
  | Some d, Some sh =>
      let todayKey := formatDate env (now env) in
      let summaryData := cells <$> sh in
      match findToday todayKey (drop 1 summaryData) with
      | Err _ => ss
      | Ok (Some todayRow) =>
          let statusText := toString env (cellAt todayRow 3) in
          withDashboard ss
            (setTracker d (cellAt todayRow 0) (cellAt todayRow 1) (cellAt todayRow 2)
               (cellAt todayRow 3)
               (if Str.includes "Under Goal" statusText then Green else Red))
      | Ok None =>
          match getMaxCaloriesFromDashboard ss with
          | Err _ => ss
          | Ok maxCalories =>
              withDashboard ss
                (setTracker d (CDate (Some (now env))) (CNum Num.zero) (CNum maxCalories)
                   (CStr ("Under Goal (+" ++ Str.ofNum maxCalories ++ ")")) Green)
          end
      end
  | _, _ => ss
  end.

(** *** refreshCaloryDiary *)

(** [Object.keys(dailyTotalsMap).length] *)
Definition keyCount (dailyTotalsMap : option TotalsMap) : Result nat :=
  match dailyTotalsMap with
  | None => Err (TypeError "Cannot convert undefined or null to object")
  | Some m => Ok (length m)
  end.

(** The body of the [try] block of [refreshCaloryDiary]. *)
Definition refreshSteps (ss : Spreadsheet) : Result Spreadsheet :=
  maxCalories ← getMaxCaloriesFromDashboard ss;
  dailyTotalsMap ← computeDailyTotalsFromLog ss;
  _ ← keyCount dailyTotalsMap;
  ss' ← upsertDailySummary ss dailyTotalsMap maxCalories;
  Ok (updateDashboardTodayView ss').

(** The [catch] clause logs the error and returns normally: the function
    has no result and raises nothing. *)
Definition refreshCaloryDiary (ss : Spreadsheet) : Spreadsheet :=
  match refreshSteps ss with
  | Ok ss' => ss'
  | Err _ => ss
  end.

(** *** onEdit *)

Record EditEvent : Type := {
  editedSheet : string; (* [e.source.getActiveSheet().getName()] *)
  editedCell : string   (* [e.range.getA1Notation()] *)
}.

Definition metricsRange : list string := ["H2"; "H3"; "H4"; "H5"; "H6"; "H7"].

(** The body of the branch taken when a personal parameter was edited. *)
Definition profileChangedSteps (ss : Spreadsheet) : Result Spreadsheet :=
  maxCalories ← getMaxCaloriesFromDashboard ss;
  dailyTotalsMap ← computeDailyTotalsFromLog ss;
  ss' ← upsertDailySummary ss dailyTotalsMap maxCalories;
  Ok (updateDashboardTodayView ss').

Definition onEdit (e : option EditEvent) (ss : Spreadsheet) : Spreadsheet :=
  match e with
  | None => ss
  | Some ev =>
      let ss1 := if String.eqb (editedSheet ev) "Log" then refreshCaloryDiary ss else ss in
      if String.eqb (editedSheet ev) "Dashboard" then
        if existsb (String.eqb (editedCell ev)) metricsRange then
          match profileChangedSteps ss1 with
          | Ok ss2 => ss2
          | Err _ => ss1
          end
        else ss1
      else ss1
  end.

(** *** setTodaysDate and doGet *)

(** The alert needs the UI: [getUi()] throws where there is none. *)
Definition setTodaysDate (ss : Spreadsheet) : Spreadsheet * option Error :=
  let ss' := updateDashboardTodayView ss in
  if hasUi env then (ss', None)
  else (ss', Some (ErrorMsg "Cannot call SpreadsheetApp.getUi() from this context.")).

(** The JSON object sent back, without its timestamp. *)
Record Response : Type := {
  success : bool;
  message : option string;
  error : option string;
  action : option string
}.

Definition errorText (e : Error) : string :=
  match e with
  | ErrorMsg m => "Error: " ++ m
  | TypeError m => "TypeError: " ++ m
  end.

(** [doGet(e)], from [e.parameter.action]. *)
Definition doGet (actionParam : option string) (ss : Spreadsheet) : Spreadsheet * Response :=
  let action :=
    match actionParam with
    | Some a => if String.eqb a "" then "refresh" else a
    | None => "refresh"
    end in
  let a := Str.toLowerCase action in
  if String.eqb a "refresh" || String.eqb a "refreshcalories" || String.eqb a "refreshcalorydiary"
  then
    (refreshCaloryDiary ss,
     {| success := true; message := Some "Calory diary refreshed successfully";
        error := None; action := Some "refresh" |})
  else if String.eqb a "settodaysdate" || String.eqb a "updatedate" then
    match setTodaysDate ss with
    | (ss', None) =>
        (ss', {| success := true; message := Some "Dashboard updated with today's date";
                 error := None; action := Some "setTodaysDate" |})
    | (ss', Some err) =>
        (ss', {| success := false; message := None; error := Some (errorText err);
                 action := None |})
    end
  else if String.eqb a "status" || String.eqb a "health" then
    (ss, {| success := true; message := Some "Calory Diary automation is running";
            error := None; action := Some "status" |})
  else
    (ss, {| success := false; message := None; error := Some ("Unknown action: " ++ action);
            action := None |}).

End Engine.

(** ** Set-up, menu and sample-data functions *)

Section Menu.

Context (env : Env).

Definition NO_UI : string := "Cannot call SpreadsheetApp.getUi() from this context.".

(** [SpreadsheetApp.getUi().alert(text)] as the last statement of a
    function: the book, and the error raised where there is no UI. *)
Definition alert (ss : Spreadsheet) : Spreadsheet * option Error :=
  if hasUi env then (ss, None) else (ss, Some (ErrorMsg NO_UI)).

(** [f(); g()]: [g] runs on the book that [f] left, when [f] returned. *)
Definition andThen (r : Spreadsheet * option Error)
    (k : Spreadsheet -> Spreadsheet * option Error) : Spreadsheet * option Error :=
  match r with
  | (ss, None) => k ss
  | (ss, Some e) => (ss, Some e)
  end.

(** [getRange('A1:..1').setValues([headers])] on the first row: the cells
    to the right of the headers keep their values. *)
Definition writeHeader (headers row : list Cell) : list Cell :=
  headers ++ drop (length headers) row.

Definition SUMMARY_HEADERS : list Cell :=
  [CStr "Date"; CStr "Total In"; CStr "Max Limit"; CStr "Status"].

Definition LOG_HEADERS : list Cell :=
  [CStr "Date"; CStr "Time"; CStr "Meal Type"; CStr "Description"; CStr "Calories"].

(** [setupDailySummarySheet]: the sheet is inserted when it is missing;
    [setBackground('#e8f0fe')] on [A1:D1] leaves D1 with neither of the two
    status formats; the alert comes last. *)
Definition setupDailySummarySheet (ss : Spreadsheet) : Spreadsheet * option Error :=
  let sh := default [] (summarySheet ss) in
  let sh' :=
    match sh with
    | [] => [ {| cells := SUMMARY_HEADERS; statusFormat := None |} ]
    | first :: rest =>
        {| cells := writeHeader SUMMARY_HEADERS (cells first); statusFormat := None |} :: rest
    end in
  alert {| dashboardSheet := dashboardSheet ss; logSheet := logSheet ss;
           summarySheet := Some sh' |}.

(** [setupDashboard]: [G1:H8] is cleared and the labels are written with
    empty texts in column H, so H2..H7 are empty afterwards; the formula of
    H8 then yields the empty text, and so does [=$H$8] in C2;
    [setBackground('#f5f5f5')] on [B2:D2] replaces the format of D2. *)
Definition setupDashboard (ss : Spreadsheet) : Spreadsheet * option Error :=
  match dashboardSheet ss with
  | None => (ss, Some (ErrorMsg "Dashboard sheet not found"))
  | Some d =>
      alert
        {| dashboardSheet :=
             Some {| GENDER_CELL := CStr ""; WEIGHT_CELL := CStr ""; HEIGHT_CELL := CStr "";
                     AGE_CELL := CStr ""; ACTIVITY_MULTIPLIER_CELL := CStr "";
                     GOAL_OFFSET_CELL := CStr "";
                     DATE_INPUT_CELL := DATE_INPUT_CELL d;
                     TOTAL_CONSUMED_CELL := TOTAL_CONSUMED_CELL d;
                     MAX_LIMIT_CELL := CStr "";
                     STATUS_CELL := STATUS_CELL d;
                     STATUS_FORMAT := None |};
           logSheet := logSheet ss; summarySheet := summarySheet ss |}
  end.

Definition setupLogSheet (ss : Spreadsheet) : Spreadsheet * option Error :=
  match logSheet ss with
  | None => (ss, Some (ErrorMsg "Log sheet not found"))
  | Some rows =>
      let rows' :=
        match rows with
        | [] => [LOG_HEADERS]
        | first :: rest => writeHeader LOG_HEADERS first :: rest
        end in
      alert {| dashboardSheet := dashboardSheet ss; logSheet := Some rows';
               summarySheet := summarySheet ss |}
  end.

Definition initializeAllSheets (ss : Spreadsheet) : Spreadsheet * option Error :=
  andThen (setupDashboard ss) (fun ss1 =>
  andThen (setupLogSheet ss1) (fun ss2 =>
  andThen (setupDailySummarySheet ss2) alert)).

Definition initializeSpreadsheet (ss : Spreadsheet) : Spreadsheet * option Error :=
  initializeAllSheets ss.

(** [onOpen]: the menu is built through [getUi()], then the refresh runs. *)
Definition onOpen (ss : Spreadsheet) : Spreadsheet * option Error :=
  andThen (alert ss) (fun ss1 => (refreshCaloryDiary env ss1, None)).

Definition manualRefresh (ss : Spreadsheet) : Spreadsheet * option Error :=
  alert (refreshCaloryDiary env ss).

(** The rows that [addSampleData] writes below the Log. *)
Definition sampleData (today yesterday : Z) : list (list Cell) :=
  let row (d : Z) (time meal text : string) (calories : Z) : list Cell :=
    [CDate (Some d); CStr time; CStr meal; CStr text; CNum (Num.ofZ calories)] in
  [ row today "08:30" "Breakfast" "Oatmeal with banana and coffee" 350%Z;
    row today "12:30" "Lunch" "Chicken salad with dressing" 450%Z;
    row today "15:00" "Snack" "Apple and almonds" 200%Z;
    row today "19:00" "Dinner" "Salmon with rice and vegetables" 600%Z;
    row yesterday "09:00" "Breakfast" "Greek yogurt with berries" 300%Z;
    row yesterday "13:00" "Lunch" "Turkey sandwich" 400%Z;
    row yesterday "16:00" "Snack" "Protein bar" 250%Z;
    row yesterday "20:00" "Dinner" "Pasta with chicken" 700%Z ].

(** [addSampleData]; [yesterday] is the instant that
    [yesterday.setDate(yesterday.getDate() - 1)] leaves, the same wall-clock
    time one calendar day before [now] in the zone of the script.  Nothing
    happens, and nothing is raised, when a sheet is missing. *)
Definition addSampleData (yesterday : Z) (ss : Spreadsheet) : Spreadsheet * option Error :=
  match dashboardSheet ss, logSheet ss with
  | Some d, Some rows =>
      let d' :=
        {| GENDER_CELL := CStr "Male"; WEIGHT_CELL := CNum (Num.ofZ 70);
           HEIGHT_CELL := CNum (Num.ofZ 175); AGE_CELL := CNum (Num.ofZ 30);
           ACTIVITY_MULTIPLIER_CELL := CStr "1.55 (Moderate)";
           GOAL_OFFSET_CELL := CStr "-500 (Weight Loss)";
           DATE_INPUT_CELL := DATE_INPUT_CELL d;
           TOTAL_CONSUMED_CELL := TOTAL_CONSUMED_CELL d;
           MAX_LIMIT_CELL := MAX_LIMIT_CELL d;
           STATUS_CELL := STATUS_CELL d;
           STATUS_FORMAT := STATUS_FORMAT d |} in
      alert
        (refreshCaloryDiary env
           {| dashboardSheet := Some d'; logSheet := Some (rows ++ sampleData (now env) yesterday)%list;
              summarySheet := summarySheet ss |})
  | _, _ => (ss, None)
  end.

End Menu.

(** ** Version 1 of the script *)

Module V1.

(** [calculateMaxCalories] of [CaloryDiaryAutomation_v1.gs]: the value it
    writes to [MAX_CALORY_CELL] (H8), [None] when it returns without
    writing. *)
Definition calculateMaxCalories (env : Env) (ss : Spreadsheet) : option Num :=
  match dashboardSheet ss with
  | None => None
  | Some d =>
      let genderText := toString env (GENDER_CELL d) in
      let gender := Str.toLowerCase genderText in
      let weight := parseFloat env (WEIGHT_CELL d) in
      let height := parseFloat env (HEIGHT_CELL d) in
      let age := parseFloat env (AGE_CELL d) in
      let activityText := toString env (ACTIVITY_MULTIPLIER_CELL d) in
      let activityMultiplier := Str.parseFloat (Str.beforeSpace activityText) in
      let goalText := toString env (GOAL_OFFSET_CELL d) in
      let goalOffset := Num.orElse (Str.parseFloat (Str.beforeSpace goalText)) Num.zero in
      if negb (Num.truthy weight) || negb (Num.truthy height) || negb (Num.truthy age)
         || negb (Num.truthy activityMultiplier)
      then None
      else
        let bmr := bmrOf gender weight height age in
        let tdee := Num.mul bmr activityMultiplier in
        Some (Num.round (Num.add tdee goalOffset))
  end.

(** *** updateDailyTracker *)

(** The Dashboard and Log sheets of version 1, with the cell H8
    ([MAX_CALORY_CELL]) that it keeps; it has no Daily Summary sheet. *)
Record Book : Type := {
  sheets : Spreadsheet;
  MAX_CALORY_CELL : Cell
}.

(** [calculateMaxCalories(spreadsheet)] as a step on the book: H8 is
    written when the goal could be computed. *)
Definition storeMaxCalories (env : Env) (b : Book) : Book :=
  match calculateMaxCalories env (sheets b) with
  | Some maxCalories => {| sheets := sheets b; MAX_CALORY_CELL := CNum maxCalories |}
  | None => b
  end.

Fixpoint trimEnd (s : string) : string :=
  match s with
  | EmptyString => EmptyString
  | String c r =>
      let r' := trimEnd r in
      if Str.isSpace c && String.eqb r' "" then EmptyString else String c r'
  end.

(** The rest of [s] after a well-formed exponent part; [s] when there is
    none. *)
Definition afterExponent (s : string) : string :=
  match s with
  | String c r =>
      if Ascii.eqb c "e" || Ascii.eqb c "E" then
        let r' := match r with
                  | String "-" x => x
                  | String "+" x => x
                  | _ => r
                  end in
        let '(_, n, rest) := Str.digits r' 0 0 in
        if (n =? 0)%nat then s else rest
      else s
  | EmptyString => EmptyString
  end.

(** The rest of [s] after the unsigned decimal literal at its head. *)
Definition afterLiteral (s : string) : option string :=
  let '(_, ni, r1) := Str.digits s 0 0 in
  let '(nf, r2) :=
    match r1 with
    | String "." r => let '(_, nf, r') := Str.digits r 0 0 in (nf, r')
    | _ => (0%nat, r1)
    end in
  if ((ni + nf)%nat =? 0)%nat then None else Some (afterExponent r2).

Definition radixDigit (radix : Z) (c : ascii) : option Z :=
  let n := Z.of_nat (nat_of_ascii c) in
  let v := (if (48 <=? n) && (n <=? 57) then n - 48
            else if (97 <=? n) && (n <=? 122) then n - 87
            else if (65 <=? n) && (n <=? 90) then n - 55
            else 36)%Z in
  if (v <? radix)%Z then Some v else None.

Fixpoint radixValue (radix : Z) (s : string) (acc : Z) : option Z :=
  match s with
  | EmptyString => Some acc
  | String c r =>
      match radixDigit radix c with
      | Some v => radixValue radix r (radix * acc + v)%Z
      | None => None
      end
  end.

Definition radixLiteral (radix : Z) (s : string) : Num :=
  match s with
  | EmptyString => Num.NaN
  | _ => match radixValue radix s 0 with
         | Some v => Num.ofZ v
         | None => Num.NaN
         end
  end.

(** ToNumber on a text: the whole text, white space at both ends apart,
    is a decimal literal with an optional sign, or a binary, octal or
    hexadecimal integer; the empty text is 0. *)
Definition stringToNumber (s : string) : Num :=
  let t := trimEnd (Str.trimStart s) in
  let decimal :=
    let body := match t with
                | String "-" r => r
                | String "+" r => r
                | _ => t
                end in
    match afterLiteral body with
    | Some EmptyString => Str.parseFloat t
    | _ => Num.NaN
    end in
  match t with
  | EmptyString => Num.zero
  | String "0" (String x r) =>
      if Ascii.eqb x "x" || Ascii.eqb x "X" then radixLiteral 16 r
      else if Ascii.eqb x "o" || Ascii.eqb x "O" then radixLiteral 8 r
      else if Ascii.eqb x "b" || Ascii.eqb x "B" then radixLiteral 2 r
      else decimal
  | _ => decimal
  end.

(** ToNumber on a cell value, as the subtraction applies it. *)
Definition toNumber (c : Cell) : Num :=
  match c with
  | CNum n => n
  | CStr s => stringToNumber s
  | CBool true => Num.ofZ 1
  | CBool false => Num.zero
  | CDate (Some t) => Num.ofZ t
  | CDate None => Num.NaN
  end.

(** The callback of [filter] over [logData.slice(1)]; it raises when a
    date cannot be formatted. *)
Fixpoint logEntriesOn (env : Env) (targetDateStr : string) (rows : list (list Cell))
  : Result (list (list Cell)) :=
  match rows with
  | [] => Ok []
  | row :: rest =>
      if negb (truthy (cellAt row LOG_DATE)) || negb (truthy (cellAt row LOG_CALORIES))
      then logEntriesOn env targetDateStr rest
      else
        entryDateStr ← dateKeyOf env (cellAt row LOG_DATE);
        kept ← logEntriesOn env targetDateStr rest;
        Ok (if String.eqb entryDateStr targetDateStr then row :: kept else kept)
  end.

Definition sumCalories (env : Env) (logEntries : list (list Cell)) : Num :=
  foldl (fun sum row => Num.add sum (Num.orElse (parseFloat env (cellAt row LOG_CALORIES)) Num.zero))
        Num.zero logEntries.

(** The body of the [try] block of [updateDailyTracker]; [None] where it
    returns before writing. *)
Definition trackerSteps (env : Env) (d : Dashboard) (logData : list (list Cell))
    (maxCaloryCell : Cell) : Result (option Dashboard) :=
  let targetDate := DATE_INPUT_CELL d in
  if negb (truthy targetDate) then Ok None
  else
    targetDateStr ← dateKeyOf env targetDate;
    logEntries ← logEntriesOn env targetDateStr (drop 1 logData);
    let totalCalories := sumCalories env logEntries in
    let maxCalories := if truthy maxCaloryCell then maxCaloryCell else CNum Num.zero in
    let remaining := Num.sub (toNumber maxCalories) totalCalories in
    Ok (Some (setTracker d targetDate (CNum totalCalories) maxCalories
                (CStr (statusText remaining)) (statusStyle remaining))).

(** Errors are caught and logged; they arise before the first write. *)
Definition updateDailyTracker (env : Env) (b : Book) : Book :=
  match logSheet (sheets b), dashboardSheet (sheets b) with
  | Some logData, Some d =>
      match trackerSteps env d logData (MAX_CALORY_CELL b) with
      | Ok (Some d') => {| sheets := withDashboard (sheets b) d'; MAX_CALORY_CELL := MAX_CALORY_CELL b |}
      | _ => b
      end
  | _, _ => b
  end.

Definition refreshCaloryDiary (env : Env) (b : Book) : Book :=
  updateDailyTracker env (storeMaxCalories env b).

Definition onEdit (env : Env) (e : option EditEvent) (b : Book) : Book :=
  match e with
  | None => b
  | Some ev =>
      let b1 := if String.eqb (editedSheet ev) "Log" then updateDailyTracker env b else b in
      if String.eqb (editedSheet ev) "Dashboard" then
        if existsb (String.eqb (editedCell ev)) metricsRange
        then updateDailyTracker env (storeMaxCalories env b1)
        else if String.eqb (editedCell ev) "A2" then updateDailyTracker env b1
        else b1
      else b1
  end.

End V1.

(** ** The arithmetic in double precision *)

Module Binary64.

(** The basal rate of the branch taken ([male] for the first one) and the
    unrounded goal, in the binary64 arithmetic of JavaScript. *)
Definition bmr (male : bool) (weight height age : float) : float :=
  if male then ((10 * weight) + (6.25 * height) - (5 * age) + 5)%float
  else ((10 * weight) + (6.25 * height) - (5 * age) - 161)%float.

Definition tdee (male : bool) (weight height age activityMultiplier : float) : float :=
  (bmr male weight height age * activityMultiplier)%float.

Definition unrounded (male : bool) (weight height age activityMultiplier goalOffset : float)
  : float :=
  (tdee male weight height age activityMultiplier + goalOffset)%float.

End Binary64.

(** ** A host with a fixed-offset script time zone *)

Module Host.

Local Open Scope Z_scope.

Definition MS_PER_DAY : Z := 86400000.

(** Day number (days since 1970-01-01) of a date of the proleptic
    Gregorian calendar. *)
Definition daysFromCivil (y m d : Z) : Z :=
  let y' := if m <=? 2 then y - 1 else y in
  let era := y' / 400 in
  let yoe := y' - era * 400 in
  let doy := (153 * (if m <=? 2 then m + 9 else m - 3) + 2) / 5 + d - 1 in
  let doe := yoe * 365 + yoe / 4 - yoe / 100 + doy in
  era * 146097 + doe - 719468.

(** Year, month and day of a day number. *)
Definition civilFromDays (z : Z) : Z * Z * Z :=
  let z' := z + 719468 in
  let era := z' / 146097 in
  let doe := z' - era * 146097 in
  let yoe := (doe - doe / 1460 + doe / 36524 - doe / 146096) / 365 in
  let doy := doe - (365 * yoe + yoe / 4 - yoe / 100) in
  let mp := (5 * doy + 2) / 153 in
  let d := doy - (153 * mp + 2) / 5 + 1 in
  let m := if mp <? 10 then mp + 3 else mp - 9 in
  (yoe + era * 400 + (if m <=? 2 then 1 else 0), m, d).

Fixpoint padLeft (width : nat) (s : string) : string :=
  match width with
  | O => s
  | S w => if (String.length s <? width)%nat then padLeft w ("0" ++ s) else s
  end.

Definition pad (width : nat) (n : Z) : string := padLeft width (Str.ofNonneg n).

(** The pattern [yyyy-MM-dd]. *)
Definition isoDay (day : Z) : string :=
  let '(y, m, d) := civilFromDays day in
  pad 4 y ++ "-" ++ pad 2 m ++ "-" ++ pad 2 d.

Definition number (s : string) : option Z :=
  let '(v, n, rest) := Str.digits s 0 0 in
  if (n =? String.length s)%nat && negb (n =? 0)%nat then Some v else None.

(** The date-only form [YYYY-MM-DD] of the ISO format, which [Date]
    reads as midnight UTC.  Other texts are left to the implementation
    by the language; this host rejects them. *)
Definition parseIsoDate (s : string) : option Z :=
  if (String.length s =? 10)%nat
     && String.eqb (String.substring 4 1 s) "-" && String.eqb (String.substring 7 1 s) "-"
  then
    match number (String.substring 0 4 s), number (String.substring 5 2 s),
          number (String.substring 8 2 s) with
    | Some y, Some m, Some d =>
        if (1 <=? m) && (m <=? 12) && (1 <=? d) && (d <=? 31)
        then Some (daysFromCivil y m d * MS_PER_DAY) else None
    | _, _, _ => None
    end
  else None.

Definition weekday (day : Z) : string :=
  nth (Z.to_nat ((day + 4) mod 7)) ["Sun"; "Mon"; "Tue"; "Wed"; "Thu"; "Fri"; "Sat"]%string "".

Definition monthName (m : Z) : string :=
  nth (Z.to_nat (m - 1))
    ["Jan"; "Feb"; "Mar"; "Apr"; "May"; "Jun"; "Jul"; "Aug"; "Sep"; "Oct"; "Nov"; "Dec"]%string "".

(** [Date.prototype.toString] up to the offset, in the zone [tz] minutes
    east of UTC. *)
Definition showDate (tz : Z) (d : option Z) : string :=
  match d with
  | None => "Invalid Date"
  | Some t =>
      let loc := t + tz * 60000 in
      let day := loc / MS_PER_DAY in
      let ms := loc mod MS_PER_DAY in
      let '(y, m, dd) := civilFromDays day in
      (weekday day ++ " " ++ monthName m ++ " " ++ pad 2 dd ++ " " ++ pad 4 y ++ " "
       ++ pad 2 (ms / 3600000) ++ ":" ++ pad 2 (ms / 60000 mod 60) ++ ":"
       ++ pad 2 (ms / 1000 mod 60) ++ " GMT" ++ (if (0 <=? tz)%Z then "+" else "-")
       ++ pad 2 (Z.abs tz / 60) ++ pad 2 (Z.abs tz mod 60))%string
  end.

(** The script runs in the zone [tz] minutes east of UTC, at the instant
    [clock]. *)
Definition host (tz clock : Z) (ui : bool) : Env :=
  {| formatDate := fun t => isoDay ((t + tz * 60000) / MS_PER_DAY);
     formatInvalidDate := None;
     parseDate := parseIsoDate;
     dateToString := showDate tz;
     now := clock;
     hasUi := ui |}.

(** The instant of a local wall-clock time in the zone [tz]. *)
Definition at_ (tz y m d hh mm : Z) : Z :=
  daysFromCivil y m d * MS_PER_DAY + (hh * 60 + mm) * 60000 - tz * 60000.

End Host.

(** ** Sample data *)

Module Sample.

Definition blank : Cell := CStr "".

Definition dashboard (gender weight height age activity goal : Cell) : Dashboard :=
  {| GENDER_CELL := gender; WEIGHT_CELL := weight; HEIGHT_CELL := height; AGE_CELL := age;
     ACTIVITY_MULTIPLIER_CELL := activity; GOAL_OFFSET_CELL := goal;
     DATE_INPUT_CELL := blank; TOTAL_CONSUMED_CELL := blank; MAX_LIMIT_CELL := blank;
     STATUS_CELL := blank; STATUS_FORMAT := None |}.

(** The profile written by [addSampleData]. *)
Definition profile : Dashboard :=
  dashboard (CStr "Male") (CNum (Num.ofZ 70)) (CNum (Num.ofZ 175)) (CNum (Num.ofZ 30))
    (CStr "1.55 (Moderate)") (CStr "-500 (Weight Loss)").

Definition logHeader : list Cell :=
  [CStr "Date"; CStr "Time"; CStr "Meal Type"; CStr "Description"; CStr "Calories"].

Definition summaryHeader : SRow :=
  {| cells := [CStr "Date"; CStr "Total In"; CStr "Max Limit"; CStr "Status"];
     statusFormat := None |}.

Definition entry (date : Cell) (time meal text : string) (calories : Cell) : list Cell :=
  [date; CStr time; CStr meal; CStr text; calories].

Definition kcal (n : Z) : Cell := CNum (Num.ofZ n).

(** The four meals of the sample data, logged at the dates given. *)
Definition fourMeals (d1 d2 d3 d4 : Cell) : list (list Cell) :=
  [ entry d1 "08:30" "Breakfast" "Oatmeal with banana and coffee" (kcal 350);
    entry d2 "12:30" "Lunch" "Chicken salad with dressing" (kcal 450);
    entry d3 "19:00" "Dinner" "Salmon with rice and vegetables" (kcal 600);
    entry d4 "15:00" "Snack" "Apple and almonds" (kcal 200) ].

Definition meals (date : Cell) : list (list Cell) := fourMeals date date date date.

(** The sample profile with plain numbers for the activity and the goal. *)
Definition plainProfile : Dashboard :=
  dashboard (CStr "Male") (kcal 70) (kcal 175) (kcal 30)
    (CNum (Num.Fin 1.55)) (kcal (-500)).

Definition book (d : Dashboard) (entries : list (list Cell)) (summary : list SRow) : Spreadsheet :=
  {| dashboardSheet := Some d; logSheet := Some (logHeader :: entries);
     summarySheet := Some summary |}.

(** A profile of the documented domain whose unrounded goal is [-1/2]. *)
Definition halfBelowZero : Dashboard :=
  dashboard (CStr "Male") (kcal 50) (kcal 1) (kcal 19)
    (CStr "1.2 (Sedentary)") (CStr "-500 (Weight Loss)").

(** The sample profile with a negative weight. *)
Definition negativeWeight : Dashboard :=
  dashboard (CStr "Male") (kcal (-70)) (kcal 175) (kcal 30)
    (CStr "1.55 (Moderate)") (CStr "-500 (Weight Loss)").

(** A book without its Dashboard sheet. *)
Definition noDashboard (log : list (list Cell)) (summary : list SRow) : Spreadsheet :=
  {| dashboardSheet := None; logSheet := Some log; summarySheet := Some summary |}.

(** A record of the Daily Summary sheet as the upsert writes it. *)
Definition record (date : option Z) (total limit : Z) (status : string) (st : Style) : SRow :=
  {| cells := [CDate date; kcal total; kcal limit; CStr status]; statusFormat := Some st |}.

(** The record of 2024-01-10 computed under the limit 2556. *)
Definition oldRecord : SRow :=
  record (Host.parseIsoDate "2024-01-10") 1800 2556 "Under Goal (+756)" Green.

Definition january15 : SRow :=
  record (Host.parseIsoDate "2024-01-15") 1600 2056 "Under Goal (+456)" Green.

(** An edit of the goal offset on the Dashboard. *)
Definition goalEdited : EditEvent := {| editedSheet := "Dashboard"; editedCell := "H7" |}.

(** Totals of two days, the second above the limit 2056. *)
Definition twoDays : TotalsMap :=
  [("2024-01-15", Num.ofZ 1600); ("2024-01-16", Num.ofZ 2300)].

(** The record of 2024-01-15 as it was under the limit 2556. *)
Definition staleJanuary15 : SRow :=
  record (Host.parseIsoDate "2024-01-15") 1600 2556 "Under Goal (+956)" Green.


(** Wall-clock times of 2024-01-15 in the zone [tz]. *)
Definition jan15 (tz hh mm : Z) : Cell := CDate (Some (Host.at_ tz 2024 1 15 hh mm)).



(** A woman of 60 kg, 165 cm and 30 years, moderately active, no offset. *)
Definition woman : Dashboard :=
  dashboard (CStr "Female") (kcal 60) (kcal 165) (kcal 30)
    (CStr "1.55 (Moderate)") (CStr "0 (Maintenance)").

End Sample.

(** ** Notions used in the statements *)

(** The value of a number, zero for [NaN]. *)
Definition numQ (n : Num) : Q :=
  match n with
  | Num.Fin q => q
  | Num.NaN => 0%Q
  end.

Section Notions.

Context (env : Env).

(** [tdee + goalOffset], the argument of [Math.round] in
    [getMaxCaloriesFromDashboard]. *)
Definition unroundedGoal (d : Dashboard) : Num :=
  let gender := Str.toLowerCase (toString env (GENDER_CELL d)) in
  let weight := parseFloat env (WEIGHT_CELL d) in
  let height := parseFloat env (HEIGHT_CELL d) in
  let age := parseFloat env (AGE_CELL d) in
  let activityMultiplier := readActivityMultiplier (toString env (ACTIVITY_MULTIPLIER_CELL d)) in
  let goalOffset := readGoalOffset (toString env (GOAL_OFFSET_CELL d)) in
  Num.add (Num.mul (bmrOf gender weight height age) activityMultiplier) goalOffset.

(** The cell holds a date that falls on the day [k] of the script time
    zone. *)
Definition onDay (c : Cell) (k : string) : Prop :=
  truthy c = true /\ exists t, newDate env c = Some t /\ formatDate env t = k.

(** The date key and the calories that the loop of
    [computeDailyTotalsFromLog] adds for a row of the Log; [None] for a
    row it skips. *)
Definition entryOf (row : list Cell) : option (string * Num) :=
  let dateValue := cellAt row LOG_DATE in
  let caloriesValue := cellAt row LOG_CALORIES in
  if negb (truthy dateValue) || (negb (truthy caloriesValue) && negb (isNumberZero caloriesValue))
  then None
  else
    match newDate env dateValue with
    | None => None
    | Some entryDate =>
        Some (formatDate env entryDate, Num.orElse (parseFloat env caloriesValue) Num.zero)
    end.

(** The calories of a row for the date key [k]: zero for a skipped row
    and for a row of another day. *)
Definition contribQ (k : string) (row : list Cell) : Q :=
  match entryOf row with
  | Some (k', c) => if String.eqb k k' then numQ c else 0%Q
  | None => 0%Q
  end.



(** The date key under which [upsertDailySummary] files a row of the
    Daily Summary sheet; [None] for a row without a date. *)
Definition rowKey (row : list Cell) : option string :=
  if truthy (cellAt row 0) then
    match dateKeyOf env (cellAt row 0) with
    | Ok k => Some k
    | Err _ => None
    end
  else None.

(** The date of every row that has one can be formatted. *)
Definition formattable (rows : list (list Cell)) : Prop :=
  Forall (fun row => truthy (cellAt row 0) = true ->
                     exists k, dateKeyOf env (cellAt row 0) = Ok k) rows.

(** The index of the last row filed under [k]. *)
Fixpoint lastRowWith (k : string) (rows : list (list Cell)) : option nat :=
  match rows with
  | [] => None
  | row :: rest =>
      match lastRowWith k rest with
      | Some j => Some (S j)
      | None => if decide (rowKey row = Some k) then Some 0%nat else None
      end
  end.

(** The row holds the record that [upsertDailySummary] writes for the
    day [k] with total [t] under the limit [g]. *)
Definition recordOf (k : string) (t g : Num) (row : SRow) : Prop :=
  take 4 (cells row) = rowDataOf env k t g /\
  statusFormat row = Some (statusStyle (Num.sub g t)).

(** The date key [k] is stable: the date that the upsert builds from it
    is filed under [k] again when the sheet is read back. *)
Definition stableKey (k : string) : Prop :=
  exists t, parseDate env k = Some t /\ formatDate env t = k.

(** The record added below the sheet for a pair of the totals map. *)
Definition newRecord (g : Num) (e : string * Num) : SRow :=
  {| cells := rowDataOf env e.1 e.2 g; statusFormat := Some (statusStyle (Num.sub g e.2)) |}.

(** The turn of the upsert loop for a pair whose day has a row already;
    the other pairs are passed over. *)
Definition updateEntry (ex : gmap string nat) (g : Num) (sh : list SRow) (e : string * Num)
  : list SRow :=
  match ex !! e.1 with
  | Some rowNum => setRow rowNum (rowDataOf env e.1 e.2 g) (statusStyle (Num.sub g e.2)) sh
  | None => sh
  end.

(** A row before and after the loop: left as it was, or holding in its
    first four cells the record of the stable key it was filed under. *)
Definition rewritten (g : Num) (row row' : SRow) : Prop :=
  row' = row \/
  exists k t, rowKey (cells row) = Some k /\ stableKey k /\
              cells row' = (rowDataOf env k t g ++ drop 4 (cells row))%list.

End Notions.

(** A metric that is absent, not numeric or not positive. *)
Definition notPositive (n : Num) : Prop :=
  match n with
  | Num.NaN => True
  | Num.Fin q => (q <= 0)%Q
  end.

(** A metric that [parseFloat] reads as [NaN] or as zero. *)
Definition nanOrZero (n : Num) : Prop :=
  match n with
  | Num.NaN => True
  | Num.Fin q => (q == 0)%Q
  end.

(** The last steps of a turn of the aggregation loop: [m[k]] is set to 0
    when it is falsy, then [c] is added to it. *)
Definition accumulate (k : string) (c : Num) (m : TotalsMap) : TotalsMap :=
  let m1 :=
    match mapGet k m with
    | Some v => if Num.truthy v then m else mapSet k Num.zero m
    | None => mapSet k Num.zero m
    end in
  mapSet k (Num.add (default Num.NaN (mapGet k m1)) c) m1.

(** The map after the reset of a falsy total. *)
Definition resetFalsy (k : string) (m : TotalsMap) : TotalsMap :=
  match mapGet k m with
  | Some v => if Num.truthy v then m else mapSet k Num.zero m
  | None => mapSet k Num.zero m
  end.

(** The total of the day [k] in a totals map, zero for an absent day. *)
Definition totalQ (k : string) (m : TotalsMap) : Q :=
  match mapGet k m with
  | Some v => numQ v
  | None => 0%Q
  end.

Definition sumQ (l : list Q) : Q := foldr Qplus 0%Q l.

(** Every total is a number. *)
Definition allFin (m : TotalsMap) : Prop := Forall (fun kv => Num.isFin kv.2) m.

(** The Mifflin-St Jeor formula for a woman: [10w + 6.25h - 5a - 161]. *)
Definition femaleBMR (weight height age : Q) : Q :=
  (10 * weight + 6.25 * height - 5 * age - 161)%Q.

(** The formula for a man: [10w + 6.25h - 5a + 5]. *)
Definition maleBMR (weight height age : Q) : Q :=
  (10 * weight + 6.25 * height - 5 * age + 5)%Q.

(** Rounding to the nearest integer with halves away from zero. *)
Definition roundHalfAwayFromZero (q : Q) : Z :=
  if Qle_bool 0 q then Qfloor (q + (1 # 2)) else (- Qfloor (- q + (1 # 2)))%Z.

(** A value with fractional part one half. *)
Definition isTie (q : Q) : Prop := (inject_Z (Qfloor (q + (1 # 2))) == q + (1 # 2))%Q.

(** Hosts of the examples: Jakarta (UTC+7) and New York in winter (UTC-5),
    on the evening of 2024-01-15. *)
Definition jakarta : Env := Host.host 420 (Host.at_ 420 2024 1 15 21 0) false.
Definition newYork : Env := Host.host (-300) (Host.at_ (-300) 2024 1 15 21 0) false.

(** ** Notions used in the further properties *)

(** The action that [doGet] dispatches on, before [toLowerCase]. *)
Definition requestedAction (actionParam : option string) : string :=
  match actionParam with
  | Some a => if String.eqb a "" then "refresh" else a
  | None => "refresh"
  end.

Definition refreshNames : list string := ["refresh"; "refreshcalories"; "refreshcalorydiary"].
Definition dateNames : list string := ["settodaysdate"; "updatedate"].
Definition statusNames : list string := ["status"; "health"].

(** The personal parameters H2..H7 of a book. *)
Definition profileOf (ss : Spreadsheet) : option (list Cell) :=
  (fun d => [GENDER_CELL d; WEIGHT_CELL d; HEIGHT_CELL d; AGE_CELL d;
             ACTIVITY_MULTIPLIER_CELL d; GOAL_OFFSET_CELL d]) <$> dashboardSheet ss.

(** What an entry point leaves alone: the Log, the personal parameters,
    the rows of the Daily Summary sheet (none is removed) and its first
    row; a missing Daily Summary sheet stays missing. *)
Definition preserved (ss ss' : Spreadsheet) : Prop :=
  logSheet ss' = logSheet ss /\
  profileOf ss' = profileOf ss /\
  match summarySheet ss with
  | Some sh =>
      exists sh', summarySheet ss' = Some sh' /\ (length sh <= length sh')%nat /\
                  forall h, sh !! 0%nat = Some h -> sh' !! 0%nat = Some h
  | None => summarySheet ss' = None
  end.

Fixpoint hasChar (c : ascii) (s : string) : bool :=
  match s with
  | EmptyString => false
  | String a r => Ascii.eqb c a || hasChar c r
  end.

(** The characters of the text of a number. *)
Definition numChar (c : ascii) : bool :=
  Str.isDigit c || Ascii.eqb c "." || Ascii.eqb c "-" || Ascii.eqb c "N" || Ascii.eqb c "a".

(** The format that [updateDashboardTodayView] gives the status cell of
    the tracker for a status text. *)
Definition trackerStyle (statusText : string) : Style :=
  if Str.includes "Under Goal" statusText then Green else Red.

(** The rows below the header of a Daily Summary sheet. *)
Definition records (sh : list SRow) : list (list Cell) := drop 1 (cells <$> sh).

(** The totals of the rows below the header of a Log. *)
Definition totalsOf (env : Env) (logData : list (list Cell)) : TotalsMap :=
  foldl (addLogRow env) [] (drop 1 logData).

Fixpoint asciiText (s : string) : bool :=
  match s with
  | EmptyString => true
  | String c r => (nat_of_ascii c <? 128)%nat && asciiText r
  end.

(** A text on which [Str.parseFloat] is the [parseFloat] of JavaScript:
    ASCII characters only (the white space that JavaScript skips beyond
    ASCII is not modelled), and no [Infinity] (infinities are outside the
    model). *)
Definition plainText (s : string) : Prop :=
  asciiText s = true /\ Str.includes "Infinity" s = false.


(** The calories that the loop counts in [rows] are plain texts or
    numbers that are whole numbers, whose magnitudes add up to at most
    2^53.  The script adds in binary64; in this range its additions are
    exact, whatever the order of the rows, so that its totals are the sums
    of the calories. *)
Definition wholeCalories (env : Env) (rows : list (list Cell)) : Prop :=
  (forall row k c,
      row ∈ rows -> entryOf env row = Some (k, c) ->
      plainText (toString env (cellAt row LOG_CALORIES)) /\ exists z : Z, c = Num.ofZ z) /\
  (sumQ ((fun e => Qabs (numQ e.2)) <$> omap (entryOf env) rows) <= inject_Z (2 ^ 53))%Q.

(** The steps of [refreshCaloryDiary] that come before the today view. *)
Definition upsertSteps (env : Env) (ss : Spreadsheet) : Result Spreadsheet :=
  maxCalories ← getMaxCaloriesFromDashboard env ss;
  dailyTotalsMap ← computeDailyTotalsFromLog env ss;
  _ ← keyCount dailyTotalsMap;
  upsertDailySummary env ss dailyTotalsMap maxCalories.

(** The host at another instant: the same zone and services, the clock
    reading [clock]. *)
Definition atTime (env : Env) (clock : Z) : Env :=
  {| formatDate := formatDate env; formatInvalidDate := formatInvalidDate env;
     parseDate := parseDate env; dateToString := dateToString env;
     now := clock; hasUi := hasUi env |}.

(** * Verified properties *)

(** ** The calorie target *)

Lemma maxCaloriesOf_round env d g :
  maxCaloriesOf env d = Ok g -> g = Num.round (unroundedGoal env d).
Proof.
  unfold maxCaloriesOf, unroundedGoal.
  destruct (_ || _); [discriminate |]. intros [= <-]. reflexivity.
Qed.

(** On the profiles of the examples the exact arithmetic of the model and
    the double precision of JavaScript give the same values. *)
#[warnings="-inexact-float"]
Lemma binary64_on_the_examples :
  PrimFloat.eqb (Binary64.bmr true 70 175 30) 1648.75 = true /\
  PrimFloat.eqb (Binary64.tdee true 70 175 30 1.55) 2555.5625 = true /\
  PrimFloat.eqb (Binary64.unrounded true 70 175 30 1.55 (-500)) 2055.5625 = true /\
  PrimFloat.eqb (Binary64.unrounded true 50 1 19 1.2 (-500)) (-0.5) = true /\
  PrimFloat.eqb (Binary64.unrounded true 60 165 30 1.55 0) 2303.6875 = true /\
  PrimFloat.ltb 2045.5 (Binary64.unrounded false 60 165 30 1.55 0) = true /\
  PrimFloat.ltb (Binary64.unrounded false 60 165 30 1.55 0) 2046.5 = true /\
  PrimFloat.eqb (Binary64.unrounded true (-70) 175 30 1.55 (-500)) (-114.4375) = true.
Proof. repeat split; vm_compute; reflexivity. Qed.

(** C2, the code at a profile whose sex is Female: the text [female]
    includes [male], so the first branch is taken and the basal rate is
    the male one, [10w + 6.25h - 5a + 5], for every weight, height and age;
    at 60 kg, 165 cm and 30 years with activity 1.55 and no offset both
    versions of the script give the target 2304, where the female constant
    gives 2046. *)
Theorem C2_female_profile_gets_male_constant :
  (forall w h a : Q,
      Num.eqv (bmrOf (Str.toLowerCase "Female") (Num.Fin w) (Num.Fin h) (Num.Fin a))
              (Num.Fin (maleBMR w h a))) /\
  (forall env, maxCaloriesOf env Sample.woman = Ok (Num.ofZ 2304)) /\
  (forall env log summary,
      V1.calculateMaxCalories env
        {| dashboardSheet := Some Sample.woman; logSheet := log; summarySheet := summary |}
      = Some (Num.ofZ 2304)) /\
  Num.round (Num.mul (Num.Fin (femaleBMR 60 165 30)) (Num.Fin 1.55)) = Num.ofZ 2046.
Proof.
  split; [| split; [| split]].
  - intros w h a.
    assert (E : Str.includes "male" (Str.toLowerCase "Female")
                || String.eqb (Str.toLowerCase "Female") "m" = true) by (vm_compute; reflexivity).
    unfold bmrOf, maleBMR. rewrite E.
    unfold Num.add, Num.sub, Num.mul, Num.fin, Num.ofZ, Num.eqv.
    rewrite !Qred_correct. reflexivity.
  - intros env. vm_compute. reflexivity.
  - intros env log summary. vm_compute. reflexivity.
  - vm_compute. reflexivity.
Qed.

Lemma truthy_false_iff (n : Num) : Num.truthy n = false <-> nanOrZero n.
Proof.
  destruct n as [| q]; simpl; [tauto |].
  rewrite negb_false_iff. apply Qeq_bool_iff.
Qed.

Lemma half_up_eq_half_away_iff (q : Q) :
  (q < 0)%Q -> (Qfloor (q + (1 # 2)) = roundHalfAwayFromZero q <-> ~ isTie q).
Proof.
  intros Hneg. unfold roundHalfAwayFromZero, isTie.
  destruct (Qle_bool 0 q) eqn:E.
  { apply Qle_bool_iff in E. exfalso. apply (Qlt_not_le _ _ Hneg E). }
  clear E Hneg. destruct q as [n d]. unfold Qeq, Qfloor, Qplus, Qopp, inject_Z; simpl.
  rewrite !Pos2Z.inj_mul. assert (0 < Z.pos d)%Z by lia.
  generalize dependent (Z.pos d). intros b Hb.
  split.
  - intros He Ht. Z.div_mod_to_equations. nia.
  - intros Ht. Z.div_mod_to_equations. nia.
Qed.

Lemma half_up_tie_is_one_more (q : Q) :
  (q < 0)%Q -> isTie q -> Qfloor (q + (1 # 2)) = (roundHalfAwayFromZero q + 1)%Z.
Proof.
  intros Hneg. unfold roundHalfAwayFromZero, isTie.
  destruct (Qle_bool 0 q) eqn:E.
  { apply Qle_bool_iff in E. exfalso. apply (Qlt_not_le _ _ Hneg E). }
  clear E Hneg. destruct q as [n d]. unfold Qeq, Qfloor, Qplus, Qopp, inject_Z; simpl.
  rewrite !Pos2Z.inj_mul. assert (0 < Z.pos d)%Z by lia.
  generalize dependent (Z.pos d). intros b Hb.
  intros Ht. Z.div_mod_to_equations. nia.
Qed.

(** C10, the claim at the profile (Male, 50 kg, 1 cm, 19 y, 1.2, -500):
    the unrounded goal is [-1/2], which rounds to [-1] away from zero,
    and the code returns 0. *)
Lemma C10_negative_tie_rounds_up :
  unroundedGoal jakarta Sample.halfBelowZero = Num.Fin (-1 # 2) /\
  maxCaloriesOf jakarta Sample.halfBelowZero = Ok (Num.ofZ 0) /\
  roundHalfAwayFromZero (-1 # 2) = (-1)%Z /\
  ~ (forall d g q,
        maxCaloriesOf jakarta d = Ok g -> unroundedGoal jakarta d = Num.Fin q ->
        g = Num.ofZ (roundHalfAwayFromZero q)).
Proof.
  assert (Hu : unroundedGoal jakarta Sample.halfBelowZero = Num.Fin (-1 # 2))
    by (vm_compute; reflexivity).
  assert (Hm : maxCaloriesOf jakarta Sample.halfBelowZero = Ok (Num.ofZ 0))
    by (vm_compute; reflexivity).
  repeat split; try assumption.
  intros H. specialize (H _ _ _ Hm Hu). discriminate H.
Qed.

(** C10, amended: the goal returned for a profile is [Math.round] of
    [TDEE + goalOffset], the integer [n] with [n <= x + 1/2 < n + 1]: the
    nearest integer, a tie going up.  It is the half-away-from-zero rounding
    whenever the value is non-negative or is not a tie; at a negative tie it
    is one more. *)
Theorem C10_goal_rounds_half_up (env : Env) (d : Dashboard) (g : Num) :
  maxCaloriesOf env d = Ok g ->
  g = Num.round (unroundedGoal env d) /\
  forall q, unroundedGoal env d = Num.Fin q ->
    g = Num.ofZ (Qfloor (q + (1 # 2))) /\
    (inject_Z (Qfloor (q + (1 # 2))) <= q + (1 # 2) < inject_Z (Qfloor (q + (1 # 2)) + 1))%Q /\
    ((0 <= q)%Q \/ ~ isTie q -> g = Num.ofZ (roundHalfAwayFromZero q)) /\
    ((q < 0)%Q -> isTie q -> g = Num.ofZ (roundHalfAwayFromZero q + 1)).
Proof.
  intros H. apply maxCaloriesOf_round in H. split; [exact H |].
  intros q Hq. rewrite Hq in H. simpl in H. subst g.
  split; [reflexivity |]. split; [split; [apply Qfloor_le | apply Qlt_floor] |]. split.
  - intros [Hpos | Hnt].
    + unfold roundHalfAwayFromZero.
      apply Qle_bool_iff in Hpos. rewrite Hpos. reflexivity.
    + destruct (Qlt_le_dec q 0) as [Hneg | Hpos].
      * f_equal. apply half_up_eq_half_away_iff; assumption.
      * unfold roundHalfAwayFromZero. apply Qle_bool_iff in Hpos. rewrite Hpos. reflexivity.
  - intros Hneg Ht. f_equal. apply half_up_tie_is_one_more; assumption.
Qed.

Lemma C10_goal_rounds_half_up_witness :
  maxCaloriesOf jakarta Sample.profile = Ok (Num.ofZ 2056) /\
  Num.ofZ 2056 = Num.round (unroundedGoal jakarta Sample.profile).
Proof.
  assert (H : maxCaloriesOf jakarta Sample.profile = Ok (Num.ofZ 2056))
    by (vm_compute; reflexivity).
  split; [exact H |].
  exact (proj1 (C10_goal_rounds_half_up jakarta Sample.profile (Num.ofZ 2056) H)).
Defined.

(** C8, the claim at the sample profile with weight -70: the weight is
    not positive, and the computation succeeds (with the target -114). *)
Lemma C8_negative_weight_accepted :
  notPositive (parseFloat jakarta (WEIGHT_CELL Sample.negativeWeight)) /\
  maxCaloriesOf jakarta Sample.negativeWeight = Ok (Num.ofZ (-114)).
Proof. split; vm_compute; [discriminate | reflexivity]. Qed.

(** C8, amended: for a profile whose goal offset reads as a number, the
    computation fails, with the one error of the validation, exactly when
    weight, height, age or the activity multiplier is read by [parseFloat]
    as [NaN] or as zero (a negative value is accepted), and yields a target
    otherwise.  A text with an opening parenthesis is read up to its first
    space, any other text is read whole; a plain goal offset that does not
    read as a number counts as zero. *)
Theorem C8_fails_iff_metric_missing_or_zero (env : Env) (d : Dashboard) :
  Num.isFin (readGoalOffset (toString env (GOAL_OFFSET_CELL d))) ->
  let weight := parseFloat env (WEIGHT_CELL d) in
  let height := parseFloat env (HEIGHT_CELL d) in
  let age := parseFloat env (AGE_CELL d) in
  let activityText := toString env (ACTIVITY_MULTIPLIER_CELL d) in
  let goalText := toString env (GOAL_OFFSET_CELL d) in
  let activity := readActivityMultiplier activityText in
  (maxCaloriesOf env d = Err (ErrorMsg MISSING_METRICS) <->
     nanOrZero weight \/ nanOrZero height \/ nanOrZero age \/ nanOrZero activity) /\
  (~ (nanOrZero weight \/ nanOrZero height \/ nanOrZero age \/ nanOrZero activity) ->
     exists g, maxCaloriesOf env d = Ok g) /\
  (forall e, maxCaloriesOf env d = Err e -> e = ErrorMsg MISSING_METRICS) /\
  (Str.includes "(" activityText = true ->
     activity = Str.parseFloat (Str.beforeSpace activityText)) /\
  (Str.includes "(" activityText = false -> activity = Str.parseFloat activityText) /\
  (Str.includes "(" goalText = true ->
     readGoalOffset goalText = Str.parseFloat (Str.beforeSpace goalText)) /\
  (Str.includes "(" goalText = false ->
     readGoalOffset goalText = Num.orElse (Str.parseFloat goalText) Num.zero).
Proof.
  intros _ weight height age activityText goalText activity.
  assert (Hv : negb (Num.truthy weight) || negb (Num.truthy height) || negb (Num.truthy age)
               || negb (Num.truthy activity) = true
               <-> nanOrZero weight \/ nanOrZero height \/ nanOrZero age \/ nanOrZero activity).
  { rewrite !orb_true_iff, !negb_true_iff, !truthy_false_iff. tauto. }
  unfold maxCaloriesOf. fold weight height age activityText activity.
  destruct (negb (Num.truthy weight) || negb (Num.truthy height) || negb (Num.truthy age)
            || negb (Num.truthy activity)) eqn:E.
  - repeat split; try (unfold activity, readActivityMultiplier, readGoalOffset;
                       intros ->; reflexivity).
    + intros _. apply Hv. reflexivity.
    + intros Hn. exfalso. apply Hn, Hv. reflexivity.
    + intros e [= <-]. reflexivity.
  - repeat split; try (unfold activity, readActivityMultiplier, readGoalOffset;
                       intros ->; reflexivity).
    + discriminate.
    + intros Hn. apply Hv in Hn. discriminate.
    + intros _. eexists. reflexivity.
    + discriminate.
Qed.

Lemma C8_fails_iff_metric_missing_or_zero_witness :
  Num.isFin (readGoalOffset (toString jakarta (GOAL_OFFSET_CELL Sample.negativeWeight))) /\
  ~ (maxCaloriesOf jakarta Sample.negativeWeight = Err (ErrorMsg MISSING_METRICS)).
Proof.
  assert (H : Num.isFin (readGoalOffset (toString jakarta (GOAL_OFFSET_CELL Sample.negativeWeight))))
    by exact I.
  split; [exact H |].
  intros He.
  apply (proj1 (proj1 (C8_fails_iff_metric_missing_or_zero jakarta Sample.negativeWeight H))) in He.
  vm_compute in He. intuition discriminate.
Defined.

(** ** The orchestrator *)

Lemma updateDashboardTodayView_summary env ss :
  summarySheet (updateDashboardTodayView env ss) = summarySheet ss.
Proof.
  unfold updateDashboardTodayView.
  destruct (dashboardSheet ss); [| reflexivity].
  destruct (summarySheet ss) eqn:E; [| exact E].
  destruct (findToday _ _ _) as [[row |] |]; simpl; try exact E.
  destruct (getMaxCaloriesFromDashboard env ss); simpl; exact E.
Qed.

(** C4, the code when the pipeline fails: the refresh action of the web
    endpoint answers [success: true] with the message of a successful
    refresh for every book, and so it does for a book without its Dashboard
    sheet, where the pipeline raises [Dashboard sheet not found] and the
    book is left as it was. *)
Theorem C4_refresh_failure_reported_as_success :
  (forall env ss,
      (doGet env (Some "refresh") ss).2 =
      {| success := true; message := Some "Calory diary refreshed successfully";
         error := None; action := Some "refresh" |}) /\
  (forall env log summary,
      refreshSteps env (Sample.noDashboard log summary)
        = Err (ErrorMsg "Dashboard sheet not found") /\
      doGet env (Some "refresh") (Sample.noDashboard log summary) =
        (Sample.noDashboard log summary,
         {| success := true; message := Some "Calory diary refreshed successfully";
            error := None; action := Some "refresh" |})).
Proof.
  split; [intros; reflexivity |].
  intros env log summary. split; reflexivity.
Qed.

(** ** The aggregation loop *)

Lemma mapGet_mapSet_eq k v m : mapGet k (mapSet k v m) = Some v.
Proof.
  induction m as [| [k' v'] m IH]; simpl.
  - rewrite String.eqb_refl. reflexivity.
  - destruct (String.eqb k k') eqn:E; simpl; rewrite ?String.eqb_refl, ?E; auto.
Qed.

Lemma mapGet_mapSet_ne k k' v m : k <> k' -> mapGet k' (mapSet k v m) = mapGet k' m.
Proof.
  intros Hne. induction m as [| [k2 v2] m IH]; simpl.
  - apply String.eqb_neq in Hne. rewrite String.eqb_sym, Hne. reflexivity.
  - destruct (String.eqb k k2) eqn:E; simpl.
    + apply String.eqb_eq in E. subst k2.
      assert (String.eqb k' k = false) as -> by (apply String.eqb_neq; congruence).
      reflexivity.
    + rewrite IH. reflexivity.
Qed.

Lemma mapGet_Some_elem k v (m : TotalsMap) : mapGet k m = Some v -> (k, v) ∈ m.
Proof.
  induction m as [| [k' v'] m IH]; simpl; [discriminate |].
  destruct (String.eqb k k') eqn:E.
  - apply String.eqb_eq in E. intros [= ->]. subst. left.
  - intros H. right. auto.
Qed.

Lemma mapSet_keys k v m :
  (mapSet k v m).*1 = if decide (k ∈ m.*1) then m.*1 else (m.*1 ++ [k])%list.
Proof.
  induction m as [| [k' v'] m IH].
  - case_decide as H; [apply elem_of_nil in H; contradiction | reflexivity].
  - cbn [mapSet]. destruct (String.eqb k k') eqn:E.
    + apply String.eqb_eq in E. subst. rewrite decide_True by left. reflexivity.
    + apply String.eqb_neq in E. rewrite !fmap_cons, IH. cbn [fst].
      destruct (decide (k ∈ m.*1)) as [Hin | Hin].
      * rewrite decide_True by (right; exact Hin). reflexivity.
      * rewrite decide_False; [reflexivity |]. rewrite not_elem_of_cons. tauto.
Qed.

Lemma mapSet_NoDup k v m : NoDup m.*1 -> NoDup (mapSet k v m).*1.
Proof.
  intros H. rewrite mapSet_keys. destruct (decide _); [exact H |].
  apply NoDup_app. repeat split; [exact H | | apply NoDup_singleton].
  intros x Hx Hk. apply list_elem_of_singleton in Hk. subst. contradiction.
Qed.

Lemma mapSet_elem_keys k v m x : x ∈ (mapSet k v m).*1 <-> x = k \/ x ∈ m.*1.
Proof.
  rewrite mapSet_keys. destruct (decide _) as [Hin | Hin].
  - split; [tauto | intros [-> | H]; assumption].
  - rewrite elem_of_app, list_elem_of_singleton. tauto.
Qed.

Lemma mapSet_allFin k v m : Num.isFin v -> allFin m -> allFin (mapSet k v m).
Proof.
  intros Hv. unfold allFin. induction m as [| [k' v'] m IH]; simpl; intros H.
  - constructor; [exact Hv | constructor].
  - apply Forall_cons in H as [H1 H2]. destruct (String.eqb k k'); constructor; auto.
Qed.

Lemma mapGet_allFin k v m : allFin m -> mapGet k m = Some v -> Num.isFin v.
Proof.
  intros H Hg. apply mapGet_Some_elem in Hg.
  unfold allFin in H. rewrite Forall_forall in H. exact (H _ Hg).
Qed.

Lemma sumQ_cons x l : sumQ (x :: l) = (x + sumQ l)%Q.
Proof. reflexivity. Qed.


Lemma sumQ_mapSet k v m :
  (sumQ (numQ <$> (mapSet k v m).*2) == sumQ (numQ <$> m.*2) - totalQ k m + numQ v)%Q.
Proof.
  unfold totalQ. induction m as [| [k' v'] m IH]; cbn [mapSet mapGet].
  - rewrite !fmap_cons, sumQ_cons. cbn [snd fmap list_fmap sumQ foldr]. ring.
  - destruct (String.eqb k k') eqn:E; rewrite !fmap_cons, !sumQ_cons; cbn [snd].
    + ring.
    + rewrite IH. ring.
Qed.

Lemma addLogRow_entryOf env m row :
  addLogRow env m row =
  match entryOf env row with
  | Some (k, c) => accumulate k c m
  | None => m
  end.
Proof.
  unfold addLogRow, entryOf.
  destruct (_ || _); [reflexivity |].
  destruct (newDate env _); reflexivity.
Qed.

Lemma entryOf_isFin env row k c : entryOf env row = Some (k, c) -> Num.isFin c.
Proof.
  unfold entryOf. destruct (_ || _); [discriminate |].
  destruct (newDate env _); [| discriminate]. intros [= _ <-].
  unfold Num.orElse. destruct (parseFloat env _) as [| q]; simpl; [exact I |].
  destruct (negb _); exact I.
Qed.

Lemma totalQ_mapSet k k' v m :
  totalQ k' (mapSet k v m) = if String.eqb k' k then numQ v else totalQ k' m.
Proof.
  unfold totalQ. destruct (String.eqb k' k) eqn:E.
  - apply String.eqb_eq in E. subst. rewrite mapGet_mapSet_eq. reflexivity.
  - apply String.eqb_neq in E. rewrite mapGet_mapSet_ne by congruence. reflexivity.
Qed.

Lemma numQ_add a b : Num.isFin a -> Num.isFin b -> (numQ (Num.add a b) == numQ a + numQ b)%Q.
Proof. destruct a, b; simpl; try contradiction. intros _ _. apply Qred_correct. Qed.

Lemma add_isFin a b : Num.isFin a -> Num.isFin b -> Num.isFin (Num.add a b).
Proof. destruct a, b; simpl; tauto. Qed.

Lemma resetFalsy_spec k m :
  allFin m ->
  allFin (resetFalsy k m) /\
  (forall k', totalQ k' (resetFalsy k m) == totalQ k' m)%Q /\
  (forall x, x ∈ (resetFalsy k m).*1 <-> x = k \/ x ∈ m.*1) /\
  (NoDup m.*1 -> NoDup (resetFalsy k m).*1) /\
  (sumQ (numQ <$> (resetFalsy k m).*2) == sumQ (numQ <$> m.*2))%Q /\
  exists v1, mapGet k (resetFalsy k m) = Some v1 /\ Num.isFin v1.
Proof.
  intros Hfin. unfold resetFalsy.
  assert (Hz : Num.isFin Num.zero) by exact I.
  destruct (mapGet k m) as [v |] eqn:Hg.
  - pose proof (mapGet_allFin _ _ _ Hfin Hg) as Hv.
    assert (Hk : k ∈ m.*1).
    { apply mapGet_Some_elem in Hg. apply list_elem_of_fmap. exists (k, v). auto. }
    destruct (Num.truthy v) eqn:Ht.
    + repeat split; auto; try tauto; try reflexivity.
      * intros [-> | H]; assumption.
      * exists v. auto.
    + assert (Hv0 : (numQ v == 0)%Q).
      { apply truthy_false_iff in Ht. destruct v; simpl in *; [reflexivity | exact Ht]. }
      repeat split.
      * apply mapSet_allFin; assumption.
      * intros k'. rewrite totalQ_mapSet. destruct (String.eqb k' k) eqn:E; [| reflexivity].
        apply String.eqb_eq in E. subst k'. unfold totalQ. rewrite Hg. simpl. symmetry. exact Hv0.
      * apply mapSet_elem_keys.
      * apply mapSet_elem_keys.
      * apply mapSet_NoDup.
      * rewrite sumQ_mapSet. unfold totalQ. rewrite Hg, Hv0. simpl. ring.
      * exists Num.zero. rewrite mapGet_mapSet_eq. auto.
  - repeat split.
    + apply mapSet_allFin; assumption.
    + intros k'. rewrite totalQ_mapSet. destruct (String.eqb k' k) eqn:E; [| reflexivity].
      apply String.eqb_eq in E. subst k'. unfold totalQ. rewrite Hg. reflexivity.
    + apply mapSet_elem_keys.
    + apply mapSet_elem_keys.
    + apply mapSet_NoDup.
    + rewrite sumQ_mapSet. unfold totalQ. rewrite Hg. simpl. ring.
    + exists Num.zero. rewrite mapGet_mapSet_eq. auto.
Qed.

Lemma accumulate_spec k c m :
  allFin m -> Num.isFin c ->
  allFin (accumulate k c m) /\
  (forall k', totalQ k' (accumulate k c m)
              == totalQ k' m + (if String.eqb k' k then numQ c else 0))%Q /\
  (forall x, x ∈ (accumulate k c m).*1 <-> x = k \/ x ∈ m.*1) /\
  (NoDup m.*1 -> NoDup (accumulate k c m).*1) /\
  (sumQ (numQ <$> (accumulate k c m).*2) == sumQ (numQ <$> m.*2) + numQ c)%Q.
Proof.
  intros Hfin Hc.
  destruct (resetFalsy_spec k m Hfin) as (Hf1 & Ht1 & Hk1 & Hn1 & Hs1 & v1 & Hg1 & Hv1).
  change (accumulate k c m)
    with (mapSet k (Num.add (default Num.NaN (mapGet k (resetFalsy k m))) c) (resetFalsy k m)).
  rewrite Hg1. cbn [default from_option]. unfold id.
  assert (Ha : Num.isFin (Num.add v1 c)) by (apply add_isFin; assumption).
  repeat split.
  - apply mapSet_allFin; assumption.
  - intros k'. rewrite totalQ_mapSet. destruct (String.eqb k' k) eqn:E.
    + apply String.eqb_eq in E. subst k'. rewrite numQ_add by assumption.
      rewrite <- Ht1. unfold totalQ. rewrite Hg1. reflexivity.
    + rewrite Ht1. ring.
  - intros Hx. apply mapSet_elem_keys in Hx as [-> | Hx]; [tauto |]. apply Hk1, Hx.
  - intros Hx. apply mapSet_elem_keys. destruct Hx as [-> | Hx]; [tauto |].
    right. apply Hk1. tauto.
  - intros Hnd. apply mapSet_NoDup. auto.
  - rewrite sumQ_mapSet, numQ_add by assumption. rewrite Hs1.
    unfold totalQ. rewrite Hg1. unfold id. ring.
Qed.

(** What the loop does to a totals map whose totals are numbers. *)
Lemma addLogRow_fold env rows : forall m,
  allFin m ->
  let m' := foldl (addLogRow env) m rows in
  allFin m' /\
  (forall k, totalQ k m' == totalQ k m + sumQ (contribQ env k <$> rows))%Q /\
  (forall k, k ∈ m'.*1 <->
             k ∈ m.*1 \/ exists row c, row ∈ rows /\ entryOf env row = Some (k, c)) /\
  (NoDup m.*1 -> NoDup m'.*1) /\
  (sumQ (numQ <$> m'.*2)
   == sumQ (numQ <$> m.*2) + sumQ ((fun e => numQ e.2) <$> omap (entryOf env) rows))%Q.
Proof.
  induction rows as [| row rows IH]; intros m Hfin; cbn [foldl].
  - split; [exact Hfin |]. split; [intros k; simpl; ring |]. split; [| split].
    + intros k. split; [tauto |].
      intros [H | (row & c & Hin & _)]; [exact H |]. apply elem_of_nil in Hin. contradiction.
    + tauto.
    + simpl. ring.
  - rewrite addLogRow_entryOf.
    destruct (entryOf env row) as [[k0 c0] |] eqn:He.
    + pose proof (entryOf_isFin _ _ _ _ He) as Hc.
      destruct (accumulate_spec k0 c0 m Hfin Hc) as (Hf & Ht & Hk & Hn & Hs).
      destruct (IH _ Hf) as (IH1 & IH2 & IH3 & IH4 & IH5).
      repeat split.
      * exact IH1.
      * intros k. rewrite IH2, Ht, fmap_cons, sumQ_cons. unfold contribQ at 2. rewrite He. ring.
      * intros Hx. apply IH3 in Hx as [Hx | (r & c & Hin & Hr)].
        -- apply Hk in Hx as [-> | Hx]; [| tauto].
           right. exists row, c0. split; [left | exact He].
        -- right. exists r, c. split; [right; exact Hin | exact Hr].
      * intros [Hx | (r & c & Hin & Hr)]; apply IH3.
        -- left. apply Hk. tauto.
        -- apply elem_of_cons in Hin as [-> | Hin].
           ++ left. apply Hk. left. congruence.
           ++ right. exists r, c. auto.
      * intros Hnd. auto.
      * rewrite IH5, Hs. cbn [omap list_omap]. rewrite He, fmap_cons, sumQ_cons. simpl. ring.
    + destruct (IH _ Hfin) as (IH1 & IH2 & IH3 & IH4 & IH5).
      repeat split.
      * exact IH1.
      * intros k. rewrite IH2, fmap_cons, sumQ_cons. unfold contribQ at 2. rewrite He. ring.
      * intros Hx. apply IH3 in Hx as [Hx | (r & c & Hin & Hr)]; [tauto |].
        right. exists r, c. split; [right; exact Hin | exact Hr].
      * intros [Hx | (r & c & Hin & Hr)]; apply IH3; [tauto |].
        apply elem_of_cons in Hin as [-> | Hin]; [congruence |].
        right. exists r, c. auto.
      * exact IH4.
      * rewrite IH5. cbn [omap list_omap]. rewrite He. reflexivity.
Qed.

Lemma allFin_nil : allFin [].
Proof. constructor. Qed.

(** For a Log with at least one row below its header the aggregator
    returns a totals map: its values add up to the calories of the rows it
    did not skip, and its keys, each present once, are the date keys of
    those rows. *)
Lemma computeDailyTotalsFromLog_conservation env dash summary header row rows :
  exists m,
    computeDailyTotalsFromLog env
      {| dashboardSheet := dash; logSheet := Some (header :: row :: rows);
         summarySheet := summary |} = Ok (Some m) /\
    allFin m /\ NoDup m.*1 /\
    (sumQ (numQ <$> m.*2)
     == sumQ ((fun e => numQ e.2) <$> omap (entryOf env) (row :: rows)))%Q /\
    (forall k, k ∈ m.*1 <->
               exists r c, r ∈ row :: rows /\ entryOf env r = Some (k, c)) /\
    (forall k, totalQ k m == sumQ (contribQ env k <$> (row :: rows)))%Q.
Proof.
  exists (foldl (addLogRow env) [] (row :: rows)).
  split; [reflexivity |].
  destruct (addLogRow_fold env (row :: rows) [] allFin_nil) as (H1 & H2 & H3 & H4 & H5).
  split; [exact H1 |]. split; [apply H4; constructor |]. split; [| split].
  - rewrite H5. simpl. ring.
  - intros k. rewrite H3. split; [| tauto].
    intros [H | H]; [apply elem_of_nil in H; contradiction | exact H].
  - intros k. rewrite H2. unfold totalQ. simpl. ring.
Qed.

(** C3, the code at a Log without entries (its header row alone, or no
    row at all): the aggregator returns [undefined], not the empty totals
    map, and the refresh pipeline of the sample book with such a Log stops
    on a [TypeError] before the upsert. *)
Theorem C3_empty_log_returns_undefined :
  (forall env dash summary header,
      computeDailyTotalsFromLog env
        {| dashboardSheet := dash; logSheet := Some [header]; summarySheet := summary |}
      = Ok None) /\
  (forall env dash summary,
      computeDailyTotalsFromLog env
        {| dashboardSheet := dash; logSheet := Some []; summarySheet := summary |}
      = Ok None) /\
  (forall env,
      refreshSteps env (Sample.book Sample.profile [] [Sample.summaryHeader])
      = Err (TypeError "Cannot convert undefined or null to object")).
Proof.
  split; [| split]; intros; reflexivity.
Qed.

Lemma scanExisting_total env rows : forall i acc,
  formattable env rows ->
  exists ex, scanExisting env i rows acc = Ok ex.
Proof.
  induction rows as [| row rows IH]; intros i acc H; cbn [scanExisting].
  - eexists. reflexivity.
  - apply Forall_cons in H as [Hr H]. destruct (truthy (cellAt row 0)).
    + destruct (Hr eq_refl) as [k ->]. apply IH, H.
    + apply IH, H.
Qed.






(** ** The upsert *)

Lemma scanExisting_lookup env rows : forall i acc ex,
  scanExisting env i rows acc = Ok ex ->
  forall k, ex !! k = match lastRowWith env k rows with
                      | Some j => Some (i + j + 1)%nat
                      | None => acc !! k
                      end.
Proof.
  induction rows as [| row rows IH]; intros i acc ex H k; cbn [scanExisting lastRowWith] in *.
  - injection H as <-. reflexivity.
  - unfold rowKey. destruct (truthy (cellAt row 0)) eqn:Ht.
    + destruct (dateKeyOf env (cellAt row 0)) as [dk | e] eqn:Hd; [| discriminate H].
      cbn [mbind Result_bind] in H. rewrite (IH _ _ _ H k).
      destruct (lastRowWith env k rows) as [j |]; [f_equal; lia |].
      destruct (decide (Some dk = Some k)) as [[= ->] | Hne].
      * rewrite lookup_insert_eq. f_equal. lia.
      * rewrite lookup_insert_ne by congruence. reflexivity.
    + rewrite (IH _ _ _ H k).
      destruct (lastRowWith env k rows) as [j |]; [f_equal; lia |].
      rewrite decide_False by discriminate. reflexivity.
Qed.

Lemma lastRowWith_None env k rows :
  lastRowWith env k rows = None ->
  forall j row, rows !! j = Some row -> rowKey env row <> Some k.
Proof.
  induction rows as [| r rows IH]; intros E j row Hj.
  - destruct j; discriminate Hj.
  - cbn [lastRowWith] in E. destruct (lastRowWith env k rows); [discriminate |].
    destruct (decide (rowKey env r = Some k)) as [| Hne]; [discriminate |].
    destruct j as [| j].
    + injection Hj as <-. exact Hne.
    + exact (IH eq_refl j row Hj).
Qed.

Lemma lastRowWith_Some env k rows : forall j,
  lastRowWith env k rows = Some j ->
  exists row, rows !! j = Some row /\ rowKey env row = Some k /\
    forall j' row', (j < j')%nat -> rows !! j' = Some row' -> rowKey env row' <> Some k.
Proof.
  induction rows as [| row rows IH]; intros j H; cbn [lastRowWith] in H; [discriminate |].
  destruct (lastRowWith env k rows) as [j0 |] eqn:E.
  - injection H as <-. destruct (IH _ eq_refl) as (r & Hr & Hk & Hlast).
    exists r. repeat split; auto.
    intros [| j'] row' Hlt Hl; [lia |]. apply (Hlast j'); [lia | exact Hl].
  - destruct (decide _) as [Hk |]; [| discriminate]. injection H as <-.
    exists row. repeat split; auto.
    intros [| j'] row' Hlt Hl; [lia |]. exact (lastRowWith_None _ _ _ E j' row' Hl).
Qed.

Lemma lastRowWith_intro env k rows : forall j row,
  rows !! j = Some row -> rowKey env row = Some k ->
  (forall j' row', (j < j')%nat -> rows !! j' = Some row' -> rowKey env row' <> Some k) ->
  lastRowWith env k rows = Some j.
Proof.
  intros j row Hj Hk Hlast.
  destruct (lastRowWith env k rows) as [j0 |] eqn:E.
  - destruct (lastRowWith_Some _ _ _ _ E) as (r0 & Hr0 & Hk0 & Hlast0).
    destruct (lt_eq_lt_dec j j0) as [[Hlt | ->] | Hgt]; [| reflexivity |].
    + exfalso. exact (Hlast _ _ Hlt Hr0 Hk0).
    + exfalso. exact (Hlast0 _ _ Hgt Hj Hk).
  - exfalso. exact (lastRowWith_None _ _ _ E j row Hj Hk).
Qed.

(** The map of existing dates that [upsertRows] builds: a row number is
    that of a row below the header filed under the key, and two keys never
    share a row. *)
Lemma existingDates_range env (sh : list SRow) ex k r :
  scanExisting env 1 (drop 1 (cells <$> sh)) ∅ = Ok ex ->
  ex !! k = Some r -> (2 <= r <= length sh)%nat.
Proof.
  intros Hs Hk. rewrite (scanExisting_lookup _ _ _ _ _ Hs k) in Hk.
  destruct (lastRowWith env k _) as [j |] eqn:E; [| rewrite lookup_empty in Hk; discriminate].
  injection Hk as <-. destruct (lastRowWith_Some _ _ _ _ E) as (row & Hr & _).
  apply lookup_lt_Some in Hr. rewrite length_drop, length_fmap in Hr. lia.
Qed.

Lemma existingDates_inj env (sh : list SRow) ex k1 k2 r :
  scanExisting env 1 (drop 1 (cells <$> sh)) ∅ = Ok ex ->
  ex !! k1 = Some r -> ex !! k2 = Some r -> k1 = k2.
Proof.
  intros Hs H1 H2.
  rewrite (scanExisting_lookup _ _ _ _ _ Hs k1) in H1.
  rewrite (scanExisting_lookup _ _ _ _ _ Hs k2) in H2.
  destruct (lastRowWith env k1 _) as [j1 |] eqn:E1; [| rewrite lookup_empty in H1; discriminate].
  destruct (lastRowWith env k2 _) as [j2 |] eqn:E2; [| rewrite lookup_empty in H2; discriminate].
  injection H1 as <-. injection H2 as H2. assert (j2 = j1) as -> by lia.
  destruct (lastRowWith_Some _ _ _ _ E1) as (row1 & Hr1 & Hk1 & _).
  destruct (lastRowWith_Some _ _ _ _ E2) as (row2 & Hr2 & Hk2 & _).
  congruence.
Qed.

Lemma upsertEntry_update env ex g sh k t r old :
  ex !! k = Some r -> sh !! (r - 1)%nat = Some old ->
  upsertEntry env ex g sh (k, t) =
  <[(r - 1)%nat := {| cells := rowDataOf env k t g ++ drop 4 (cells old);
                      statusFormat := Some (statusStyle (Num.sub g t)) |}]> sh.
Proof. intros Hk Hr. unfold upsertEntry, setRow. rewrite Hk, Hr. reflexivity. Qed.

Lemma upsertEntry_append env ex g sh k t :
  ex !! k = None ->
  upsertEntry env ex g sh (k, t) =
  (sh ++ [ {| cells := rowDataOf env k t g;
              statusFormat := Some (statusStyle (Num.sub g t)) |} ])%list.
Proof.
  intros Hk. unfold upsertEntry, setRow. rewrite Hk.
  replace (length sh + 1 - 1)%nat with (length sh) by lia.
  rewrite (lookup_ge_None_2 sh (length sh)) by lia.
  replace (length sh - length sh)%nat with 0%nat by lia. reflexivity.
Qed.

Section UpsertLoop.

Context (env : Env) (ex : gmap string nat) (g : Num) (n : nat).
Hypothesis ex_range : forall k r, ex !! k = Some r -> (1 <= r <= n)%nat.
Hypothesis ex_inj : forall k1 k2 r, ex !! k1 = Some r -> ex !! k2 = Some r -> k1 = k2.

Lemma upsertEntry_length sh e :
  (n <= length sh)%nat -> (length sh <= length (upsertEntry env ex g sh e))%nat.
Proof.
  intros Hn. destruct e as [k t]. destruct (ex !! k) as [r |] eqn:Hk.
  - destruct (lookup_lt_is_Some_2 sh (r - 1)%nat) as [old Hold].
    { apply ex_range in Hk. lia. }
    rewrite (upsertEntry_update _ _ _ _ _ _ _ _ Hk Hold), length_insert. lia.
  - rewrite (upsertEntry_append _ _ _ _ _ _ Hk), length_app. simpl. lia.
Qed.

(** A turn of the loop leaves alone every row it does not aim at. *)
Lemma upsertEntry_other sh k t i row :
  (n <= length sh)%nat -> sh !! i = Some row -> ex !! k <> Some (S i) ->
  upsertEntry env ex g sh (k, t) !! i = Some row.
Proof.
  intros Hn Hi Hne. destruct (ex !! k) as [r |] eqn:Hk.
  - destruct (lookup_lt_is_Some_2 sh (r - 1)%nat) as [old Hold].
    { apply ex_range in Hk. lia. }
    rewrite (upsertEntry_update _ _ _ _ _ _ _ _ Hk Hold).
    rewrite list_lookup_insert_ne; [exact Hi |].
    intros <-. apply Hne. f_equal. apply ex_range in Hk. lia.
  - rewrite (upsertEntry_append _ _ _ _ _ _ Hk).
    rewrite lookup_app_l; [exact Hi |]. apply lookup_lt_Some in Hi. exact Hi.
Qed.

Lemma upsert_loop_untouched m : forall sh i row,
  (n <= length sh)%nat -> sh !! i = Some row ->
  (forall k t, (k, t) ∈ m -> ex !! k <> Some (S i)) ->
  foldl (upsertEntry env ex g) sh m !! i = Some row.
Proof.
  induction m as [| [k t] m IH]; intros sh i row Hn Hi Hm; cbn [foldl]; [exact Hi |].
  apply IH.
  - pose proof (upsertEntry_length sh (k, t) Hn). lia.
  - apply upsertEntry_other; auto. apply (Hm k t). left.
  - intros k' t' Hin. apply (Hm k' t'). right. exact Hin.
Qed.

(** The row that a turn of the loop writes. *)
Lemma upsertEntry_written sh k t :
  (n <= length sh)%nat ->
  exists i row',
    upsertEntry env ex g sh (k, t) !! i = Some row' /\ recordOf env k t g row' /\
    match ex !! k with
    | Some r => i = (r - 1)%nat /\
                exists old, sh !! i = Some old /\
                            cells row' = (rowDataOf env k t g ++ drop 4 (cells old))%list
    | None => i = length sh /\ cells row' = rowDataOf env k t g
    end.
Proof.
  intros Hn. destruct (ex !! k) as [r |] eqn:Hk.
  - destruct (lookup_lt_is_Some_2 sh (r - 1)%nat) as [old Hold].
    { apply ex_range in Hk. lia. }
    rewrite (upsertEntry_update _ _ _ _ _ _ _ _ Hk Hold).
    eexists _, _. split; [apply list_lookup_insert_eq; eapply lookup_lt_Some; exact Hold |].
    split; [split; reflexivity |]. split; [reflexivity |]. exists old. auto.
  - rewrite (upsertEntry_append _ _ _ _ _ _ Hk).
    exists (length sh). eexists. split.
    { rewrite lookup_app_r by lia. replace (length sh - length sh)%nat with 0%nat by lia.
      reflexivity. }
    split; [split; reflexivity |]. auto.
Qed.

(** Every pair of the totals map leaves its record in the sheet: in the
    row of its day when the map of existing dates has one, in a row
    added below the sheet otherwise. *)
Lemma upsert_loop_written m : forall sh,
  NoDup m.*1 -> (n <= length sh)%nat ->
  forall k t, (k, t) ∈ m ->
  exists i row',
    foldl (upsertEntry env ex g) sh m !! i = Some row' /\ recordOf env k t g row' /\
    match ex !! k with
    | Some r => i = (r - 1)%nat /\
                exists old, sh !! i = Some old /\
                            cells row' = (rowDataOf env k t g ++ drop 4 (cells old))%list
    | None => (length sh <= i)%nat /\ cells row' = rowDataOf env k t g
    end.
Proof.
  induction m as [| [k0 t0] m IH]; intros sh Hnd Hn k t Hin.
  { apply elem_of_nil in Hin. contradiction. }
  rewrite fmap_cons in Hnd. apply NoDup_cons in Hnd as [Hk0 Hnd]. cbn [fst] in Hk0.
  pose proof (upsertEntry_length sh (k0, t0) Hn) as Hlen.
  cbn [foldl]. apply elem_of_cons in Hin as [[= -> ->] | Hin].
  - destruct (upsertEntry_written sh k0 t0 Hn) as (i & row' & Hi & Hrec & Hpos).
    exists i, row'. split; [| split; [exact Hrec |]].
    + apply upsert_loop_untouched; [lia | exact Hi |].
      intros k' t' Hin' Hk'.
      assert (k' <> k0).
      { intros ->. apply Hk0. apply list_elem_of_fmap. exists (k0, t'). auto. }
      destruct (ex !! k0) as [r |] eqn:Hk.
      * destruct Hpos as [-> _]. apply ex_range in Hk as Hr.
        replace (S (r - 1)) with r in Hk' by lia. eauto.
      * destruct Hpos as [-> _]. apply ex_range in Hk'. lia.
    + destruct (ex !! k0); [exact Hpos |]. destruct Hpos as [-> ?]. auto.
  - assert (k <> k0).
    { intros ->. apply Hk0. apply list_elem_of_fmap. exists (k0, t). auto. }
    destruct (IH (upsertEntry env ex g sh (k0, t0)) Hnd ltac:(lia) k t Hin)
      as (i & row' & Hi & Hrec & Hpos).
    exists i, row'. split; [exact Hi |]. split; [exact Hrec |].
    destruct (ex !! k) as [r |] eqn:Hk.
    + destruct Hpos as (-> & old & Hold & Hcells). split; [reflexivity |].
      exists old. split; [| exact Hcells].
      apply ex_range in Hk as Hr.
      destruct (lookup_lt_is_Some_2 sh (r - 1)%nat) as [old' Hold']; [lia |].
      assert (Hne : ex !! k0 <> Some (S (r - 1))).
      { replace (S (r - 1)) with r by lia. intros Hk0'. eauto. }
      rewrite (upsertEntry_other sh k0 t0 _ _ Hn Hold' Hne) in Hold. congruence.
    + destruct Hpos as [Hge Hcells]. split; [lia | exact Hcells].
Qed.

End UpsertLoop.

Lemma ofNum_negative q :
  (q < 0)%Q -> Str.ofNum (Num.Fin q) = "-" ++ Str.ofNum (Num.Fin (- q)).
Proof.
  intros Hq. unfold Str.ofNum.
  assert (Qle_bool 0 q = false) as ->.
  { destruct (Qle_bool 0 q) eqn:E; [| reflexivity].
    apply Qle_bool_iff in E. exfalso. exact (Qlt_not_le _ _ Hq E). }
  assert (Qle_bool 0 (- q) = true) as ->; [| reflexivity].
  apply Qle_bool_iff. apply Qlt_le_weak. rewrite <- (Qplus_0_l (- q)).
  apply Qlt_minus_iff in Hq. exact Hq.
Qed.

Lemma upsertRows_ok env sh m g :
  formattable env (drop 1 (cells <$> sh)) ->
  exists ex,
    scanExisting env 1 (drop 1 (cells <$> sh)) ∅ = Ok ex /\
    upsertRows env sh (Some m) g = Ok (foldl (upsertEntry env ex g) sh m).
Proof.
  intros Hf. destruct (scanExisting_total env _ 1%nat ∅ Hf) as [ex Hex].
  exists ex. split; [exact Hex |]. unfold upsertRows. rewrite Hex. reflexivity.
Qed.

(** C6: the upsert, which succeeds whenever the dates of the sheet can be
    formatted, leaves for every pair (date key, total) of the totals map a
    row holding the date, the total, the limit [g] and the status text,
    its status cell formatted, such that with [remaining = g - total]: if
    [remaining >= 0] (zero included) the text is [Under Goal (+remaining)]
    and the format is the green one; if [remaining < 0] the text is
    [Over Goal (-x)], [x] the excess, and the format is the red one. *)
Theorem C6_status_of_every_pair env (sh : list SRow) (m : TotalsMap) (g : Num) :
  NoDup m.*1 -> formattable env (drop 1 (cells <$> sh)) ->
  exists sh',
    upsertRows env sh (Some m) g = Ok sh' /\
    forall k t, (k, t) ∈ m ->
      exists i row status,
        sh' !! i = Some row /\
        take 4 (cells row) = [CDate (parseDate env k); CNum t; CNum g; CStr status] /\
        forall remaining, Num.sub g t = Num.Fin remaining ->
          ((0 <= remaining)%Q ->
             status = "Under Goal (+" ++ Str.ofNum (Num.Fin remaining) ++ ")" /\
             statusFormat row = Some Green) /\
          ((remaining < 0)%Q ->
             status = "Over Goal (-" ++ Str.ofNum (Num.Fin (- remaining)) ++ ")" /\
             statusFormat row = Some Red).
Proof.
  intros Hnd Hf. destruct (upsertRows_ok env sh m g Hf) as (ex & Hex & Hup).
  eexists. split; [exact Hup |]. intros k t Hin.
  destruct (upsert_loop_written env ex g (length sh)
              (fun k r H => let H' := existingDates_range env sh ex k r Hex H in
                            conj (Nat.le_trans _ _ _ (Nat.le_succ_diag_r 1) (proj1 H')) (proj2 H'))
              (fun k1 k2 r => existingDates_inj env sh ex k1 k2 r Hex)
              m sh Hnd (Nat.le_refl _) k t Hin) as (i & row & Hi & [Hcells Hfmt] & _).
  exists i, row, (statusText (Num.sub g t)). split; [exact Hi |]. split; [exact Hcells |].
  intros q Hq. rewrite Hfmt, Hq. unfold statusText, statusStyle, Num.geZero. split.
  - intros Hpos. apply Qle_bool_iff in Hpos. rewrite Hpos. auto.
  - intros Hneg. rewrite (ofNum_negative q Hneg).
    destruct (Qle_bool 0 q) eqn:E; [| auto].
    apply Qle_bool_iff in E. exfalso. exact (Qlt_not_le _ _ Hneg E).
Qed.

Lemma C6_status_of_every_pair_witness :
  NoDup Sample.twoDays.*1 /\
  exists sh',
    upsertRows jakarta [Sample.summaryHeader] (Some Sample.twoDays) (Num.ofZ 2056) = Ok sh' /\
    forall k t, (k, t) ∈ Sample.twoDays ->
      exists i row status,
        sh' !! i = Some row /\
        take 4 (cells row) = [CDate (parseDate jakarta k); CNum t; CNum (Num.ofZ 2056); CStr status] /\
        forall remaining, Num.sub (Num.ofZ 2056) t = Num.Fin remaining ->
          ((0 <= remaining)%Q ->
             status = "Under Goal (+" ++ Str.ofNum (Num.Fin remaining) ++ ")" /\
             statusFormat row = Some Green) /\
          ((remaining < 0)%Q ->
             status = "Over Goal (-" ++ Str.ofNum (Num.Fin (- remaining)) ++ ")" /\
             statusFormat row = Some Red).
Proof.
  assert (Hnd : NoDup Sample.twoDays.*1).
  { apply (bool_decide_unpack _). vm_compute. exact I. }
  split; [exact Hnd |].
  apply (C6_status_of_every_pair jakarta [Sample.summaryHeader] Sample.twoDays (Num.ofZ 2056) Hnd).
  simpl. constructor.
Defined.

Lemma computeDailyTotalsFromLog_entries env ss header row rows :
  logSheet ss = Some (header :: row :: rows) ->
  computeDailyTotalsFromLog env ss = Ok (Some (foldl (addLogRow env) [] (row :: rows))).
Proof. intros H. unfold computeDailyTotalsFromLog. rewrite H. reflexivity. Qed.

Lemma aggregate_NoDup env rows : NoDup (foldl (addLogRow env) [] rows).*1.
Proof.
  destruct (addLogRow_fold env rows [] allFin_nil) as (_ & _ & _ & H & _).
  apply H. constructor.
Qed.

Lemma onEdit_profile_changed env ss c :
  c ∈ metricsRange ->
  onEdit env (Some {| editedSheet := "Dashboard"; editedCell := c |}) ss =
  match profileChangedSteps env ss with
  | Ok ss' => ss'
  | Err _ => ss
  end.
Proof.
  intros Hc. unfold onEdit. cbn [editedSheet editedCell].
  change (String.eqb "Dashboard" "Log") with false.
  change (String.eqb "Dashboard" "Dashboard") with true. cbv beta iota.
  assert (existsb (String.eqb c) metricsRange = true) as ->; [| reflexivity].
  unfold metricsRange in *.
  repeat (apply elem_of_cons in Hc as [-> | Hc]; [reflexivity |]).
  apply elem_of_nil in Hc. contradiction.
Qed.

(** C5, the claim at a Daily Summary sheet that holds the record of
    2024-01-10 written under the limit 2556, while the Log has entries for
    2024-01-15 only and the profile now gives 2056: after the edit of the
    goal offset the record of 2024-01-10 is what it was, with its limit
    2556, its remainder and its status. *)
Lemma C5_record_without_entries_keeps_old_limit :
  let ss := Sample.book Sample.profile
              (Sample.meals (Sample.jan15 420 0 0))
              [Sample.summaryHeader; Sample.oldRecord] in
  getMaxCaloriesFromDashboard jakarta ss = Ok (Num.ofZ 2056) /\
  summarySheet (onEdit jakarta (Some Sample.goalEdited) ss)
    = Some [Sample.summaryHeader; Sample.oldRecord; Sample.january15] /\
  cellAt (cells Sample.oldRecord) 2 = CNum (Num.ofZ 2556) /\
  Num.ofZ 2556 <> Num.ofZ 2056.
Proof. repeat split; try (vm_compute; reflexivity). discriminate. Qed.

(** C5, amended: when a personal parameter (H2 to H7) of the Dashboard is
    edited, the profile yields the limit [g] and the Log has entries, every
    existing record of the Daily Summary sheet whose date key [k] has a
    total [t] in the recomputed totals map (the last row filed under [k],
    the dates of the sheet being formattable) is rewritten in place: its
    first four cells become the date, [t], [g] and the status of [g - t],
    and its status cell takes the matching format. *)
Theorem C5_profile_change_rewrites_days_of_the_log
    env ss header entry entries (sh : list SRow) (i : nat) (row : SRow) k t g c :
  c ∈ metricsRange ->
  getMaxCaloriesFromDashboard env ss = Ok g ->
  logSheet ss = Some (header :: entry :: entries) ->
  summarySheet ss = Some sh ->
  formattable env (drop 1 (cells <$> sh)) ->
  (1 <= i)%nat -> sh !! i = Some row -> rowKey env (cells row) = Some k ->
  (forall j row', (i < j)%nat -> sh !! j = Some row' -> rowKey env (cells row') <> Some k) ->
  mapGet k (foldl (addLogRow env) [] (entry :: entries)) = Some t ->
  exists sh' row',
    summarySheet (onEdit env (Some {| editedSheet := "Dashboard"; editedCell := c |}) ss)
      = Some sh' /\
    sh' !! i = Some row' /\
    cells row' = ([CDate (parseDate env k); CNum t; CNum g; CStr (statusText (Num.sub g t))]
                   ++ drop 4 (cells row))%list /\
    statusFormat row' = Some (statusStyle (Num.sub g t)).
Proof.
  intros Hc Hg Hlog Hsum Hf Hi Hrow Hkey Hlast Ht.
  rewrite (onEdit_profile_changed env ss c Hc). unfold profileChangedSteps.
  rewrite Hg, (computeDailyTotalsFromLog_entries env ss _ _ _ Hlog).
  cbn [mbind Result_bind]. unfold upsertDailySummary. rewrite Hsum.
  set (m := foldl (addLogRow env) [] (entry :: entries)) in *.
  destruct (upsertRows_ok env sh m g Hf) as (ex & Hex & Hup). rewrite Hup.
  cbn [mbind Result_bind]. rewrite updateDashboardTodayView_summary. cbn [summarySheet].
  assert (Hexk : ex !! k = Some (S i)).
  { rewrite (scanExisting_lookup _ _ _ _ _ Hex k).
    destruct i as [| i']; [lia |].
    rewrite (lastRowWith_intro env k (drop 1 (cells <$> sh)) i' (cells row)).
    - f_equal. lia.
    - rewrite lookup_drop, list_lookup_fmap. cbn. rewrite Hrow. reflexivity.
    - exact Hkey.
    - intros j' row' Hlt Hj'. rewrite lookup_drop, list_lookup_fmap in Hj'.
      destruct (sh !! (1 + j')%nat) as [r |] eqn:Hr; [| discriminate].
      injection Hj' as <-. apply (Hlast (1 + j')%nat r); [lia | exact Hr]. }
  destruct (upsert_loop_written env ex g (length sh)
              (fun k r H => let H' := existingDates_range env sh ex k r Hex H in
                            conj (Nat.le_trans _ _ _ (Nat.le_succ_diag_r 1) (proj1 H')) (proj2 H'))
              (fun k1 k2 r => existingDates_inj env sh ex k1 k2 r Hex)
              m sh (aggregate_NoDup env _) (Nat.le_refl _) k t (mapGet_Some_elem _ _ _ Ht))
    as (i0 & row' & Hi0 & [Hcells Hfmt] & Hpos).
  rewrite Hexk in Hpos. destruct Hpos as (-> & old & Hold & Hc').
  replace (S i - 1)%nat with i in * by lia.
  exists (foldl (upsertEntry env ex g) sh m), row'.
  split; [reflexivity |]. split; [exact Hi0 |]. split; [| exact Hfmt].
  rewrite Hc'. assert (old = row) as -> by congruence. reflexivity.
Qed.

Lemma C5_profile_change_rewrites_days_of_the_log_witness :
  let ss := Sample.book Sample.profile (Sample.meals (Sample.jan15 420 0 0))
              [Sample.summaryHeader; Sample.staleJanuary15] in
  getMaxCaloriesFromDashboard jakarta ss = Ok (Num.ofZ 2056) /\
  rowKey jakarta (cells Sample.staleJanuary15) = Some "2024-01-15" /\
  exists sh' row',
    summarySheet (onEdit jakarta (Some Sample.goalEdited) ss) = Some sh' /\
    sh' !! 1%nat = Some row' /\
    cells row' = ([CDate (parseDate jakarta "2024-01-15"); CNum (Num.ofZ 1600);
                   CNum (Num.ofZ 2056);
                   CStr (statusText (Num.sub (Num.ofZ 2056) (Num.ofZ 1600)))]
                   ++ drop 4 (cells Sample.staleJanuary15))%list /\
    statusFormat row' = Some (statusStyle (Num.sub (Num.ofZ 2056) (Num.ofZ 1600))).
Proof.
  intros ss.
  assert (Hg : getMaxCaloriesFromDashboard jakarta ss = Ok (Num.ofZ 2056))
    by (vm_compute; reflexivity).
  assert (Hk : rowKey jakarta (cells Sample.staleJanuary15) = Some "2024-01-15")
    by (vm_compute; reflexivity).
  split; [exact Hg |]. split; [exact Hk |].
  apply (C5_profile_change_rewrites_days_of_the_log jakarta ss Sample.logHeader
           (Sample.entry (Sample.jan15 420 0 0) "08:30" "Breakfast"
              "Oatmeal with banana and coffee" (Sample.kcal 350))
           (List.tl (Sample.meals (Sample.jan15 420 0 0)))
           [Sample.summaryHeader; Sample.staleJanuary15] 1 Sample.staleJanuary15
           "2024-01-15" (Num.ofZ 1600) (Num.ofZ 2056) "H7").
  - apply (bool_decide_unpack _). vm_compute. exact I.
  - exact Hg.
  - reflexivity.
  - reflexivity.
  - constructor; [| constructor]. intros _. eexists. vm_compute. reflexivity.
  - lia.
  - reflexivity.
  - exact Hk.
  - intros [| [| j]] row' Hlt Hj; [lia | lia | discriminate Hj].
  - vm_compute. reflexivity.
Defined.

(** ** The sample scenario *)

Lemma entryOf_onDay env d k time meal text c :
  onDay env d k -> truthy c = true ->
  entryOf env (Sample.entry d time meal text c)
  = Some (k, Num.orElse (parseFloat env c) Num.zero).
Proof.
  intros (Ht & t & Hd & Hk) Hc. unfold entryOf, Sample.entry, cellAt, LOG_DATE, LOG_CALORIES.
  cbn [lookup list_lookup default from_option id]. unfold id.
  rewrite Ht, Hc, Hd, Hk. reflexivity.
Qed.

(** C7: for the profile (Male, 70 kg, 175 cm, 30 y, 1.55, -500), given as
    the texts of the drop-down lists or as plain numbers, the basal rate is
    1648.75, the expenditure 2555.5625 and the goal 2056; and for a Log
    whose four entries, of 350, 450, 600 and 200 kcal, fall on 2024-01-15,
    in a script time zone where the key 2024-01-15 is stable (the date
    built from it falls on 2024-01-15 again, as at and east of Greenwich),
    the total of that day is 1600, the remainder is 456, and the refresh of
    a Daily Summary sheet that holds its header alone leaves one record:
    a date that falls on 2024-01-15, 1600, 2056 and [Under Goal (+456)],
    its status cell in the green format, filed under the key
    2024-01-15. *)
Theorem C7_sample_scenario env d1 d2 d3 d4 :
  onDay env d1 "2024-01-15" -> onDay env d2 "2024-01-15" ->
  onDay env d3 "2024-01-15" -> onDay env d4 "2024-01-15" ->
  stableKey env "2024-01-15" ->
  let ss := Sample.book Sample.profile (Sample.fourMeals d1 d2 d3 d4) [Sample.summaryHeader] in
  let bmr := bmrOf "male" (Num.ofZ 70) (Num.ofZ 175) (Num.ofZ 30) in
  Num.eqv bmr (Num.Fin 1648.75) /\
  Num.eqv (Num.mul bmr (Num.Fin 1.55)) (Num.Fin 2555.5625) /\
  maxCaloriesOf env Sample.profile = Ok (Num.ofZ 2056) /\
  maxCaloriesOf env Sample.plainProfile = Ok (Num.ofZ 2056) /\
  computeDailyTotalsFromLog env ss = Ok (Some [("2024-01-15", Num.ofZ 1600)]) /\
  Num.sub (Num.ofZ 2056) (Num.ofZ 1600) = Num.ofZ 456 /\
  exists t,
    formatDate env t = "2024-01-15" /\
    summarySheet (refreshCaloryDiary env ss)
    = Some [ Sample.summaryHeader;
             {| cells := [CDate (Some t); CNum (Num.ofZ 1600);
                          CNum (Num.ofZ 2056); CStr "Under Goal (+456)"];
                statusFormat := Some Green |} ] /\
    rowKey env [CDate (Some t); CNum (Num.ofZ 1600); CNum (Num.ofZ 2056);
                CStr "Under Goal (+456)"] = Some "2024-01-15".
Proof.
  intros H1 H2 H3 H4 (t & Hp & Hf) ss bmr.
  assert (Hg : getMaxCaloriesFromDashboard env ss = Ok (Num.ofZ 2056))
    by (vm_compute; reflexivity).
  assert (Hc : computeDailyTotalsFromLog env ss = Ok (Some [("2024-01-15", Num.ofZ 1600)])).
  { unfold computeDailyTotalsFromLog, ss, Sample.book, Sample.fourMeals.
    cbn [logSheet length Nat.leb drop foldl].
    rewrite !addLogRow_entryOf.
    rewrite (entryOf_onDay env d1 _ _ _ _ _ H1) by reflexivity.
    rewrite (entryOf_onDay env d2 _ _ _ _ _ H2) by reflexivity.
    rewrite (entryOf_onDay env d3 _ _ _ _ _ H3) by reflexivity.
    rewrite (entryOf_onDay env d4 _ _ _ _ _ H4) by reflexivity.
    vm_compute. reflexivity. }
  split; [vm_compute; reflexivity |]. split; [vm_compute; reflexivity |].
  split; [vm_compute; reflexivity |]. split; [vm_compute; reflexivity |].
  split; [exact Hc |]. split; [vm_compute; reflexivity |].
  exists t. split; [exact Hf |]. split.
  - unfold refreshCaloryDiary, refreshSteps. rewrite Hg, Hc.
    cbn [mbind Result_bind keyCount]. unfold upsertDailySummary, ss, Sample.book.
    cbn [summarySheet dashboardSheet logSheet].
    assert (Hu : upsertRows env [Sample.summaryHeader]
                   (Some [("2024-01-15", Num.ofZ 1600)]) (Num.ofZ 2056)
                 = Ok [ Sample.summaryHeader;
                        {| cells := [CDate (parseDate env "2024-01-15"); CNum (Num.ofZ 1600);
                                     CNum (Num.ofZ 2056); CStr "Under Goal (+456)"];
                           statusFormat := Some Green |} ])
      by (vm_compute; reflexivity).
    rewrite Hu, Hp. cbn [mbind Result_bind].
    rewrite updateDashboardTodayView_summary. reflexivity.
  - change (rowKey env [CDate (Some t); CNum (Num.ofZ 1600); CNum (Num.ofZ 2056);
                        CStr "Under Goal (+456)"])
      with (Some (formatDate env t)).
    rewrite Hf. reflexivity.
Qed.

Lemma C7_sample_scenario_witness :
  onDay jakarta (Sample.jan15 420 8 30) "2024-01-15" /\
  stableKey jakarta "2024-01-15" /\
  summarySheet
    (refreshCaloryDiary jakarta
       (Sample.book Sample.profile
          (Sample.fourMeals (Sample.jan15 420 8 30) (Sample.jan15 420 12 30)
             (Sample.jan15 420 19 0) (Sample.jan15 420 15 0))
          [Sample.summaryHeader]))
  = Some [Sample.summaryHeader; Sample.january15] /\
  rowKey jakarta (cells Sample.january15) = Some "2024-01-15".
Proof.
  assert (H : forall hh mm,
                formatDate jakarta (Host.at_ 420 2024 1 15 hh mm) = "2024-01-15" ->
                onDay jakarta (Sample.jan15 420 hh mm) "2024-01-15").
  { intros hh mm Hf. split; [reflexivity |]. eexists. split; [reflexivity | exact Hf]. }
  assert (H1 : onDay jakarta (Sample.jan15 420 8 30) "2024-01-15")
    by (apply H; vm_compute; reflexivity).
  assert (H2 : onDay jakarta (Sample.jan15 420 12 30) "2024-01-15")
    by (apply H; vm_compute; reflexivity).
  assert (H3 : onDay jakarta (Sample.jan15 420 19 0) "2024-01-15")
    by (apply H; vm_compute; reflexivity).
  assert (H4 : onDay jakarta (Sample.jan15 420 15 0) "2024-01-15")
    by (apply H; vm_compute; reflexivity).
  assert (Hs : stableKey jakarta "2024-01-15").
  { eexists. split; [vm_compute; reflexivity | vm_compute; reflexivity]. }
  split; [exact H1 |]. split; [exact Hs |].
  destruct (C7_sample_scenario jakarta _ _ _ _ H1 H2 H3 H4 Hs)
    as (_ & _ & _ & _ & _ & _ & t & _ & Hsum & _).
  split; [| vm_compute; reflexivity].
  rewrite Hsum. vm_compute in Hsum. injection Hsum as Ht. rewrite <- Ht. reflexivity.
Defined.

(** ** Repeated upserts *)

Lemma rowKey_record env k t g rest :
  stableKey env k -> rowKey env (rowDataOf env k t g ++ rest) = Some k.
Proof.
  intros (ms & Hp & Hf). unfold rowKey, rowDataOf, cellAt, dateKeyOf.
  cbn [app lookup list_lookup default from_option]. unfold id.
  rewrite Hp. cbn [truthy newDate]. rewrite Hf. reflexivity.
Qed.

Lemma rewritten_rowKey env g row row' :
  rewritten env g row row' -> rowKey env (cells row') = rowKey env (cells row).
Proof.
  intros [-> | (k & t & Hk & Hs & ->)]; [reflexivity |].
  rewrite rowKey_record by exact Hs. symmetry. exact Hk.
Qed.

Lemma rewritten_formattable env g row row' :
  rewritten env g row row' ->
  (truthy (cellAt (cells row) 0) = true -> exists k, dateKeyOf env (cellAt (cells row) 0) = Ok k) ->
  truthy (cellAt (cells row') 0) = true -> exists k, dateKeyOf env (cellAt (cells row') 0) = Ok k.
Proof.
  intros [-> | (k & t & Hk & Hs & Hc)] H; [exact H |]. intros _.
  pose proof (rowKey_record env k t g (drop 4 (cells row)) Hs) as Hr. rewrite <- Hc in Hr.
  unfold rowKey in Hr. destruct (truthy (cellAt (cells row') 0)); [| discriminate Hr].
  destruct (dateKeyOf env (cellAt (cells row') 0)) as [k' |]; [| discriminate Hr].
  exists k'. reflexivity.
Qed.

Section UpsertSplit.

Context (env : Env) (ex : gmap string nat) (g : Num) (n : nat).
Hypothesis ex_range : forall k r, ex !! k = Some r -> (1 <= r <= n)%nat.

(** The loop treats the rows of the sheet and the rows it adds apart: it
    rewrites rows in place and lines up below them, in the order of the
    totals map, the records of the days that had no row. *)
Lemma upsert_loop_split (m : TotalsMap) : forall sh suffix : list SRow,
  (n <= length sh)%nat ->
  foldl (upsertEntry env ex g) (sh ++ suffix)%list m =
  (foldl (updateEntry env ex g) sh m ++ suffix
     ++ (newRecord env g <$> filter (fun e => ex !! e.1 = None) m))%list.
Proof.
  induction m as [| [k t] m IH]; intros sh suffix Hn; cbn [foldl].
  - cbn. rewrite !app_nil_r. reflexivity.
  - unfold updateEntry at 2. cbn [fst snd]. destruct (ex !! k) as [r |] eqn:Hk.
    + rewrite filter_cons, decide_False by (cbn [fst]; rewrite Hk; discriminate).
      destruct (lookup_lt_is_Some_2 sh (r - 1)%nat) as [old Hold].
      { apply ex_range in Hk. lia. }
      assert (Hold' : (sh ++ suffix)%list !! (r - 1)%nat = Some old)
        by (rewrite lookup_app_l by (eapply lookup_lt_Some; exact Hold); exact Hold).
      rewrite (upsertEntry_update _ _ _ _ _ _ _ _ Hk Hold').
      unfold setRow. rewrite Hold.
      rewrite insert_app_l by (eapply lookup_lt_Some; exact Hold).
      apply IH. rewrite length_insert. exact Hn.
    + rewrite filter_cons, decide_True by (cbn [fst]; exact Hk).
      rewrite (upsertEntry_append _ _ _ _ _ _ Hk), <- app_assoc.
      rewrite (IH sh _ Hn), fmap_cons, <- app_assoc. reflexivity.
Qed.

(** The rows rewritten in place keep the key they were filed under. *)
Lemma update_loop_rewritten (sh : list SRow) m :
  (forall k r, ex !! k = Some r ->
               exists row, sh !! (r - 1)%nat = Some row /\ rowKey env (cells row) = Some k) ->
  (forall e, e ∈ m -> stableKey env e.1) ->
  forall cur, Forall2 (rewritten env g) sh cur ->
              Forall2 (rewritten env g) sh (foldl (updateEntry env ex g) cur m).
Proof.
  intros Hkey. induction m as [| [k t] m IH]; intros Hst cur Hcur; cbn [foldl]; [exact Hcur |].
  apply IH; [intros e He; apply Hst; right; exact He |].
  unfold updateEntry. cbn [fst snd]. destruct (ex !! k) as [r |] eqn:Hk; [| exact Hcur].
  destruct (Hkey k r Hk) as (row & Hrow & Hrk).
  destruct (Forall2_lookup_l _ _ _ _ _ Hcur Hrow) as (c & Hc & Hrel).
  unfold setRow. rewrite Hc.
  rewrite <- (list_insert_id sh (r - 1)%nat row Hrow). apply Forall2_insert; [exact Hcur |].
  right. exists k, t. split; [exact Hrk |]. split; [apply (Hst (k, t)); left |].
  cbn [cells]. destruct Hrel as [-> | (k0 & t0 & _ & _ & ->)]; reflexivity.
Qed.

End UpsertSplit.

Lemma lastRowWith_app env k l1 l2 :
  lastRowWith env k (l1 ++ l2) =
  match lastRowWith env k l2 with
  | Some j => Some (length l1 + j)%nat
  | None => lastRowWith env k l1
  end.
Proof.
  induction l1 as [| a l1 IH].
  - cbn [app length]. destruct (lastRowWith env k l2); reflexivity.
  - change ((a :: l1) ++ l2)%list with (a :: (l1 ++ l2))%list. cbn [lastRowWith length].
    rewrite IH. destruct (lastRowWith env k l2); reflexivity.
Qed.

Lemma lastRowWith_ext env k l1 l2 :
  Forall2 (fun a b => rowKey env a = rowKey env b) l1 l2 ->
  lastRowWith env k l1 = lastRowWith env k l2.
Proof.
  induction 1 as [| a b l1 l2 Hab _ IH]; [reflexivity |].
  cbn [lastRowWith]. rewrite IH, Hab. reflexivity.
Qed.

Section Records.

Context (env : Env) (g : Num) (news : TotalsMap).
Hypothesis news_stable : forall e, e ∈ news -> stableKey env e.1.
Hypothesis news_NoDup : NoDup news.*1.

Lemma rowKey_newRecord e : e ∈ news -> rowKey env (cells (newRecord env g e)) = Some e.1.
Proof.
  intros He. unfold newRecord. cbn [cells].
  rewrite <- (app_nil_r (rowDataOf env e.1 e.2 g)). apply rowKey_record, news_stable, He.
Qed.

Lemma lastRowWith_records_Some j k t :
  news !! j = Some (k, t) ->
  lastRowWith env k (cells <$> (newRecord env g <$> news)) = Some j.
Proof.
  intros Hj. apply lastRowWith_intro with (cells (newRecord env g (k, t))).
  - rewrite !list_lookup_fmap, Hj. reflexivity.
  - apply (rowKey_newRecord (k, t)). eapply list_elem_of_lookup_2. exact Hj.
  - intros j' row' Hlt Hj' Hk. rewrite !list_lookup_fmap in Hj'.
    destruct (news !! j') as [[k' t'] |] eqn:E; [| discriminate].
    assert (Hk' : rowKey env row' = Some k').
    { change (Some (cells (newRecord env g (k', t'))) = Some row') in Hj'.
      injection Hj' as Heq. rewrite <- Heq.
      exact (rowKey_newRecord (k', t') (list_elem_of_lookup_2 _ _ _ E)). }
    assert (k' = k) as -> by congruence.
    assert (j = j'); [| lia].
    apply (NoDup_lookup news.*1 j j' k news_NoDup); rewrite list_lookup_fmap.
    + rewrite Hj. reflexivity.
    + rewrite E. reflexivity.
Qed.

Lemma lastRowWith_records_None k :
  k ∉ news.*1 -> lastRowWith env k (cells <$> (newRecord env g <$> news)) = None.
Proof.
  intros Hk. destruct (lastRowWith env k _) as [j |] eqn:E; [| reflexivity].
  destruct (lastRowWith_Some _ _ _ _ E) as (row & Hj & Hrk & _).
  rewrite !list_lookup_fmap in Hj.
  destruct (news !! j) as [e |] eqn:Ee; [| discriminate].
  assert (Hk' : rowKey env row = Some e.1).
  { change (Some (cells (newRecord env g e)) = Some row) in Hj.
    injection Hj as Heq. rewrite <- Heq.
    exact (rowKey_newRecord e (list_elem_of_lookup_2 _ _ _ Ee)). }
  assert (e.1 = k) as <- by congruence. exfalso. apply Hk. apply list_elem_of_fmap. exists e.
  split; [reflexivity | eapply list_elem_of_lookup_2; exact Ee].
Qed.

End Records.

Lemma existingDates_key env (sh : list SRow) ex k r :
  scanExisting env 1 (drop 1 (cells <$> sh)) ∅ = Ok ex ->
  ex !! k = Some r ->
  exists row, sh !! (r - 1)%nat = Some row /\ rowKey env (cells row) = Some k.
Proof.
  intros Hs Hk. rewrite (scanExisting_lookup _ _ _ _ _ Hs k) in Hk.
  destruct (lastRowWith env k _) as [j |] eqn:E; [| rewrite lookup_empty in Hk; discriminate].
  injection Hk as <-. destruct (lastRowWith_Some _ _ _ _ E) as (row & Hr & Hrk & _).
  rewrite lookup_drop, list_lookup_fmap in Hr.
  destruct (sh !! (1 + j)%nat) as [srow |] eqn:Hsr; [| discriminate].
  change (Some (cells srow) = Some row) in Hr. injection Hr as Heq.
  exists srow. split; [rewrite <- Hsr; f_equal; lia |]. rewrite Heq. exact Hrk.
Qed.

Lemma foldl_fixed {A B} (f : A -> B -> A) (a : A) (l : list B) :
  (forall b, b ∈ l -> f a b = a) -> foldl f a l = a.
Proof.
  induction l as [| b l IH]; intros H; cbn [foldl]; [reflexivity |].
  rewrite (H b) by left. apply IH. intros b' Hb'. apply H. right. exact Hb'.
Qed.

Lemma rewritten_rows_formattable env g (sh U : list SRow) :
  Forall2 (rewritten env g) sh U ->
  formattable env (drop 1 (cells <$> sh)) -> formattable env (drop 1 (cells <$> U)).
Proof.
  intros HU. unfold formattable. rewrite <- !fmap_drop, !Forall_fmap.
  apply (Forall2_drop _ _ _ 1) in HU. induction HU as [| a b l k Hab _ IH]; [constructor |].
  intros H. apply Forall_cons in H as [Ha H]. constructor; [| exact (IH H)].
  exact (rewritten_formattable env g a b Hab Ha).
Qed.

Lemma rewritten_rows_keys env g (sh U : list SRow) :
  Forall2 (rewritten env g) sh U ->
  Forall2 (fun a b => rowKey env a = rowKey env b)
    (drop 1 (cells <$> U)) (drop 1 (cells <$> sh)).
Proof.
  intros HU. rewrite <- !fmap_drop. apply Forall2_fmap_2.
  apply (Forall2_drop _ _ _ 1) in HU. induction HU as [| a b l k Hab _ IH]; constructor.
  - exact (rewritten_rowKey env g a b Hab).
  - exact IH.
Qed.

Lemma records_formattable env g (news : TotalsMap) :
  (forall e, e ∈ news -> stableKey env e.1) ->
  formattable env (cells <$> (newRecord env g <$> news)).
Proof.
  intros Hst. unfold formattable. rewrite !Forall_fmap. apply Forall_forall.
  intros e He _. pose proof (rowKey_newRecord env g news Hst e He) as Hk.
  unfold rowKey in Hk. cbn [compose].
  destruct (truthy (cellAt (cells (newRecord env g e)) 0)); [| discriminate Hk].
  destruct (dateKeyOf env (cellAt (cells (newRecord env g e)) 0)) as [k' |];
    [| discriminate Hk].
  exists k'. reflexivity.
Qed.

(** The upsert run on its own output changes nothing, when the sheet has
    its header row, the dates of its rows can be formatted and the date
    keys of the totals map are stable. *)
Lemma upsertRows_idempotent env (sh : list SRow) (m : TotalsMap) (g : Num) :
  sh <> [] -> NoDup m.*1 -> (forall e, e ∈ m -> stableKey env e.1) ->
  formattable env (drop 1 (cells <$> sh)) ->
  exists sh1,
    upsertRows env sh (Some m) g = Ok sh1 /\ upsertRows env sh1 (Some m) g = Ok sh1.
Proof.
  intros Hne Hnd Hst Hf.
  destruct (upsertRows_ok env sh m g Hf) as (ex & Hex & Hup).
  assert (Hrange : forall k r, ex !! k = Some r -> (1 <= r <= length sh)%nat).
  { intros k r H. pose proof (existingDates_range env sh ex k r Hex H). lia. }
  pose proof (fun k1 k2 r => existingDates_inj env sh ex k1 k2 r Hex) as Hinj.
  set (news := filter (fun e => ex !! e.1 = None) m).
  set (U := foldl (updateEntry env ex g) sh m).
  set (sh1 := foldl (upsertEntry env ex g) sh m) in *.
  assert (Hsplit : sh1 = (U ++ (newRecord env g <$> news))%list).
  { unfold sh1. rewrite <- (app_nil_r sh) at 1.
    rewrite (upsert_loop_split env ex g (length sh) Hrange m sh [] (Nat.le_refl _)).
    reflexivity. }
  assert (HU : Forall2 (rewritten env g) sh U).
  { apply (update_loop_rewritten env ex g sh m
             (fun k r => existingDates_key env sh ex k r Hex) Hst).
    apply Forall_Forall2_diag, Forall_true. intros row. left. reflexivity. }
  assert (HlenU : length U = length sh) by (symmetry; exact (Forall2_length _ _ _ HU)).
  assert (Hlen : (1 <= length sh)%nat) by (destruct sh; [contradiction | simpl; lia]).
  assert (Hnews_st : forall e, e ∈ news -> stableKey env e.1).
  { intros e He. apply list_elem_of_filter in He as [_ He]. exact (Hst e He). }
  assert (Hnews_nd : NoDup news.*1).
  { apply (sublist_NoDup _ m.*1 Hnd). apply fmap_sublist, sublist_filter. }
  assert (Hrows1 : drop 1 (cells <$> sh1)
                   = (drop 1 (cells <$> U) ++ (cells <$> (newRecord env g <$> news)))%list).
  { rewrite Hsplit, fmap_app. apply drop_app_le. rewrite length_fmap. lia. }
  assert (Hf1 : formattable env (drop 1 (cells <$> sh1))).
  { rewrite Hrows1. apply Forall_app. split.
    - exact (rewritten_rows_formattable env g sh U HU Hf).
    - exact (records_formattable env g news Hnews_st). }
  destruct (upsertRows_ok env sh1 m g Hf1) as (ex1 & Hex1 & Hup1).
  exists sh1. split; [exact Hup |]. rewrite Hup1. f_equal.
  assert (Hlook : forall k,
            ex1 !! k = match lastRowWith env k (cells <$> (newRecord env g <$> news)) with
                       | Some j => Some (length sh + j + 1)%nat
                       | None => ex !! k
                       end).
  { intros k. rewrite (scanExisting_lookup _ _ _ _ _ Hex1 k), Hrows1, lastRowWith_app.
    destruct (lastRowWith env k (cells <$> (newRecord env g <$> news))) as [j |].
    - f_equal. rewrite length_drop, length_fmap. lia.
    - rewrite (lastRowWith_ext env k _ _ (rewritten_rows_keys env g sh U HU)).
      symmetry. exact (scanExisting_lookup _ _ _ _ _ Hex k). }
  apply foldl_fixed. intros [k t] Hin.
  destruct (ex !! k) as [r |] eqn:Hk.
  - assert (Hnot : k ∉ news.*1).
    { intros Hin'. apply list_elem_of_fmap in Hin' as ([k' t'] & -> & He).
      apply list_elem_of_filter in He as [He _]. cbn [fst] in *. congruence. }
    assert (Hk1 : ex1 !! k = Some r).
    { rewrite Hlook, (lastRowWith_records_None env g news Hnews_st k Hnot). exact Hk. }
    destruct (upsert_loop_written env ex g (length sh) Hrange Hinj m sh Hnd (Nat.le_refl _)
                k t Hin) as (i & row' & Hi & [_ Hfmt] & Hpos).
    rewrite Hk in Hpos. destruct Hpos as (-> & old & _ & Hcells).
    fold sh1 in Hi. rewrite (upsertEntry_update _ _ _ _ _ _ _ _ Hk1 Hi).
    apply list_insert_id. rewrite Hi. f_equal.
    destruct row' as [c f]. cbn [cells statusFormat] in *. subst c f. reflexivity.
  - assert (Hnew : (k, t) ∈ news) by (apply list_elem_of_filter; split; [exact Hk | exact Hin]).
    apply list_elem_of_lookup_1 in Hnew as [j Hj].
    assert (Hk1 : ex1 !! k = Some (length sh + j + 1)%nat).
    { rewrite Hlook, (lastRowWith_records_Some env g news Hnews_st Hnews_nd j k t Hj).
      reflexivity. }
    assert (Hi : sh1 !! (length sh + j + 1 - 1)%nat = Some (newRecord env g (k, t))).
    { rewrite Hsplit. replace (length sh + j + 1 - 1)%nat with (length U + j)%nat by lia.
      rewrite lookup_app_r by lia. replace (length U + j - length U)%nat with j by lia.
      rewrite list_lookup_fmap, Hj. reflexivity. }
    rewrite (upsertEntry_update _ _ _ _ _ _ _ _ Hk1 Hi).
    apply list_insert_id. rewrite Hi. reflexivity.
Qed.

Lemma updateDashboardTodayView_log env ss :
  logSheet (updateDashboardTodayView env ss) = logSheet ss.
Proof.
  unfold updateDashboardTodayView.
  destruct (dashboardSheet ss); [| reflexivity].
  destruct (summarySheet ss); [| reflexivity].
  destruct (findToday _ _ _) as [[row |] |]; try reflexivity.
  destruct (getMaxCaloriesFromDashboard env ss); reflexivity.
Qed.

(** The today view writes the tracker cells only: the target is the same
    after it. *)
Lemma updateDashboardTodayView_target env ss :
  getMaxCaloriesFromDashboard env (updateDashboardTodayView env ss)
  = getMaxCaloriesFromDashboard env ss.
Proof.
  assert (H : forall d date total limit status st,
            dashboardSheet ss = Some d ->
            getMaxCaloriesFromDashboard env
              (withDashboard ss (setTracker d date total limit status st))
            = getMaxCaloriesFromDashboard env ss).
  { intros d date total limit status st Ed.
    unfold getMaxCaloriesFromDashboard. rewrite Ed. reflexivity. }
  unfold updateDashboardTodayView.
  destruct (dashboardSheet ss) as [d |] eqn:Ed; [| reflexivity].
  destruct (summarySheet ss); [| reflexivity].
  destruct (findToday _ _ _) as [[row |] |]; [apply H; reflexivity | | reflexivity].
  destruct (getMaxCaloriesFromDashboard env ss) eqn:Eg; [apply H; reflexivity | exact Eg].
Qed.

(** The refresh run twice leaves the Daily Summary sheet as the first run
    left it, for a book whose Daily Summary sheet has its header row and
    formattable dates, when the date keys of the Log are stable. *)
Lemma refreshCaloryDiary_twice env ss :
  (forall sh, summarySheet ss = Some sh ->
              sh <> [] /\ formattable env (drop 1 (cells <$> sh))) ->
  (forall rows row k c, logSheet ss = Some rows -> row ∈ rows ->
                        entryOf env row = Some (k, c) -> stableKey env k) ->
  summarySheet (refreshCaloryDiary env (refreshCaloryDiary env ss))
  = summarySheet (refreshCaloryDiary env ss).
Proof.
  intros Hsum Hlog. unfold refreshCaloryDiary at 2 3.
  destruct (refreshSteps env ss) as [ss' |] eqn:E; [| unfold refreshCaloryDiary; rewrite E; reflexivity].
  unfold refreshSteps in E.
  destruct (getMaxCaloriesFromDashboard env ss) as [g |] eqn:Eg; [| discriminate E].
  destruct (computeDailyTotalsFromLog env ss) as [[m |] |] eqn:Em; try discriminate E.
  cbn [mbind Result_bind keyCount] in E. unfold upsertDailySummary in E.
  destruct (summarySheet ss) as [sh |] eqn:Es; [| discriminate E].
  destruct (Hsum sh eq_refl) as [Hne Hf].
  assert (Hm : NoDup m.*1 /\ forall e, e ∈ m -> stableKey env e.1).
  { unfold computeDailyTotalsFromLog in Em. destruct (logSheet ss) as [rows |] eqn:El; [| discriminate Em].
    destruct (length rows <=? 1)%nat; [discriminate Em |]. injection Em as <-.
    split; [apply aggregate_NoDup |]. intros [k t] He.
    destruct (addLogRow_fold env (drop 1 rows) [] allFin_nil) as (_ & _ & Hk & _).
    assert (Hin : k ∈ (foldl (addLogRow env) [] (drop 1 rows)).*1).
    { apply list_elem_of_fmap. exists (k, t). auto. }
    apply Hk in Hin as [Hin | (row & c & Hrow & Hent)]; [apply elem_of_nil in Hin; contradiction |].
    apply (Hlog rows row k c eq_refl); [| exact Hent].
    apply list_elem_of_lookup_1 in Hrow as [j Hj]. rewrite lookup_drop in Hj.
    eapply list_elem_of_lookup_2. exact Hj. }
  destruct Hm as [Hnd Hst].
  destruct (upsertRows_idempotent env sh m g Hne Hnd Hst Hf) as (sh1 & H1 & H2).
  rewrite H1 in E. cbn [mbind Result_bind] in E. injection E as <-.
  set (ss1 := {| dashboardSheet := dashboardSheet ss; logSheet := logSheet ss;
                 summarySheet := Some sh1 |}).
  assert (Eg' : getMaxCaloriesFromDashboard env (updateDashboardTodayView env ss1) = Ok g).
  { rewrite updateDashboardTodayView_target. exact Eg. }
  assert (Em' : computeDailyTotalsFromLog env (updateDashboardTodayView env ss1) = Ok (Some m)).
  { unfold computeDailyTotalsFromLog in *. rewrite updateDashboardTodayView_log. exact Em. }
  unfold refreshCaloryDiary, refreshSteps.
  rewrite Eg', Em'. cbn [mbind Result_bind keyCount]. unfold upsertDailySummary.
  rewrite updateDashboardTodayView_summary. cbn [summarySheet ss1]. rewrite H2.
  cbn [mbind Result_bind]. rewrite !updateDashboardTodayView_summary. reflexivity.
Qed.

(** East of Greenwich the key 2024-01-15 is stable; west of it the date
    built from the key is filed under the day before. *)
Lemma sample_key_east_and_west tz clock ui :
  ((0 <= tz < 1440)%Z -> stableKey (Host.host tz clock ui) "2024-01-15") /\
  ((-1440 <= tz < 0)%Z ->
     rowKey (Host.host tz clock ui) [CDate (Host.parseIsoDate "2024-01-15")]
     = Some "2024-01-14").
Proof.
  assert (Hp : Host.parseIsoDate "2024-01-15" = Some (19737 * Host.MS_PER_DAY)%Z)
    by (vm_compute; reflexivity).
  split; intros Htz.
  - exists (19737 * Host.MS_PER_DAY)%Z. split; [exact Hp |].
    cbn [Host.host formatDate].
    replace ((19737 * Host.MS_PER_DAY + tz * 60000) / Host.MS_PER_DAY)%Z with 19737%Z;
      [vm_compute; reflexivity |].
    unfold Host.MS_PER_DAY. apply Z.div_unique with (tz * 60000)%Z; lia.
  - unfold rowKey, dateKeyOf, cellAt. cbn [lookup list_lookup default from_option truthy].
    unfold id. rewrite Hp. cbn [newDate Host.host formatDate].
    replace ((19737 * Host.MS_PER_DAY + tz * 60000) / Host.MS_PER_DAY)%Z with 19736%Z;
      [vm_compute; reflexivity |].
    unfold Host.MS_PER_DAY. apply Z.div_unique with (86400000 + tz * 60000)%Z; lia.
Qed.

(** C1, the code where the script time zone is west of Greenwich (New
    York, UTC-5): the upsert files the total of 2024-01-15 under the date
    built from its key, midnight UTC, which that zone formats as
    2024-01-14; run again with the same totals and the same limit on its
    own output, it does not find the key and writes a second row for the
    day, and so does the whole refresh run twice. *)
Theorem C1_second_upsert_adds_a_row_west_of_greenwich :
  let m := [("2024-01-15", Num.ofZ 1600)] in
  let ss := Sample.book Sample.profile (Sample.meals (Sample.jan15 (-300) 0 0))
              [Sample.summaryHeader] in
  upsertRows newYork [Sample.summaryHeader] (Some m) (Num.ofZ 2056)
    = Ok [Sample.summaryHeader; Sample.january15] /\
  rowKey newYork (cells Sample.january15) = Some "2024-01-14" /\
  upsertRows newYork [Sample.summaryHeader; Sample.january15] (Some m) (Num.ofZ 2056)
    = Ok [Sample.summaryHeader; Sample.january15; Sample.january15] /\
  computeDailyTotalsFromLog newYork ss = Ok (Some m) /\
  summarySheet (refreshCaloryDiary newYork ss)
    = Some [Sample.summaryHeader; Sample.january15] /\
  summarySheet (refreshCaloryDiary newYork (refreshCaloryDiary newYork ss))
    = Some [Sample.summaryHeader; Sample.january15; Sample.january15].
Proof.
  repeat split; vm_compute; reflexivity.
Qed.

(** * Further properties of the code *)

(** ** Triggers and the web endpoint *)

Lemma upsertDailySummary_undefined env ss g :
  exists e, upsertDailySummary env ss None g = Err e.
Proof.
  unfold upsertDailySummary, upsertRows.
  destruct (summarySheet ss) as [sh |]; [| eexists; reflexivity].
  destruct (scanExisting env 1 _ ∅); cbn [mbind Result_bind]; eexists; reflexivity.
Qed.

Lemma profileChangedSteps_refresh env ss :
  match profileChangedSteps env ss with
  | Ok ss' => ss'
  | Err _ => ss
  end = refreshCaloryDiary env ss.
Proof.
  unfold refreshCaloryDiary, profileChangedSteps, refreshSteps.
  destruct (getMaxCaloriesFromDashboard env ss) as [g |]; [| reflexivity].
  destruct (computeDailyTotalsFromLog env ss) as [[m |] |];
    cbn [mbind Result_bind keyCount]; try reflexivity.
  destruct (upsertDailySummary_undefined env ss g) as [e ->]. reflexivity.
Qed.

Lemma onEdit_cases env e ss :
  onEdit env e ss =
  match e with
  | None => ss
  | Some ev =>
      if String.eqb (editedSheet ev) "Log"
         || (String.eqb (editedSheet ev) "Dashboard"
             && existsb (String.eqb (editedCell ev)) metricsRange)
      then refreshCaloryDiary env ss else ss
  end.
Proof.
  destruct e as [ev |]; [| reflexivity]. unfold onEdit.
  destruct (String.eqb (editedSheet ev) "Log") eqn:E1.
  - apply String.eqb_eq in E1. rewrite E1. reflexivity.
  - destruct (String.eqb (editedSheet ev) "Dashboard"); [| reflexivity].
    destruct (existsb _ _); [| reflexivity]. cbn [orb andb].
    apply profileChangedSteps_refresh.
Qed.

(** X1. The edit trigger runs the whole refresh for an edit of the Log
    sheet and for an edit of one of H2..H7 on the Dashboard, with the same
    outcome in both cases; for any other edit (the date cell A2 of the
    Dashboard, another sheet) and without an event it changes nothing. *)
Theorem onEdit_is_refresh_or_nothing env e ss :
  onEdit env e ss =
  match e with
  | None => ss
  | Some ev =>
      if String.eqb (editedSheet ev) "Log"
         || (String.eqb (editedSheet ev) "Dashboard"
             && existsb (String.eqb (editedCell ev)) metricsRange)
      then refreshCaloryDiary env ss else ss
  end.
Proof. exact (onEdit_cases env e ss). Qed.

Lemma elem_of_existsb (x : string) (l : list string) :
  x ∈ l <-> existsb (String.eqb x) l = true.
Proof.
  rewrite existsb_exists. split.
  - intros H. exists x. split; [apply list_elem_of_In; exact H | apply String.eqb_refl].
  - intros (y & Hy & E). apply String.eqb_eq in E as ->. apply list_elem_of_In. exact Hy.
Qed.

(** X2. The answer of the web endpoint.  It reports success exactly for a
    refresh action, a status action, and a date action where the UI is
    available; a refresh action runs the refresh and a status action
    changes nothing; a date action updates the today view of the Dashboard
    whatever it reports, and without the UI (as in a web-app call) it
    reports the error of the alert; an unknown action leaves the book
    alone and is named in the error as it was sent.  Actions are compared
    in lower case, an absent or empty one counting as [refresh]. *)
Theorem doGet_answer env a ss :
  let act := Str.toLowerCase (requestedAction a) in
  let book := (doGet env a ss).1 in
  let r := (doGet env a ss).2 in
  (success r = true <->
     act ∈ refreshNames \/ act ∈ statusNames \/ (act ∈ dateNames /\ hasUi env = true)) /\
  (act ∈ refreshNames -> book = refreshCaloryDiary env ss) /\
  (act ∈ statusNames -> book = ss) /\
  (act ∈ dateNames -> book = updateDashboardTodayView env ss) /\
  (act ∈ dateNames -> hasUi env = false -> error r = Some ("Error: " ++ NO_UI)) /\
  (act ∉ (refreshNames ++ dateNames ++ statusNames)%list ->
     book = ss /\ error r = Some ("Unknown action: " ++ requestedAction a)).
Proof.
  intros act book r. subst book r. unfold doGet, setTodaysDate.
  change (match a with
          | Some a0 => if String.eqb a0 "" then "refresh" else a0
          | None => "refresh"
          end) with (requestedAction a).
  fold act. clearbody act. rewrite !elem_of_existsb.
  unfold refreshNames, dateNames, statusNames. cbn [existsb app].
  repeat match goal with
         | |- context [String.eqb act ?s] =>
             let E := fresh "E" in
             destruct (String.eqb act s) eqn:E;
             [apply String.eqb_eq in E; subst act; cbn; destruct (hasUi env); cbn;
              intuition congruence |]
         end.
  cbn. intuition congruence.
Qed.

(** ** What the upsert and the refresh leave alone *)

Lemma existingDates_lookup env (sh : list SRow) ex k :
  scanExisting env 1 (drop 1 (cells <$> sh)) ∅ = Ok ex ->
  ex !! k = (fun j => (j + 2)%nat) <$> lastRowWith env k (records sh).
Proof.
  intros Hex. rewrite (scanExisting_lookup _ _ _ _ _ Hex k). unfold records.
  destruct (lastRowWith env k _) as [j |]; cbn; [f_equal; lia | apply lookup_empty].
Qed.

Lemma upsertRows_inv env sh m g sh' :
  upsertRows env sh (Some m) g = Ok sh' ->
  exists ex,
    scanExisting env 1 (drop 1 (cells <$> sh)) ∅ = Ok ex /\
    sh' = foldl (upsertEntry env ex g) sh m /\
    (forall k r, ex !! k = Some r -> (1 <= r <= length sh)%nat).
Proof.
  unfold upsertRows. intros H.
  destruct (scanExisting env 1 _ ∅) as [ex |] eqn:Hex; [| discriminate H].
  cbn [mbind Result_bind] in H. injection H as <-.
  exists ex. split; [reflexivity |]. split; [reflexivity |].
  intros k r Hk. pose proof (existingDates_range env sh ex k r Hex Hk). lia.
Qed.

Lemma upsert_loop_length env ex g n m :
  (forall k r, ex !! k = Some r -> (1 <= r <= n)%nat) ->
  forall sh, (n <= length sh)%nat ->
             (length sh <= length (foldl (upsertEntry env ex g) sh m))%nat.
Proof.
  intros Hrange. induction m as [| e m IH]; intros sh Hn; cbn [foldl]; [lia |].
  pose proof (upsertEntry_length env ex g n Hrange sh e Hn).
  pose proof (IH (upsertEntry env ex g sh e) ltac:(lia)). lia.
Qed.

(** X3. The upsert removes no row, and it leaves as it was every row that
    is not the last row filed under a date key of the totals map: the
    header row, the records of days that have no entry in the Log any
    more, the rows without a date, and the earlier rows of a day that is
    filed twice. *)
Theorem upsert_keeps_the_other_rows env sh m g sh' :
  upsertRows env sh (Some m) g = Ok sh' ->
  (length sh <= length sh')%nat /\
  forall i row,
    sh !! i = Some row ->
    (forall k j, k ∈ m.*1 -> lastRowWith env k (records sh) = Some j -> i <> S j) ->
    sh' !! i = Some row.
Proof.
  intros H. destruct (upsertRows_inv _ _ _ _ _ H) as (ex & Hex & -> & Hrange).
  split; [apply (upsert_loop_length env ex g (length sh) m Hrange); lia |].
  intros i row Hi Hother.
  apply (upsert_loop_untouched env ex g (length sh) Hrange); [lia | exact Hi |].
  intros k t Hin Hk. rewrite (existingDates_lookup env sh ex k Hex) in Hk.
  destruct (lastRowWith env k (records sh)) as [j |] eqn:E; [| discriminate Hk].
  cbn in Hk. injection Hk as Hk. apply (Hother k j); [| exact E | lia].
  apply list_elem_of_fmap. exists (k, t). auto.
Qed.

Lemma upsert_keeps_the_other_rows_witness :
  exists sh',
    upsertRows jakarta [Sample.summaryHeader; Sample.oldRecord] (Some Sample.twoDays)
      (Num.ofZ 2056) = Ok sh' /\
    (2 <= length sh')%nat /\ sh' !! 1%nat = Some Sample.oldRecord.
Proof.
  eexists. split; [vm_compute; reflexivity |].
  destruct (upsert_keeps_the_other_rows jakarta [Sample.summaryHeader; Sample.oldRecord]
              Sample.twoDays (Num.ofZ 2056) _ eq_refl) as [Hlen Hrows].
  split; [exact Hlen |].
  apply Hrows; [reflexivity |].
  intros k j Hk. vm_compute in Hk.
  apply elem_of_cons in Hk as [-> | Hk];
    [| apply elem_of_cons in Hk as [-> | Hk]; [| apply elem_of_nil in Hk; contradiction]];
    vm_compute; discriminate.
Defined.

Lemma update_loop_length env ex g n m :
  (forall k r, ex !! k = Some r -> (1 <= r <= n)%nat) ->
  forall sh, length sh = n -> length (foldl (updateEntry env ex g) sh m) = n.
Proof.
  intros Hrange. induction m as [| [k t] m IH]; intros sh Hn; cbn [foldl]; [exact Hn |].
  apply IH. unfold updateEntry. cbn [fst snd].
  destruct (ex !! k) as [r |] eqn:Hk; [| exact Hn].
  apply Hrange in Hk. unfold setRow.
  destruct (lookup_lt_is_Some_2 sh (r - 1)%nat) as [old ->]; [lia |].
  rewrite length_insert. exact Hn.
Qed.

(** X4. The upsert adds the records of the days that have no row yet
    below the rows of the sheet (itself unchanged in length), one row
    each, in the order in which the days first occur in the totals map. *)
Theorem upsert_appends_the_new_days_in_order env sh m g sh' :
  upsertRows env sh (Some m) g = Ok sh' ->
  exists updated,
    length updated = length sh /\
    sh' = (updated
           ++ (newRecord env g
                 <$> filter (fun e => lastRowWith env e.1 (records sh) = None) m))%list.
Proof.
  intros H. destruct (upsertRows_inv _ _ _ _ _ H) as (ex & Hex & -> & Hrange).
  exists (foldl (updateEntry env ex g) sh m). split.
  - apply (update_loop_length env ex g (length sh) m Hrange). reflexivity.
  - rewrite <- (app_nil_r sh) at 1.
    rewrite (upsert_loop_split env ex g (length sh) Hrange m sh [] (Nat.le_refl _)).
    cbn [app]. f_equal. f_equal. apply list_filter_iff. intros [k t]. cbn [fst].
    rewrite (existingDates_lookup env sh ex k Hex).
    destruct (lastRowWith env k (records sh)); cbn; split; congruence.
Qed.

Lemma upsert_appends_the_new_days_in_order_witness :
  exists updated,
    length updated = 2%nat /\
    upsertRows jakarta [Sample.summaryHeader; Sample.oldRecord] (Some Sample.twoDays)
      (Num.ofZ 2056)
    = Ok (updated ++ (newRecord jakarta (Num.ofZ 2056) <$> Sample.twoDays))%list.
Proof.
  destruct (upsertRows jakarta [Sample.summaryHeader; Sample.oldRecord] (Some Sample.twoDays)
              (Num.ofZ 2056)) as [sh' | err] eqn:E; [| vm_compute in E; discriminate E].
  destruct (upsert_appends_the_new_days_in_order jakarta
              [Sample.summaryHeader; Sample.oldRecord] Sample.twoDays (Num.ofZ 2056) sh' E)
    as (updated & Hlen & Heq).
  exists updated. split; [exact Hlen |]. rewrite Heq. reflexivity.
Defined.

(** X20. A day of the totals map that is filed in the sheet is updated in
    place, in the last row filed under its key: the first four cells of
    that row become the date built from the key, the total, the limit and
    the status text, its status cell takes the format of the remainder,
    and the cells to the right of column D keep their values. *)
Theorem upsert_rewrites_the_last_row_of_a_day env sh m g sh' k t j old :
  upsertRows env sh (Some m) g = Ok sh' -> NoDup m.*1 -> (k, t) ∈ m ->
  lastRowWith env k (records sh) = Some j -> sh !! S j = Some old ->
  sh' !! S j = Some {| cells := rowDataOf env k t g ++ drop 4 (cells old);
                       statusFormat := Some (statusStyle (Num.sub g t)) |}.
Proof.
  intros H Hnd Hin El Hold.
  destruct (upsertRows_inv _ _ _ _ _ H) as (ex & Hex & -> & Hrange).
  pose proof (fun k1 k2 r => existingDates_inj env sh ex k1 k2 r Hex) as Hinj.
  destruct (upsert_loop_written env ex g (length sh) Hrange Hinj m sh Hnd (Nat.le_refl _)
              k t Hin) as (i & row' & Hi & [_ Hfmt] & Hpos).
  rewrite (existingDates_lookup env sh ex k Hex), El in Hpos. cbn in Hpos.
  destruct Hpos as (-> & old' & Hold' & Hcells).
  replace (j + 2 - 1)%nat with (S j) in * by lia.
  rewrite Hold in Hold'. injection Hold' as <-.
  rewrite Hi. f_equal. destruct row' as [c f]. cbn [cells statusFormat] in *. subst c f.
  reflexivity.
Qed.

Lemma upsert_rewrites_the_last_row_of_a_day_witness :
  let note := CStr "birthday" in
  let stale := {| cells := cells Sample.staleJanuary15 ++ [note];
                  statusFormat := statusFormat Sample.staleJanuary15 |} in
  exists sh',
    upsertRows jakarta [Sample.summaryHeader; stale] (Some Sample.twoDays) (Num.ofZ 2056)
    = Ok sh' /\
    sh' !! 1%nat = Some {| cells := cells Sample.january15 ++ [note];
                           statusFormat := Some Green |}.
Proof.
  intros note stale.
  destruct (upsertRows jakarta [Sample.summaryHeader; stale] (Some Sample.twoDays)
              (Num.ofZ 2056)) as [sh' | err] eqn:E; [| vm_compute in E; discriminate E].
  exists sh'. split; [reflexivity |].
  rewrite (upsert_rewrites_the_last_row_of_a_day jakarta [Sample.summaryHeader; stale]
             Sample.twoDays (Num.ofZ 2056) sh' "2024-01-15" (Num.ofZ 1600) 0 stale E).
  - vm_compute. reflexivity.
  - apply (bool_decide_unpack _). vm_compute. exact I.
  - left.
  - vm_compute. reflexivity.
  - reflexivity.
Defined.

Lemma updateDashboardTodayView_profile env ss :
  profileOf (updateDashboardTodayView env ss) = profileOf ss.
Proof.
  unfold updateDashboardTodayView, profileOf.
  destruct (dashboardSheet ss) as [d |] eqn:Ed; [| rewrite Ed; reflexivity].
  destruct (summarySheet ss); [| rewrite Ed; reflexivity].
  destruct (findToday _ _ _) as [[row |] |]; try (rewrite ?Ed; reflexivity).
  destruct (getMaxCaloriesFromDashboard env ss); rewrite ?Ed; reflexivity.
Qed.

Lemma preserved_refl ss : preserved ss ss.
Proof.
  split; [reflexivity |]. split; [reflexivity |].
  destruct (summarySheet ss) as [sh |] eqn:E; [| reflexivity].
  exists sh. split; [reflexivity |]. split; [lia | auto].
Qed.

Lemma preserved_today_view env ss : preserved ss (updateDashboardTodayView env ss).
Proof.
  split; [apply updateDashboardTodayView_log |].
  split; [apply updateDashboardTodayView_profile |].
  rewrite updateDashboardTodayView_summary.
  destruct (summarySheet ss) as [sh |]; [| reflexivity].
  exists sh. split; [reflexivity |]. split; [lia | auto].
Qed.

Lemma preserved_refresh env ss : preserved ss (refreshCaloryDiary env ss).
Proof.
  unfold refreshCaloryDiary.
  destruct (refreshSteps env ss) as [ss' |] eqn:E; [| apply preserved_refl].
  unfold refreshSteps in E.
  destruct (getMaxCaloriesFromDashboard env ss) as [g |]; [| discriminate E].
  destruct (computeDailyTotalsFromLog env ss) as [[m |] |]; try discriminate E.
  cbn [mbind Result_bind keyCount] in E. unfold upsertDailySummary in E.
  destruct (summarySheet ss) as [sh |] eqn:Es; [| discriminate E].
  destruct (upsertRows env sh (Some m) g) as [sh1 |] eqn:Hup; [| discriminate E].
  cbn [mbind Result_bind] in E. injection E as <-.
  destruct (upsertRows_inv _ _ _ _ _ Hup) as (ex & Hex & -> & Hrange).
  split; [rewrite updateDashboardTodayView_log; reflexivity |].
  split; [rewrite updateDashboardTodayView_profile; reflexivity |].
  rewrite updateDashboardTodayView_summary, Es. cbn [summarySheet].
  eexists. split; [reflexivity |].
  split; [apply (upsert_loop_length env ex g (length sh) m Hrange); lia |].
  intros h Hh. apply (upsert_loop_untouched env ex g (length sh) Hrange); [lia | exact Hh |].
  intros k t _ Hk. pose proof (existingDates_range env sh ex k 1 Hex Hk). lia.
Qed.

(** X5. No trigger and no action of the web endpoint changes the Log or
    the personal parameters H2..H7, removes a row of the Daily Summary
    sheet, changes its first row, or creates the sheet when it is missing:
    this holds for the refresh, for the today view, for the edit trigger
    and for [doGet]. *)
Theorem entry_points_preserve_the_inputs env e a ss :
  preserved ss (refreshCaloryDiary env ss) /\
  preserved ss (updateDashboardTodayView env ss) /\
  preserved ss (onEdit env e ss) /\
  preserved ss (doGet env a ss).1.
Proof.
  split; [apply preserved_refresh |]. split; [apply preserved_today_view |]. split.
  - rewrite onEdit_cases. destruct e as [ev |]; [| apply preserved_refl].
    destruct (_ || _); [apply preserved_refresh | apply preserved_refl].
  - unfold doGet, setTodaysDate.
    repeat match goal with
           | |- context [if ?b then _ else _] => destruct b
           end; cbn [fst]; auto using preserved_refresh, preserved_today_view, preserved_refl.
Qed.

(** ** The totals of the Log *)

Lemma sumQ_perm (l1 l2 : list Q) : l1 ≡ₚ l2 -> (sumQ l1 == sumQ l2)%Q.
Proof.
  induction 1 as [| x l1 l2 _ IH | x y l | l1 l2 l3 _ IH1 _ IH2].
  - reflexivity.
  - rewrite !sumQ_cons, IH. reflexivity.
  - rewrite !sumQ_cons. ring.
  - rewrite IH1. exact IH2.
Qed.

(** The whole calories of given rows, by evaluation. *)
Ltac whole_calories :=
  split;
  [ let row := fresh "row" in
    let k := fresh "k" in
    let c := fresh "c" in
    let Hrow := fresh "Hrow" in
    let Hent := fresh "Hent" in
    intros row k c Hrow Hent;
    repeat (apply elem_of_cons in Hrow as [-> | Hrow];
            [split;
             [split; vm_compute; reflexivity
             | vm_compute in Hent; injection Hent as <- <-; eexists; reflexivity] |]);
    apply elem_of_nil in Hrow; contradiction
  | apply Qle_bool_iff; vm_compute; reflexivity ].



(** X7. Two Logs whose rows below the header are the same up to their
    order give the same days; and where the counted calories are whole
    numbers (of magnitudes adding up to at most 2^53, the range in which
    the additions of the script do not depend on their order) they give
    the same total for every day.  The order of the keys of the map, and
    with it the order of the records added to the Daily Summary sheet, may
    differ. *)
Theorem totals_do_not_depend_on_the_row_order env header header' rows rows' :
  rows ≡ₚ rows' ->
  let m := totalsOf env (header :: rows) in
  let m' := totalsOf env (header' :: rows') in
  forall k, (k ∈ m.*1 <-> k ∈ m'.*1) /\
            (wholeCalories env rows -> (totalQ k m == totalQ k m')%Q).
Proof.
  intros Hp m m' k. subst m m'. unfold totalsOf. cbn [drop].
  destruct (addLogRow_fold env rows [] allFin_nil) as (_ & H2 & H3 & _).
  destruct (addLogRow_fold env rows' [] allFin_nil) as (_ & H2' & H3' & _).
  split.
  - rewrite H3, H3'. split; (intros [H | (r & c & Hin & He)]; [tauto |]);
      right; exists r, c; (split; [| exact He]).
    + rewrite <- Hp. exact Hin.
    + rewrite Hp. exact Hin.
  - intros _. rewrite H2, H2'. apply Qplus_comp; [reflexivity |].
    apply sumQ_perm, fmap_Permutation, Hp.
Qed.

Lemma totals_do_not_depend_on_the_row_order_witness :
  let a := Sample.entry (Sample.jan15 420 8 30) "08:30" "Breakfast" "Oatmeal" (Sample.kcal 350) in
  let b := Sample.entry (Sample.jan15 420 12 30) "12:30" "Lunch" "Salad" (Sample.kcal 450) in
  wholeCalories jakarta [a; b] /\
  (totalQ "2024-01-15" (totalsOf jakarta [Sample.logHeader; a; b])
   == totalQ "2024-01-15" (totalsOf jakarta [Sample.logHeader; b; a]))%Q.
Proof.
  intros a b.
  assert (Hw : wholeCalories jakarta [a; b]) by (subst a b; whole_calories).
  split; [exact Hw |].
  exact (proj2 (totals_do_not_depend_on_the_row_order jakarta Sample.logHeader Sample.logHeader
                  [a; b] [b; a] (perm_swap b a []) "2024-01-15") Hw).
Defined.

(** ** Repeating the upsert and the refresh *)

(** X8. The upsert is idempotent where the date keys are stable (the date
    built from a key is filed under the same key when the sheet is read
    back, as in a zone east of Greenwich): on a sheet that has its header
    row and whose dates can be formatted it succeeds, and run again with
    the same totals and the same limit on its own output it changes
    nothing. *)
Theorem upsert_again_changes_nothing env (sh : list SRow) (m : TotalsMap) (g : Num) :
  sh <> [] -> NoDup m.*1 -> (forall e, e ∈ m -> stableKey env e.1) ->
  formattable env (records sh) ->
  exists sh1,
    upsertRows env sh (Some m) g = Ok sh1 /\ upsertRows env sh1 (Some m) g = Ok sh1.
Proof. exact (upsertRows_idempotent env sh m g). Qed.

Lemma stableKey_jakarta_twoDays : forall e, e ∈ Sample.twoDays -> stableKey jakarta e.1.
Proof.
  intros e He. unfold Sample.twoDays in He.
  apply elem_of_cons in He as [-> | He];
    [| apply elem_of_cons in He as [-> | He]; [| apply elem_of_nil in He; contradiction]];
    (eexists; split; [vm_compute; reflexivity | vm_compute; reflexivity]).
Qed.

Lemma upsert_again_changes_nothing_witness :
  exists sh1,
    upsertRows jakarta [Sample.summaryHeader] (Some Sample.twoDays) (Num.ofZ 2056) = Ok sh1 /\
    upsertRows jakarta sh1 (Some Sample.twoDays) (Num.ofZ 2056) = Ok sh1.
Proof.
  apply (upsert_again_changes_nothing jakarta [Sample.summaryHeader] Sample.twoDays
           (Num.ofZ 2056)).
  - discriminate.
  - apply (bool_decide_unpack _). vm_compute. exact I.
  - exact stableKey_jakarta_twoDays.
  - constructor.
Defined.

Lemma todayView_after_tracker env ss d sh a b c e st :
  dashboardSheet ss = Some d -> summarySheet ss = Some sh ->
  updateDashboardTodayView env (withDashboard ss (setTracker d a b c e st)) =
  match findToday env (formatDate env (now env)) (drop 1 (cells <$> sh)) with
  | Err _ => withDashboard ss (setTracker d a b c e st)
  | Ok (Some todayRow) =>
      withDashboard ss
        (setTracker d (cellAt todayRow 0) (cellAt todayRow 1) (cellAt todayRow 2)
           (cellAt todayRow 3) (trackerStyle (toString env (cellAt todayRow 3))))
  | Ok None =>
      match getMaxCaloriesFromDashboard env ss with
      | Err _ => withDashboard ss (setTracker d a b c e st)
      | Ok maxCalories =>
          withDashboard ss
            (setTracker d (CDate (Some (now env))) (CNum Num.zero) (CNum maxCalories)
               (CStr ("Under Goal (+" ++ Str.ofNum maxCalories ++ ")")) Green)
      end
  end.
Proof.
  intros Ed Es. unfold updateDashboardTodayView, getMaxCaloriesFromDashboard.
  cbn [dashboardSheet summarySheet withDashboard]. rewrite Ed, Es.
  destruct (findToday _ _ _) as [[row |] |]; try reflexivity.
Qed.

(** ** The status text and its colour *)

Lemma hasChar_app c s1 s2 : hasChar c (s1 ++ s2) = hasChar c s1 || hasChar c s2.
Proof.
  induction s1 as [| a s1 IH]; [reflexivity |].
  change (String a s1 ++ s2) with (String a (s1 ++ s2)). cbn [hasChar].
  rewrite IH, orb_assoc. reflexivity.
Qed.

Lemma startsWith_hasChar c p s : Str.startsWith (String c p) s = true -> hasChar c s = true.
Proof.
  destruct s as [| b s]; cbn; [discriminate |].
  intros H. apply andb_true_iff in H as [-> _]. reflexivity.
Qed.

Lemma includes_hasChar c p s : Str.includes (String c p) s = true -> hasChar c s = true.
Proof.
  induction s as [| b s IH]; cbn [Str.includes]; intros H; apply orb_true_iff in H as [H | H].
  - cbn in H. discriminate H.
  - discriminate H.
  - exact (startsWith_hasChar _ _ _ H).
  - cbn. rewrite (IH H). apply orb_true_r.
Qed.

Lemma isDigit_digitChar d : (0 <= d < 10)%Z -> Str.isDigit (Str.digitChar d) = true.
Proof.
  intros H.
  assert (Hd : (d = 0 \/ d = 1 \/ d = 2 \/ d = 3 \/ d = 4 \/ d = 5 \/ d = 6 \/ d = 7
                \/ d = 8 \/ d = 9)%Z) by lia.
  repeat (destruct Hd as [-> | Hd]; [reflexivity |]). subst d. reflexivity.
Qed.

Lemma numChar_digit d : (0 <= d < 10)%Z -> numChar (Str.digitChar d) = true.
Proof. intros H. unfold numChar. rewrite (isDigit_digitChar d H). reflexivity. Qed.

Lemma natDigits_chars c : forall fuel n acc,
  hasChar c (Str.natDigits fuel n acc) = true -> numChar c = true \/ hasChar c acc = true.
Proof.
  induction fuel as [| f IH]; intros n acc; cbn [Str.natDigits]; [auto |].
  assert (Hd : hasChar c (String (Str.digitChar (n mod 10)) acc) = true ->
               numChar c = true \/ hasChar c acc = true).
  { cbn [hasChar]. intros H. apply orb_true_iff in H as [H | H]; [left | right; exact H].
    apply Ascii.eqb_eq in H. subst c. apply numChar_digit. apply Z.mod_pos_bound. lia. }
  destruct (n / 10 =? 0)%Z; [exact Hd |].
  intros H. apply IH in H as [H | H]; [left; exact H | exact (Hd H)].
Qed.

Lemma fracDigits_chars c den :
  (0 < den)%Z ->
  forall fuel num, (0 <= num < den)%Z ->
                   hasChar c (Str.fracDigits fuel num den) = true -> numChar c = true.
Proof.
  intros Hden. induction fuel as [| f IH]; intros num Hn; cbn [Str.fracDigits hasChar];
    [discriminate |].
  destruct (num =? 0)%Z; cbn [hasChar]; [discriminate |].
  intros H. apply orb_true_iff in H as [H | H].
  - apply Ascii.eqb_eq in H. subst c. apply numChar_digit. split.
    + apply Z.div_pos; lia.
    + apply Z.div_lt_upper_bound; lia.
  - apply (IH ((10 * num) mod den)%Z); [apply Z.mod_pos_bound; lia | exact H].
Qed.

Lemma ofNonnegQ_chars c q : hasChar c (Str.ofNonnegQ q) = true -> numChar c = true.
Proof.
  unfold Str.ofNonnegQ. cbv zeta. rewrite hasChar_app. intros H.
  apply orb_true_iff in H as [H | H].
  - unfold Str.ofNonneg in H. apply natDigits_chars in H as [H | H]; [exact H | discriminate H].
  - destruct (String.eqb _ ""); [discriminate H |].
    rewrite hasChar_app in H. apply orb_true_iff in H as [H | H].
    + cbn in H. rewrite orb_false_r in H. apply Ascii.eqb_eq in H. subst c. reflexivity.
    + apply fracDigits_chars in H; [exact H | lia | apply Z.mod_pos_bound; lia].
Qed.

(** The text of a number has digits, a point, a minus sign and the
    letters of [NaN] only. *)
Lemma ofNum_chars c n : hasChar c (Str.ofNum n) = true -> numChar c = true.
Proof.
  destruct n as [| q]; cbn [Str.ofNum].
  - cbn [hasChar]. unfold numChar.
    destruct (Ascii.eqb c "N"), (Ascii.eqb c "a"); cbn; rewrite ?orb_true_r;
      try reflexivity; discriminate.
  - destruct (Qle_bool 0 q); [apply ofNonnegQ_chars |].
    rewrite hasChar_app. intros H. apply orb_true_iff in H as [H | H].
    + cbn in H. rewrite orb_false_r in H. apply Ascii.eqb_eq in H. subst c. reflexivity.
    + exact (ofNonnegQ_chars _ _ H).
Qed.

Lemma trackerStyle_statusText r : trackerStyle (statusText r) = statusStyle r.
Proof.
  unfold trackerStyle, statusText, statusStyle. destruct (Num.geZero r); [reflexivity |].
  destruct (Str.includes _ _) eqn:E; [| reflexivity].
  apply includes_hasChar in E. rewrite !hasChar_app in E.
  repeat match goal with
         | H : _ || _ = true |- _ => apply orb_true_iff in H as [H | H]
         end;
    first [apply ofNum_chars in E; vm_compute in E; discriminate E
          | vm_compute in E; discriminate E].
Qed.

(** X10. The colour of the tracker agrees with the colour of the record.
    The today view colours the status cell of the Dashboard by looking for
    [Under Goal] in the status text, the upsert colours the record by the
    sign of the remainder; for every record that the upsert writes, also
    with a remainder that is negative or not a number, the two give the
    same format. *)
Theorem tracker_colour_agrees_with_the_record env k t g rest :
  trackerStyle (toString env (cellAt (rowDataOf env k t g ++ rest)%list 3))
  = statusStyle (Num.sub g t).
Proof. exact (trackerStyle_statusText (Num.sub g t)). Qed.

(** ** The goal offset *)

(** X11. A goal offset that is a labelled text without a number before
    its first space makes the calorie target [NaN] without any error:
    the metrics being present, [getMaxCaloriesFromDashboard] returns
    [NaN], and every record written with it has the limit [NaN], the
    status [Over Goal (NaN)] and the red format, whatever the total. *)
Theorem goal_label_without_number_gives_NaN env d :
  Num.truthy (parseFloat env (WEIGHT_CELL d)) = true ->
  Num.truthy (parseFloat env (HEIGHT_CELL d)) = true ->
  Num.truthy (parseFloat env (AGE_CELL d)) = true ->
  Num.truthy (readActivityMultiplier (toString env (ACTIVITY_MULTIPLIER_CELL d))) = true ->
  Str.includes "(" (toString env (GOAL_OFFSET_CELL d)) = true ->
  Str.parseFloat (Str.beforeSpace (toString env (GOAL_OFFSET_CELL d))) = Num.NaN ->
  maxCaloriesOf env d = Ok Num.NaN /\
  forall k t,
    rowDataOf env k t Num.NaN
    = [CDate (parseDate env k); CNum t; CNum Num.NaN; CStr "Over Goal (NaN)"] /\
    statusStyle (Num.sub Num.NaN t) = Red.
Proof.
  intros Hw Hh Ha Hm Hi Hn. split.
  - unfold maxCaloriesOf, readGoalOffset. rewrite Hw, Hh, Ha, Hm, Hi, Hn. cbn [negb orb].
    destruct (Num.mul _ _); reflexivity.
  - intros k t. split; reflexivity.
Qed.

Lemma goal_label_without_number_gives_NaN_witness :
  maxCaloriesOf jakarta
    (Sample.dashboard (CStr "Male") (Sample.kcal 70) (Sample.kcal 175) (Sample.kcal 30)
       (CStr "1.55 (Moderate)") (CStr "Loss (-500)")) = Ok Num.NaN.
Proof.
  apply (goal_label_without_number_gives_NaN jakarta
           (Sample.dashboard (CStr "Male") (Sample.kcal 70) (Sample.kcal 175) (Sample.kcal 30)
              (CStr "1.55 (Moderate)") (CStr "Loss (-500)"))); vm_compute; reflexivity.
Defined.

Lemma parseFloat_reduced s q : Str.parseFloat s = Num.Fin q -> Qred q = q.
Proof.
  unfold Str.parseFloat.
  match goal with
  | |- context [let '(_, _) := ?x in _] => destruct x as [neg body]
  end.
  destruct (Str.unsignedLiteral body); [| discriminate].
  intros [= <-]. apply Qred_complete, Qred_correct.
Qed.

Lemma orElse_zero_parseFloat s :
  Str.parseFloat s <> Num.NaN -> Num.orElse (Str.parseFloat s) Num.zero = Str.parseFloat s.
Proof.
  destruct (Str.parseFloat s) as [| q] eqn:E; [congruence |]. intros _.
  unfold Num.orElse, Num.truthy. destruct (Qeq_bool q 0) eqn:Eq; [| reflexivity].
  cbn. apply Qeq_bool_eq in Eq. unfold Num.zero, Num.ofZ. f_equal.
  rewrite <- (parseFloat_reduced _ _ E). symmetry. exact (Qred_complete _ _ Eq).
Qed.

Lemma beforeSpace_no_space s : hasChar " " s = false -> Str.beforeSpace s = s.
Proof.
  induction s as [| c s IH]; cbn [Str.beforeSpace hasChar]; [reflexivity |].
  intros H. apply orb_false_iff in H as [Hc Hs].
  rewrite Ascii.eqb_sym, Hc, (IH Hs). reflexivity.
Qed.

Lemma ofNum_plain n :
  Str.includes "(" (Str.ofNum n) = false /\ Str.beforeSpace (Str.ofNum n) = Str.ofNum n.
Proof.
  split.
  - destruct (Str.includes _ _) eqn:E; [| reflexivity].
    apply includes_hasChar, ofNum_chars in E. vm_compute in E. discriminate E.
  - apply beforeSpace_no_space. destruct (hasChar _ _) eqn:E; [| reflexivity].
    apply ofNum_chars in E. vm_compute in E. discriminate E.
Qed.

(** X12. Versions 1 and 2 compute the same calorie target wherever the
    activity cell is a number or a labelled choice and the goal cell is a
    number or a labelled choice with a number before its first space:
    version 1 writes to H8 the value that version 2 returns, and writes
    nothing where version 2 raises its error. *)
Theorem v1_and_v2_agree_on_the_target env ss d :
  dashboardSheet ss = Some d ->
  ((exists n, ACTIVITY_MULTIPLIER_CELL d = CNum n)
   \/ Str.includes "(" (toString env (ACTIVITY_MULTIPLIER_CELL d)) = true) ->
  ((exists n, GOAL_OFFSET_CELL d = CNum n)
   \/ (Str.includes "(" (toString env (GOAL_OFFSET_CELL d)) = true /\
       Str.parseFloat (Str.beforeSpace (toString env (GOAL_OFFSET_CELL d))) <> Num.NaN)) ->
  V1.calculateMaxCalories env ss =
  match getMaxCaloriesFromDashboard env ss with
  | Ok maxCalories => Some maxCalories
  | Err _ => None
  end.
Proof.
  intros Ed Ha Hg.
  unfold V1.calculateMaxCalories, getMaxCaloriesFromDashboard, maxCaloriesOf. rewrite Ed.
  assert (Ea : readActivityMultiplier (toString env (ACTIVITY_MULTIPLIER_CELL d))
               = Str.parseFloat (Str.beforeSpace (toString env (ACTIVITY_MULTIPLIER_CELL d)))).
  { unfold readActivityMultiplier. destruct Ha as [[n ->] | ->]; [| reflexivity].
    cbn [toString]. destruct (ofNum_plain n) as [-> ->]. reflexivity. }
  assert (Eg : readGoalOffset (toString env (GOAL_OFFSET_CELL d))
               = Num.orElse (Str.parseFloat (Str.beforeSpace (toString env (GOAL_OFFSET_CELL d))))
                   Num.zero).
  { unfold readGoalOffset. destruct Hg as [[n ->] | [-> Hn]].
    - cbn [toString]. destruct (ofNum_plain n) as [-> ->]. reflexivity.
    - symmetry. apply orElse_zero_parseFloat, Hn. }
  rewrite Ea, Eg. destruct (_ || _); reflexivity.
Qed.

Lemma v1_and_v2_agree_on_the_target_witness :
  V1.calculateMaxCalories jakarta (Sample.book Sample.profile [] []) = Some (Num.ofZ 2056).
Proof.
  rewrite (v1_and_v2_agree_on_the_target jakarta (Sample.book Sample.profile [] [])
             Sample.profile eq_refl).
  - vm_compute. reflexivity.
  - right. vm_compute. reflexivity.
  - right. split; [vm_compute; reflexivity | vm_compute; discriminate].
Defined.

(** ** The tracker of version 1 *)






(** ** Setting the sheets up *)

(** X14. Setting up the Dashboard erases the personal parameters: after
    [setupDashboard] on a book that has the sheet, whatever the profile
    was, the target cannot be computed (the error of the missing metrics)
    and the refresh changes nothing, until the parameters are entered
    again; the Log and the Daily Summary sheet are as before. *)
Theorem setupDashboard_erases_the_profile env ss d :
  dashboardSheet ss = Some d ->
  let ss' := (setupDashboard env ss).1 in
  profileOf ss' = Some (replicate 6 (CStr "")) /\
  getMaxCaloriesFromDashboard env ss' = Err (ErrorMsg MISSING_METRICS) /\
  refreshCaloryDiary env ss' = ss' /\
  logSheet ss' = logSheet ss /\ summarySheet ss' = summarySheet ss.
Proof.
  intros Ed ss'. subst ss'. unfold setupDashboard, alert. rewrite Ed.
  destruct (hasUi env); cbn [fst];
    (split; [reflexivity |]; split; [reflexivity |]; split; [reflexivity |];
     split; reflexivity).
Qed.

Lemma setupDashboard_erases_the_profile_witness :
  let ss := Sample.book Sample.profile (Sample.meals (Sample.jan15 420 8 30))
              [Sample.summaryHeader] in
  getMaxCaloriesFromDashboard jakarta ss = Ok (Num.ofZ 2056) /\
  getMaxCaloriesFromDashboard jakarta (setupDashboard jakarta ss).1
  = Err (ErrorMsg MISSING_METRICS).
Proof.
  intros ss. split; [vm_compute; reflexivity |].
  exact (proj1 (proj2 (setupDashboard_erases_the_profile jakarta ss Sample.profile eq_refl))).
Defined.

(** X15. [initializeAllSheets] on a book with its Dashboard and Log
    sheets.  With the UI it returns without error, keeps every row of the
    Log and of the Daily Summary sheet below the first one, writes the
    headers into the first rows, creates the Daily Summary sheet when it
    is missing, and run again changes nothing more.  Without the UI it
    stops at the first alert, that of [setupDashboard]: the profile is
    erased, and the Log and the Daily Summary sheet are not set up. *)
Theorem initializeAllSheets_keeps_the_rows env ss d rows :
  dashboardSheet ss = Some d -> logSheet ss = Some rows ->
  let r := initializeAllSheets env ss in
  (hasUi env = true ->
     r.2 = None /\
     (exists first, logSheet r.1 = Some (first :: drop 1 rows) /\ take 5 first = LOG_HEADERS) /\
     (exists first, summarySheet r.1 = Some (first :: drop 1 (default [] (summarySheet ss))) /\
                    take 4 (cells first) = SUMMARY_HEADERS) /\
     initializeAllSheets env r.1 = r) /\
  (hasUi env = false ->
     r.2 = Some (ErrorMsg NO_UI) /\ profileOf r.1 = Some (replicate 6 (CStr "")) /\
     logSheet r.1 = Some rows /\ summarySheet r.1 = summarySheet ss).
Proof.
  intros Ed El r. subst r.
  unfold initializeAllSheets, setupDashboard, setupLogSheet, setupDailySummarySheet, alert,
    andThen.
  rewrite Ed. cbn [logSheet dashboardSheet summarySheet]. rewrite El.
  split; intros ->; cbn [fst snd logSheet dashboardSheet summarySheet].
  - split; [reflexivity |]. split; [| split].
    + destruct rows as [| first rest]; eexists; split; reflexivity.
    + destruct (summarySheet ss) as [[| first rest] |]; eexists; split; reflexivity.
    + destruct rows as [| first rest], (summarySheet ss) as [[| f rest'] |]; reflexivity.
  - split; [reflexivity |]. split; [reflexivity |]. split; reflexivity.
Qed.

Lemma initializeAllSheets_keeps_the_rows_witness :
  let ss := {| dashboardSheet := Some Sample.profile;
               logSheet := Some (Sample.logHeader :: Sample.meals (Sample.jan15 420 8 30));
               summarySheet := None |} in
  (initializeAllSheets jakarta ss).2 = Some (ErrorMsg NO_UI) /\
  logSheet (initializeAllSheets jakarta ss).1
  = Some (Sample.logHeader :: Sample.meals (Sample.jan15 420 8 30)) /\
  summarySheet (initializeAllSheets jakarta ss).1 = None.
Proof.
  intros ss.
  destruct (proj2 (initializeAllSheets_keeps_the_rows jakarta ss Sample.profile _
                     eq_refl eq_refl) eq_refl) as (H1 & _ & H2 & H3).
  split; [exact H1 |]. split; [exact H2 | exact H3].
Defined.

(** ** The tracker after a refresh *)

Lemma findToday_first env k rows : forall j row,
  rows !! j = Some row -> rowKey env row = Some k -> formattable env rows ->
  (forall j' row', (j' < j)%nat -> rows !! j' = Some row' -> rowKey env row' <> Some k) ->
  findToday env k rows = Ok (Some row).
Proof.
  induction rows as [| r rows IH]; intros j row Hj Hk Hf Hbefore; [destruct j; discriminate |].
  apply Forall_cons in Hf as [Hr Hf]. cbn [findToday]. destruct j as [| j].
  - injection Hj as ->. unfold rowKey in Hk.
    destruct (truthy (cellAt row 0)); [| discriminate Hk].
    destruct (dateKeyOf env (cellAt row 0)) as [k' |]; [| discriminate Hk].
    injection Hk as ->. cbn [mbind Result_bind]. rewrite String.eqb_refl. reflexivity.
  - assert (IH' : findToday env k rows = Ok (Some row)).
    { apply (IH j row Hj Hk Hf). intros j' row' Hlt Hl.
      apply (Hbefore (S j') row'); [lia | exact Hl]. }
    pose proof (Hbefore 0%nat r ltac:(lia) eq_refl) as Hr0. unfold rowKey in Hr0.
    destruct (truthy (cellAt r 0)) eqn:Ht; [| exact IH'].
    destruct (Hr eq_refl) as [k' Hk']. rewrite Hk' in *. cbn [mbind Result_bind].
    destruct (String.eqb k' k) eqn:E; [| exact IH'].
    apply String.eqb_eq in E. subst k'. contradiction (Hr0 eq_refl).
Qed.

Lemma findToday_none env k rows :
  formattable env rows ->
  (forall j row, rows !! j = Some row -> rowKey env row <> Some k) ->
  findToday env k rows = Ok None.
Proof.
  induction rows as [| r rows IH]; intros Hf Hno; [reflexivity |].
  apply Forall_cons in Hf as [Hr Hf]. cbn [findToday].
  assert (IH' : findToday env k rows = Ok None).
  { apply (IH Hf). intros j row Hl. apply (Hno (S j) row). exact Hl. }
  pose proof (Hno 0%nat r eq_refl) as Hr0. unfold rowKey in Hr0.
  destruct (truthy (cellAt r 0)) eqn:Ht; [| exact IH'].
  destruct (Hr eq_refl) as [k' Hk']. rewrite Hk' in *. cbn [mbind Result_bind].
  destruct (String.eqb k' k) eqn:E; [| exact IH'].
  apply String.eqb_eq in E. subst k'. contradiction (Hr0 eq_refl).
Qed.

Lemma mapGet_None_notin k (m : TotalsMap) : mapGet k m = None -> k ∉ m.*1.
Proof.
  induction m as [| [k' v] m IH]; cbn [mapGet]; intros H Hin.
  - apply elem_of_nil in Hin. exact Hin.
  - destruct (String.eqb k k') eqn:E; [discriminate H |].
    apply String.eqb_neq in E. rewrite fmap_cons in Hin.
    apply elem_of_cons in Hin as [Hin | Hin]; [exact (E Hin) | exact (IH H Hin)].
Qed.

(** The sheet after the upsert: the rows of the sheet, rewritten in place
    where a day of the totals map was filed, then the records of the new
    days. *)
Lemma upsertRows_shape env (sh : list SRow) (m : TotalsMap) (g : Num) :
  sh <> [] -> (forall e, e ∈ m -> stableKey env e.1) -> formattable env (records sh) ->
  exists ex U,
    scanExisting env 1 (drop 1 (cells <$> sh)) ∅ = Ok ex /\
    upsertRows env sh (Some m) g = Ok (foldl (upsertEntry env ex g) sh m) /\
    foldl (upsertEntry env ex g) sh m
    = (U ++ (newRecord env g <$> filter (fun e => ex !! e.1 = None) m))%list /\
    Forall2 (rewritten env g) sh U /\
    records (U ++ (newRecord env g <$> filter (fun e => ex !! e.1 = None) m))
    = (records U ++ (cells <$> (newRecord env g <$> filter (fun e => ex !! e.1 = None) m)))%list /\
    formattable env (records (U ++ (newRecord env g <$> filter (fun e => ex !! e.1 = None) m))).
Proof.
  intros Hne Hst Hf.
  destruct (upsertRows_ok env sh m g Hf) as (ex & Hex & Hup).
  assert (Hrange : forall k r, ex !! k = Some r -> (1 <= r <= length sh)%nat).
  { intros k r H. pose proof (existingDates_range env sh ex k r Hex H). lia. }
  exists ex, (foldl (updateEntry env ex g) sh m).
  set (news := filter (fun e => ex !! e.1 = None) m).
  set (U := foldl (updateEntry env ex g) sh m).
  assert (HU : Forall2 (rewritten env g) sh U).
  { apply (update_loop_rewritten env ex g sh m
             (fun k r => existingDates_key env sh ex k r Hex) Hst).
    apply Forall_Forall2_diag, Forall_true. intros row. left. reflexivity. }
  assert (HlenU : length U = length sh) by (symmetry; exact (Forall2_length _ _ _ HU)).
  assert (Hlen : (1 <= length sh)%nat) by (destruct sh; [contradiction | simpl; lia]).
  assert (Hrec : records (U ++ (newRecord env g <$> news))
                 = (records U ++ (cells <$> (newRecord env g <$> news)))%list).
  { unfold records. rewrite fmap_app. apply drop_app_le. rewrite length_fmap. lia. }
  split; [exact Hex |]. split; [exact Hup |]. split; [| split; [exact HU |]].
  - rewrite <- (app_nil_r sh) at 1.
    rewrite (upsert_loop_split env ex g (length sh) Hrange m sh [] (Nat.le_refl _)).
    reflexivity.
  - split; [exact Hrec |]. rewrite Hrec. apply Forall_app. split.
    + exact (rewritten_rows_formattable env g sh U HU Hf).
    + apply records_formattable. intros e He.
      apply list_elem_of_filter in He as [_ He]. exact (Hst e He).
Qed.

(** Where a row filed under [k] can be after the upsert: at the place of
    a row of the sheet filed under [k], or among the new records. *)
Lemma upserted_keys env (sh U : list SRow) (news : TotalsMap) g k j row :
  Forall2 (rewritten env g) sh U -> (forall e, e ∈ news -> stableKey env e.1) ->
  (records U ++ (cells <$> (newRecord env g <$> news)))%list !! j = Some row ->
  rowKey env row = Some k ->
  (exists r0, records sh !! j = Some r0 /\ rowKey env r0 = Some k) \/
  (exists p t, j = (length sh - 1 + p)%nat /\ news !! p = Some (k, t)).
Proof.
  intros HU Hst Hj Hk.
  assert (Hlen : length (records U) = (length sh - 1)%nat).
  { unfold records. rewrite length_drop, length_fmap, <- (Forall2_length _ _ _ HU). reflexivity. }
  apply lookup_app_Some in Hj as [Hj | [Hge Hj]].
  - left. destruct (Forall2_lookup_l _ _ _ _ _ (rewritten_rows_keys env g sh U HU) Hj)
      as (r0 & Hr0 & Heq).
    exists r0. split; [exact Hr0 |]. rewrite <- Heq. exact Hk.
  - right. rewrite !list_lookup_fmap in Hj.
    destruct (news !! (j - length (records U))%nat) as [[k' t'] |] eqn:E; [| discriminate Hj].
    change (Some (cells (newRecord env g (k', t'))) = Some row) in Hj. injection Hj as Heq.
    assert (Hk' : rowKey env row = Some k').
    { rewrite <- Heq.
      exact (rowKey_newRecord env g news Hst (k', t') (list_elem_of_lookup_2 _ _ _ E)). }
    rewrite Hk in Hk'. injection Hk' as ->.
    exists (j - length (records U))%nat, t'. split; [lia | exact E].
Qed.

(** X16. The tracker after a refresh, where the date keys are stable and
    the Daily Summary sheet, with its header row and formattable dates,
    files today at most once.  When the Log has entries for today the
    tracker shows the record of today: the date built from the key of
    today, the total of today, the target, and the status text with the
    format of the remainder.  When it has none, the tracker shows zero
    calories under the target on the current date if the sheet has no row
    for today, and the old row of today as it stands if it has one. *)
Theorem refresh_shows_the_record_of_today env ss d sh g m :
  dashboardSheet ss = Some d ->
  summarySheet ss = Some sh -> sh <> [] -> formattable env (records sh) ->
  getMaxCaloriesFromDashboard env ss = Ok g ->
  computeDailyTotalsFromLog env ss = Ok (Some m) ->
  (forall e, e ∈ m -> stableKey env e.1) ->
  (forall i j ri rj,
      records sh !! i = Some ri -> records sh !! j = Some rj ->
      rowKey env ri = Some (formatDate env (now env)) ->
      rowKey env rj = Some (formatDate env (now env)) -> i = j) ->
  dashboardSheet (refreshCaloryDiary env ss) =
  Some
    match mapGet (formatDate env (now env)) m with
    | Some t =>
        setTracker d (CDate (parseDate env (formatDate env (now env)))) (CNum t) (CNum g)
          (CStr (statusText (Num.sub g t))) (statusStyle (Num.sub g t))
    | None =>
        match lastRowWith env (formatDate env (now env)) (records sh) with
        | None =>
            setTracker d (CDate (Some (now env))) (CNum Num.zero) (CNum g)
              (CStr ("Under Goal (+" ++ Str.ofNum g ++ ")")) Green
        | Some j =>
            let row := default [] (records sh !! j) in
            setTracker d (cellAt row 0) (cellAt row 1) (cellAt row 2) (cellAt row 3)
              (trackerStyle (toString env (cellAt row 3)))
        end
    end.
Proof.
  intros Ed Es Hne Hf Eg Em Hst Huniq.
  set (today := formatDate env (now env)) in *.
  assert (Hnd : NoDup m.*1).
  { unfold computeDailyTotalsFromLog in Em.
    destruct (logSheet ss) as [rows |]; [| discriminate Em].
    destruct (length rows <=? 1)%nat; [discriminate Em |]. injection Em as <-.
    apply aggregate_NoDup. }
  destruct (upsertRows_shape env sh m g Hne Hst Hf) as (ex & U & Hex & Hup & Hsplit & HU & Hrec & Hf1).
  set (news := filter (fun e => ex !! e.1 = None) m) in *.
  set (sh1 := foldl (upsertEntry env ex g) sh m) in *.
  rewrite <- Hsplit in Hrec, Hf1.
  assert (Hrange : forall k r, ex !! k = Some r -> (1 <= r <= length sh)%nat).
  { intros k r H. pose proof (existingDates_range env sh ex k r Hex H). lia. }
  pose proof (fun k1 k2 r => existingDates_inj env sh ex k1 k2 r Hex) as Hinj.
  assert (Hlen : (1 <= length sh)%nat) by (destruct sh; [contradiction | simpl; lia]).
  assert (HlenU : length U = length sh) by (symmetry; exact (Forall2_length _ _ _ HU)).
  assert (Hnews_st : forall e, e ∈ news -> stableKey env e.1).
  { intros e He. apply list_elem_of_filter in He as [_ He]. exact (Hst e He). }
  assert (Hnews_nd : NoDup news.*1).
  { apply (sublist_NoDup _ m.*1 Hnd). apply fmap_sublist, sublist_filter. }
  pose proof (fun k j row => upserted_keys env sh U news g k j row HU Hnews_st) as HL.
  rewrite <- Hrec in HL.
  set (ss1 := {| dashboardSheet := dashboardSheet ss; logSheet := logSheet ss;
                 summarySheet := Some sh1 |}).
  assert (Hrefresh : refreshCaloryDiary env ss = updateDashboardTodayView env ss1).
  { unfold refreshCaloryDiary, refreshSteps. rewrite Eg, Em.
    cbn [mbind Result_bind keyCount]. unfold upsertDailySummary. rewrite Es, Hup. reflexivity. }
  assert (Hview : forall row,
            findToday env today (records sh1) = Ok (Some row) ->
            dashboardSheet (updateDashboardTodayView env ss1)
            = Some (setTracker d (cellAt row 0) (cellAt row 1) (cellAt row 2) (cellAt row 3)
                      (trackerStyle (toString env (cellAt row 3))))).
  { intros row Hft. unfold updateDashboardTodayView. cbn [dashboardSheet summarySheet ss1].
    rewrite Ed. change (drop 1 (cells <$> sh1)) with (records sh1). fold today.
    rewrite Hft. reflexivity. }
  assert (Hview0 : findToday env today (records sh1) = Ok None ->
                   dashboardSheet (updateDashboardTodayView env ss1)
                   = Some (setTracker d (CDate (Some (now env))) (CNum Num.zero) (CNum g)
                             (CStr ("Under Goal (+" ++ Str.ofNum g ++ ")")) Green)).
  { intros Hft. unfold updateDashboardTodayView. cbn [dashboardSheet summarySheet ss1].
    rewrite Ed. change (drop 1 (cells <$> sh1)) with (records sh1). fold today.
    rewrite Hft. unfold getMaxCaloriesFromDashboard in *. cbn [dashboardSheet ss1].
    rewrite Ed in *. rewrite Eg. reflexivity. }
  assert (Hlook1 : forall i srow, (1 <= i)%nat -> sh1 !! i = Some srow ->
                                  records sh1 !! (i - 1)%nat = Some (cells srow)).
  { intros i srow Hi Hs. unfold records. rewrite lookup_drop, list_lookup_fmap.
    replace (1 + (i - 1))%nat with i by lia. rewrite Hs. reflexivity. }
  rewrite Hrefresh.
  destruct (mapGet today m) as [t |] eqn:Et.
  - pose proof (mapGet_Some_elem _ _ _ Et) as Hin.
    destruct (upsert_loop_written env ex g (length sh) Hrange Hinj m sh Hnd (Nat.le_refl _)
                today t Hin) as (i & row' & Hi & [_ _] & Hpos).
    fold sh1 in Hi.
    assert (Hcells : exists rest, cells row' = (rowDataOf env today t g ++ rest)%list).
    { destruct (ex !! today); [destruct Hpos as (_ & old & _ & ->); eauto |].
      destruct Hpos as [_ ->]. exists []. rewrite app_nil_r. reflexivity. }
    destruct Hcells as [rest Hcells].
    assert (Hi1 : (1 <= i)%nat).
    { destruct (ex !! today) as [r |] eqn:Hk; [| lia].
      destruct Hpos as [-> _]. pose proof (existingDates_range env sh ex today r Hex Hk). lia. }
    assert (Hkey : rowKey env (cells row') = Some today).
    { rewrite Hcells. apply rowKey_record. exact (Hst (today, t) Hin). }
    rewrite (Hview (cells row')).
    { rewrite Hcells.
      transitivity
        (Some (setTracker d (CDate (parseDate env today)) (CNum t) (CNum g)
                 (CStr (statusText (Num.sub g t)))
                 (trackerStyle (statusText (Num.sub g t))))); [reflexivity |].
      rewrite trackerStyle_statusText. reflexivity. }
    apply (findToday_first env today (records sh1) (i - 1)%nat (cells row')
             (Hlook1 i row' Hi1 Hi) Hkey Hf1).
    intros j' r' Hlt Hj' Hk'.
    destruct (HL today j' r' Hj' Hk') as [(r0 & Hr0 & Hk0) | (p & t' & -> & Hp)].
    + destruct (lastRowWith env today (records sh)) as [j0 |] eqn:El;
        [| exact (lastRowWith_None _ _ _ El _ _ Hr0 Hk0)].
      destruct (lastRowWith_Some _ _ _ _ El) as (rl & Hrl & Hkl & _).
      pose proof (Huniq j' j0 r0 rl Hr0 Hrl Hk0 Hkl) as ->.
      rewrite (existingDates_lookup env sh ex today Hex), El in Hpos. cbn in Hpos.
      destruct Hpos as [-> _]. lia.
    + assert (Hk : ex !! today = None).
      { apply list_elem_of_lookup_2, list_elem_of_filter in Hp as [Hp _]. exact Hp. }
      rewrite Hk in Hpos. destruct Hpos as [Hge _].
      rewrite Hsplit in Hi. rewrite lookup_app_r in Hi by lia.
      rewrite list_lookup_fmap in Hi.
      destruct (news !! (i - length U)%nat) as [[k2 t2] |] eqn:E2; [| discriminate Hi].
      change (Some (newRecord env g (k2, t2)) = Some row') in Hi. injection Hi as Heq.
      assert (Hk2 : rowKey env (cells row') = Some k2).
      { rewrite <- Heq.
        exact (rowKey_newRecord env g news Hnews_st (k2, t2)
                 (list_elem_of_lookup_2 _ _ _ E2)). }
      rewrite Hkey in Hk2. injection Hk2 as <-.
      assert (p = (i - length U)%nat); [| lia].
      apply (NoDup_lookup news.*1 p (i - length U)%nat today Hnews_nd);
        rewrite list_lookup_fmap.
      * rewrite Hp. reflexivity.
      * rewrite E2. reflexivity.
  - pose proof (mapGet_None_notin _ _ Et) as Hnot.
    assert (HnotR : forall p t', news !! p <> Some (today, t')).
    { intros p t' Hp. apply Hnot. apply list_elem_of_lookup_2, list_elem_of_filter in Hp as [_ Hp].
      apply list_elem_of_fmap. exists (today, t'). auto. }
    destruct (lastRowWith env today (records sh)) as [j |] eqn:El.
    + destruct (lastRowWith_Some _ _ _ _ El) as (row0 & Hr0 & Hk0 & _).
      assert (Hj : (j < length sh - 1)%nat).
      { apply lookup_lt_Some in Hr0. unfold records in Hr0.
        rewrite length_drop, length_fmap in Hr0. exact Hr0. }
      destruct (lookup_lt_is_Some_2 sh (S j)) as [srow Hsrow]; [lia |].
      assert (Hcells0 : cells srow = row0).
      { unfold records in Hr0. rewrite lookup_drop, list_lookup_fmap in Hr0.
        change (1 + j)%nat with (S j) in Hr0. rewrite Hsrow in Hr0.
        injection Hr0 as Hr0. exact Hr0. }
      assert (Hs1 : sh1 !! S j = Some srow).
      { apply (upsert_loop_untouched env ex g (length sh) Hrange); [lia | exact Hsrow |].
        intros k t Hin Hk.
        assert (Hk' : ex !! today = Some (S (S j))).
        { rewrite (existingDates_lookup env sh ex today Hex), El. cbn. f_equal. lia. }
        apply Hnot. rewrite <- (Hinj k today _ Hk Hk').
        apply list_elem_of_fmap. exists (k, t). auto. }
      rewrite Hr0. cbn [default from_option]. unfold id. cbv zeta.
      apply Hview. pose proof (Hlook1 (S j) srow ltac:(lia) Hs1) as Hrow.
      replace (S j - 1)%nat with j in Hrow by lia. rewrite Hcells0 in Hrow.
      apply (findToday_first env today (records sh1) j row0 Hrow Hk0 Hf1).
      intros j' r' Hlt Hj' Hk'.
      destruct (HL today j' r' Hj' Hk') as [(r1 & Hr1 & Hk1) | (p & t' & -> & Hp)].
      * pose proof (Huniq j' j r1 row0 Hr1 Hr0 Hk1 Hk0). lia.
      * lia.
    + apply Hview0. apply (findToday_none env today (records sh1) Hf1).
      intros j' r' Hj' Hk'.
      destruct (HL today j' r' Hj' Hk') as [(r1 & Hr1 & Hk1) | (p & t' & -> & Hp)].
      * exact (lastRowWith_None _ _ _ El _ _ Hr1 Hk1).
      * exact (HnotR p t' Hp).
Qed.

Lemma refresh_shows_the_record_of_today_witness :
  dashboardSheet
    (refreshCaloryDiary jakarta
       (Sample.book Sample.profile (Sample.meals (Sample.jan15 420 8 30))
          [Sample.summaryHeader]))
  = Some (setTracker Sample.profile (CDate (Host.parseIsoDate "2024-01-15"))
            (Sample.kcal 1600) (Sample.kcal 2056) (CStr "Under Goal (+456)") Green).
Proof.
  rewrite (refresh_shows_the_record_of_today jakarta
             (Sample.book Sample.profile (Sample.meals (Sample.jan15 420 8 30))
                [Sample.summaryHeader])
             Sample.profile [Sample.summaryHeader] (Num.ofZ 2056)
             [("2024-01-15", Num.ofZ 1600)] eq_refl eq_refl).
  - vm_compute. reflexivity.
  - discriminate.
  - constructor.
  - vm_compute. reflexivity.
  - vm_compute. reflexivity.
  - intros e He. apply list_elem_of_singleton in He as ->.
    eexists. split; [vm_compute; reflexivity | vm_compute; reflexivity].
  - intros i j ri rj Hi. destruct i; discriminate Hi.
Defined.

(** ** A second refresh at a later instant *)

Lemma refreshCaloryDiary_split env ss :
  refreshCaloryDiary env ss =
  match upsertSteps env ss with
  | Ok upserted => updateDashboardTodayView env upserted
  | Err _ => ss
  end.
Proof.
  unfold refreshCaloryDiary, refreshSteps, upsertSteps.
  destruct (getMaxCaloriesFromDashboard env ss) as [g |]; [| reflexivity].
  destruct (computeDailyTotalsFromLog env ss) as [[m |] |]; try reflexivity.
  cbn [mbind Result_bind keyCount].
  destruct (upsertDailySummary env ss (Some m) g); reflexivity.
Qed.

(** The steps before the today view do not read the clock. *)
Lemma upsertSteps_atTime env clock ss : upsertSteps (atTime env clock) ss = upsertSteps env ss.
Proof. reflexivity. Qed.

Lemma findToday_exists env k rows :
  formattable env rows ->
  forall j row, rows !! j = Some row -> rowKey env row = Some k ->
                exists row', findToday env k rows = Ok (Some row').
Proof.
  induction rows as [| r rows IH]; intros Hf j row Hj Hk; [destruct j; discriminate Hj |].
  apply Forall_cons in Hf as [Hr Hf]. cbn [findToday].
  destruct (truthy (cellAt r 0)) eqn:Ht.
  - destruct (Hr eq_refl) as [k' Hk']. rewrite Hk'. cbn [mbind Result_bind].
    destruct (String.eqb k' k) eqn:E; [eauto |].
    destruct j as [| j]; [| exact (IH Hf j row Hj Hk)].
    injection Hj as <-. unfold rowKey in Hk. rewrite Ht, Hk' in Hk. injection Hk as ->.
    rewrite String.eqb_refl in E. discriminate E.
  - destruct j as [| j]; [| exact (IH Hf j row Hj Hk)].
    injection Hj as <-. unfold rowKey in Hk. rewrite Ht in Hk. discriminate Hk.
Qed.

(** X9. A second refresh, at whatever later instant, where the date keys
    are stable: for a book whose Daily Summary sheet has its header row
    and formattable dates, and whose Log yields stable date keys, it
    leaves the Daily Summary sheet, the Log and the personal parameters as
    the first refresh left them.  It leaves the whole book so, tracker
    included, when the later instant falls on the same day and the Log has
    a counted entry for that day; otherwise the tracker follows the clock
    (the today view writes the current instant to A2 when today has no
    row). *)
Theorem later_refresh_keeps_the_sheets env ss clock :
  (forall sh, summarySheet ss = Some sh -> sh <> [] /\ formattable env (records sh)) ->
  (forall rows row k c, logSheet ss = Some rows -> row ∈ rows ->
                        entryOf env row = Some (k, c) -> stableKey env k) ->
  let ss1 := refreshCaloryDiary env ss in
  let ss2 := refreshCaloryDiary (atTime env clock) ss1 in
  summarySheet ss2 = summarySheet ss1 /\
  logSheet ss2 = logSheet ss1 /\
  profileOf ss2 = profileOf ss1 /\
  (formatDate env clock = formatDate env (now env) ->
   (exists rows row c, logSheet ss = Some rows /\ row ∈ drop 1 rows /\
                       entryOf env row = Some (formatDate env (now env), c)) ->
   ss2 = ss1).
Proof.
  intros Hsum Hlog ss1 ss2. subst ss1 ss2.
  rewrite (refreshCaloryDiary_split (atTime env clock)), upsertSteps_atTime.
  rewrite (refreshCaloryDiary_split env ss).
  destruct (upsertSteps env ss) as [u |] eqn:Eu.
  2: { rewrite Eu. repeat split; reflexivity. }
  unfold upsertSteps in Eu.
  destruct (getMaxCaloriesFromDashboard env ss) as [g |] eqn:Eg; [| discriminate Eu].
  destruct (computeDailyTotalsFromLog env ss) as [[m |] |] eqn:Em; try discriminate Eu.
  cbn [mbind Result_bind keyCount] in Eu. unfold upsertDailySummary in Eu.
  destruct (summarySheet ss) as [sh |] eqn:Es; [| discriminate Eu].
  destruct (Hsum sh eq_refl) as [Hne Hf].
  assert (Hrows : exists rows, logSheet ss = Some rows /\ m = foldl (addLogRow env) [] (drop 1 rows)).
  { unfold computeDailyTotalsFromLog in Em.
    destruct (logSheet ss) as [rows |] eqn:El; [| discriminate Em].
    destruct (length rows <=? 1)%nat; [discriminate Em |]. injection Em as <-. eauto. }
  destruct Hrows as (rows & El & Hm).
  destruct (addLogRow_fold env (drop 1 rows) [] allFin_nil) as (_ & _ & Hkeys & _).
  rewrite <- Hm in Hkeys.
  assert (Hnd : NoDup m.*1) by (rewrite Hm; apply aggregate_NoDup).
  assert (Hst : forall e, e ∈ m -> stableKey env e.1).
  { intros [k t] He.
    assert (Hin : k ∈ m.*1) by (apply list_elem_of_fmap; exists (k, t); auto).
    apply Hkeys in Hin as [Hin | (row & c & Hrow & Hent)];
      [apply elem_of_nil in Hin; contradiction |].
    apply (Hlog rows row k c El); [| exact Hent].
    apply list_elem_of_lookup_1 in Hrow as [j Hj]. rewrite lookup_drop in Hj.
    eapply list_elem_of_lookup_2. exact Hj. }
  destruct (upsertRows_idempotent env sh m g Hne Hnd Hst Hf) as (sh1 & H1 & H2).
  rewrite H1 in Eu. cbn [mbind Result_bind] in Eu. injection Eu as <-.
  set (u := {| dashboardSheet := dashboardSheet ss; logSheet := logSheet ss;
               summarySheet := Some sh1 |}).
  assert (Hu : upsertSteps env (updateDashboardTodayView env u)
               = Ok (updateDashboardTodayView env u)).
  { unfold upsertSteps.
    assert (Eg' : getMaxCaloriesFromDashboard env (updateDashboardTodayView env u) = Ok g)
      by (rewrite updateDashboardTodayView_target; exact Eg).
    assert (Em' : computeDailyTotalsFromLog env (updateDashboardTodayView env u)
                  = Ok (Some m)).
    { unfold computeDailyTotalsFromLog in *. rewrite updateDashboardTodayView_log.
      cbn [logSheet u]. rewrite El in *. exact Em. }
    rewrite Eg', Em'. cbn [mbind Result_bind keyCount]. unfold upsertDailySummary.
    rewrite updateDashboardTodayView_summary. cbn [summarySheet u]. rewrite H2.
    cbn [mbind Result_bind].
    pose proof (updateDashboardTodayView_summary env u) as Hs1.
    destruct (updateDashboardTodayView env u) as [dv lv sv].
    cbn [dashboardSheet logSheet summarySheet u] in *. subst sv. reflexivity. }
  rewrite Hu.
  split; [rewrite !updateDashboardTodayView_summary; reflexivity |].
  split; [rewrite !updateDashboardTodayView_log; reflexivity |].
  split; [rewrite !updateDashboardTodayView_profile; reflexivity |].
  intros Hday (rows' & row & c & El' & Hrow & Hent).
  rewrite El in El'. injection El' as <-.
  destruct (dashboardSheet ss) as [d |] eqn:Ed.
  2: { assert (Hv : forall e x, dashboardSheet x = None -> updateDashboardTodayView e x = x)
         by (intros e x Hx; unfold updateDashboardTodayView; rewrite Hx; reflexivity).
       rewrite (Hv env u) by reflexivity. apply Hv. reflexivity. }
  set (today := formatDate env (now env)) in *.
  (* the record of today stands in the sheet after the first upsert *)
  assert (Hin : exists t, (today, t) ∈ m).
  { assert (Hk : today ∈ m.*1) by (apply Hkeys; right; eauto).
    apply list_elem_of_fmap in Hk as ([k t] & Hk & He). cbn [fst] in Hk. subst k. eauto. }
  destruct Hin as [t Hin].
  destruct (upsertRows_shape env sh m g Hne Hst Hf)
    as (ex & U & Hex & Hup & Hsplit & _ & _ & Hf1).
  rewrite H1 in Hup. injection Hup as Hsh1. rewrite <- Hsplit, <- Hsh1 in Hf1.
  assert (Hrange : forall k r, ex !! k = Some r -> (1 <= r <= length sh)%nat).
  { intros k r H. pose proof (existingDates_range env sh ex k r Hex H). lia. }
  pose proof (fun k1 k2 r => existingDates_inj env sh ex k1 k2 r Hex) as Hinj.
  destruct (upsert_loop_written env ex g (length sh) Hrange Hinj m sh Hnd (Nat.le_refl _)
              today t Hin) as (i & row' & Hi & _ & Hpos).
  rewrite <- Hsh1 in Hi.
  assert (Hlen : (1 <= length sh)%nat) by (destruct sh; [contradiction | simpl; lia]).
  assert (Hcells : exists rest, cells row' = (rowDataOf env today t g ++ rest)%list).
  { destruct (ex !! today); [destruct Hpos as (_ & old & _ & ->); eauto |].
    destruct Hpos as [_ ->]. exists []. rewrite app_nil_r. reflexivity. }
  destruct Hcells as [rest Hcells].
  assert (Hi1 : (1 <= i)%nat).
  { destruct (ex !! today) as [r |] eqn:Hk; [| lia].
    destruct Hpos as [-> _]. pose proof (existingDates_range env sh ex today r Hex Hk). lia. }
  assert (Hrec : records sh1 !! (i - 1)%nat = Some (cells row')).
  { unfold records. rewrite lookup_drop, list_lookup_fmap.
    replace (1 + (i - 1))%nat with i by lia. rewrite Hi. reflexivity. }
  assert (Hkey : rowKey env (cells row') = Some today).
  { rewrite Hcells. apply rowKey_record. exact (Hst (today, t) Hin). }
  destruct (findToday_exists env today (records sh1) Hf1 _ _ Hrec Hkey) as [found Hfound].
  assert (Hv : updateDashboardTodayView env u
               = withDashboard u
                   (setTracker d (cellAt found 0) (cellAt found 1) (cellAt found 2)
                      (cellAt found 3) (trackerStyle (toString env (cellAt found 3))))).
  { unfold updateDashboardTodayView. cbn [dashboardSheet summarySheet u].
    change (drop 1 (cells <$> sh1)) with (records sh1). fold today. rewrite Hfound.
    reflexivity. }
  rewrite Hv.
  rewrite (todayView_after_tracker (atTime env clock) u d sh1 _ _ _ _ _ eq_refl eq_refl).
  change (findToday (atTime env clock) (formatDate (atTime env clock) (now (atTime env clock)))
            (drop 1 (cells <$> sh1)))
    with (findToday env (formatDate env clock) (records sh1)).
  rewrite Hday, Hfound. reflexivity.
Qed.

Lemma later_refresh_keeps_the_sheets_witness :
  let ss := Sample.book Sample.profile (Sample.meals (Sample.jan15 420 8 30))
              [Sample.summaryHeader] in
  let later := atTime jakarta (Host.at_ 420 2024 1 15 23 30) in
  refreshCaloryDiary later (refreshCaloryDiary jakarta ss) = refreshCaloryDiary jakarta ss.
Proof.
  intros ss later.
  apply (later_refresh_keeps_the_sheets jakarta ss (Host.at_ 420 2024 1 15 23 30)).
  - intros sh [= <-]. split; [discriminate | constructor].
  - intros rows row k c [= <-] Hrow Hent.
    assert (Hk : k = "2024-01-15").
    { unfold Sample.meals, Sample.fourMeals in Hrow.
      repeat (apply elem_of_cons in Hrow as [-> | Hrow];
              [vm_compute in Hent; congruence |]).
      apply elem_of_nil in Hrow. contradiction. }
    subst k. apply (proj1 (sample_key_east_and_west 420 _ false)). lia.
  - vm_compute. reflexivity.
  - exists (Sample.logHeader :: Sample.meals (Sample.jan15 420 8 30)),
      (Sample.entry (Sample.jan15 420 8 30) "08:30" "Breakfast"
         "Oatmeal with banana and coffee" (Sample.kcal 350)), (Num.ofZ 350).
    split; [reflexivity |]. split; [left | vm_compute; reflexivity].
Defined.

(** ** When the refresh succeeds *)

Lemma scanExisting_formattable env rows : forall i acc ex,
  scanExisting env i rows acc = Ok ex -> formattable env rows.
Proof.
  induction rows as [| row rows IH]; intros i acc ex H; [constructor |].
  cbn [scanExisting] in H. constructor.
  - intros Ht. rewrite Ht in H.
    destruct (dateKeyOf env (cellAt row 0)) as [k |]; [eauto | discriminate H].
  - destruct (truthy (cellAt row 0)).
    + destruct (dateKeyOf env (cellAt row 0)) as [k |]; [| discriminate H].
      cbn [mbind Result_bind] in H. exact (IH _ _ _ H).
    + exact (IH _ _ _ H).
Qed.

(** X17. The refresh goes through exactly when the book has its three
    sheets, the target can be computed from the Dashboard, the Log has at
    least one row below its first row, and every date of the records of
    the Daily Summary sheet can be formatted; in every other case it
    leaves the whole book as it was. *)
Theorem refresh_succeeds_iff env ss :
  ((exists ss', refreshSteps env ss = Ok ss') <->
   (exists d rows sh g,
      dashboardSheet ss = Some d /\ maxCaloriesOf env d = Ok g /\
      logSheet ss = Some rows /\ (2 <= length rows)%nat /\
      summarySheet ss = Some sh /\ formattable env (records sh))) /\
  ((forall ss', refreshSteps env ss <> Ok ss') -> refreshCaloryDiary env ss = ss).
Proof.
  split; [split |].
  - intros [ss' H]. unfold refreshSteps, getMaxCaloriesFromDashboard, computeDailyTotalsFromLog,
      upsertDailySummary, upsertRows in H.
    destruct (dashboardSheet ss) as [d |]; [| discriminate H].
    destruct (maxCaloriesOf env d) as [g |] eqn:Eg; [| discriminate H].
    destruct (logSheet ss) as [rows |]; [| discriminate H].
    cbn [mbind Result_bind] in H.
    destruct (Nat.leb_spec (length rows) 1) as [Hle | Hgt]; [discriminate H |].
    cbn [mbind Result_bind keyCount] in H.
    destruct (summarySheet ss) as [sh |]; [| discriminate H].
    destruct (scanExisting env 1 (drop 1 (cells <$> sh)) ∅) as [ex |] eqn:Hex;
      [| discriminate H].
    exists d, rows, sh, g. split; [reflexivity |]. split; [exact Eg |].
    split; [reflexivity |]. split; [lia |]. split; [reflexivity |].
    exact (scanExisting_formattable _ _ _ _ _ Hex).
  - intros (d & rows & sh & g & Ed & Eg & El & Hlen & Es & Hf).
    destruct (upsertRows_ok env sh (foldl (addLogRow env) [] (drop 1 rows)) g Hf)
      as (ex & _ & Hup).
    unfold refreshSteps, getMaxCaloriesFromDashboard, computeDailyTotalsFromLog,
      upsertDailySummary.
    rewrite Ed, Eg, El, Es. cbn [mbind Result_bind].
    destruct (Nat.leb_spec (length rows) 1) as [Hle | Hgt]; [lia |].
    cbn [mbind Result_bind keyCount]. rewrite Hup. cbn [mbind Result_bind]. eauto.
  - intros H. unfold refreshCaloryDiary.
    destruct (refreshSteps env ss) as [ss' |] eqn:E; [| reflexivity].
    contradiction (H ss' eq_refl).
Qed.

(** ** A Daily Summary sheet without its header row *)

Lemma filter_none {A} (P : A -> Prop) `{!forall x, Decision (P x)} (l : list A) :
  (forall x, x ∈ l -> ~ P x) -> filter P l = [].
Proof.
  induction l as [| a l IH]; intros Hall; [reflexivity |].
  rewrite filter_cons, decide_False by (apply Hall; left).
  apply IH. intros x Hx. apply Hall. right. exact Hx.
Qed.

Lemma filter_all {A} (P : A -> Prop) `{!forall x, Decision (P x)} (l : list A) :
  (forall x, x ∈ l -> P x) -> filter P l = l.
Proof.
  induction l as [| a l IH]; intros Hall; [reflexivity |].
  rewrite filter_cons, decide_True by (apply Hall; left).
  f_equal. apply IH. intros x Hx. apply Hall. right. exact Hx.
Qed.

(** X18. On an empty Daily Summary sheet (no header row) the upsert
    writes its records from row 1 on, so the record of the first day of
    the totals map stands where the header is expected: the next run,
    which skips row 1, does not find that day and adds its record a
    second time below the others.  The date keys are stable here. *)
Theorem upsert_on_an_empty_sheet_repeats_the_first_day env k t (m : TotalsMap) g :
  NoDup ((k, t) :: m).*1 -> (forall e, e ∈ (k, t) :: m -> stableKey env e.1) ->
  let written := newRecord env g <$> ((k, t) :: m) in
  upsertRows env [] (Some ((k, t) :: m)) g = Ok written /\
  upsertRows env written (Some ((k, t) :: m)) g
  = Ok (written ++ [newRecord env g (k, t)])%list.
Proof.
  intros Hnd Hst written.
  assert (Hnd' : (k ∉ m.*1) /\ NoDup m.*1)
    by (rewrite fmap_cons in Hnd; apply NoDup_cons in Hnd; exact Hnd).
  destruct Hnd' as [Hk Hndm].
  assert (Hstm : forall e, e ∈ m -> stableKey env e.1)
    by (intros e He; apply Hst; right; exact He).
  split.
  - unfold upsertRows. cbn [fmap list_fmap drop scanExisting mbind Result_bind].
    f_equal. change (@nil SRow) with (@nil SRow ++ [])%list at 1.
    rewrite (upsert_loop_split env ∅ g 0).
    + rewrite foldl_fixed.
      * cbn [app]. unfold written. f_equal. apply filter_all. intros e _. apply lookup_empty.
      * intros e _. unfold updateEntry. rewrite lookup_empty. reflexivity.
    + intros k0 r H. rewrite lookup_empty in H. discriminate H.
    + cbn. lia.
  - assert (Hrec : records written = cells <$> (newRecord env g <$> m)) by reflexivity.
    assert (Hf : formattable env (records written)).
    { rewrite Hrec. apply records_formattable. exact Hstm. }
    destruct (upsertRows_ok env written ((k, t) :: m) g Hf) as (ex & Hex & Hup).
    rewrite Hup. f_equal.
    assert (Hrange : forall k0 r, ex !! k0 = Some r -> (1 <= r <= length written)%nat).
    { intros k0 r H. pose proof (existingDates_range env written ex k0 r Hex H). lia. }
    rewrite <- (app_nil_r written) at 1.
    rewrite (upsert_loop_split env ex g (length written) Hrange _ written [] (Nat.le_refl _)).
    cbn [app]. f_equal.
    + apply foldl_fixed. intros [k0 t0] Hin. unfold updateEntry. cbn [fst snd].
      rewrite (existingDates_lookup env written ex k0 Hex), Hrec.
      apply elem_of_cons in Hin as [[= -> ->] | Hin].
      * rewrite (lastRowWith_records_None env g m Hstm k Hk). reflexivity.
      * apply list_elem_of_lookup_1 in Hin as [j Hj].
        rewrite (lastRowWith_records_Some env g m Hstm Hndm j k0 t0 Hj). cbn [fmap option_fmap option_map].
        unfold setRow.
        assert (Hrow : written !! (j + 2 - 1)%nat = Some (newRecord env g (k0, t0))).
        { replace (j + 2 - 1)%nat with (S j) by lia. unfold written.
          rewrite list_lookup_fmap. change (((k, t) :: m) !! S j) with (m !! j).
          rewrite Hj. reflexivity. }
        rewrite Hrow. apply list_insert_id. rewrite Hrow. reflexivity.
    + rewrite filter_cons, decide_True.
      * rewrite filter_none; [reflexivity |].
        intros [k0 t0] Hin. cbn [fst]. apply list_elem_of_lookup_1 in Hin as [j Hj].
        rewrite (existingDates_lookup env written ex k0 Hex), Hrec,
          (lastRowWith_records_Some env g m Hstm Hndm j k0 t0 Hj). discriminate.
      * cbn [fst]. rewrite (existingDates_lookup env written ex k Hex), Hrec,
          (lastRowWith_records_None env g m Hstm k Hk). reflexivity.
Qed.

Lemma upsert_on_an_empty_sheet_repeats_the_first_day_witness :
  upsertRows jakarta [] (Some Sample.twoDays) (Num.ofZ 2056)
  = Ok (newRecord jakarta (Num.ofZ 2056) <$> Sample.twoDays) /\
  upsertRows jakarta (newRecord jakarta (Num.ofZ 2056) <$> Sample.twoDays)
    (Some Sample.twoDays) (Num.ofZ 2056)
  = Ok ((newRecord jakarta (Num.ofZ 2056) <$> Sample.twoDays)
        ++ [newRecord jakarta (Num.ofZ 2056) ("2024-01-15", Num.ofZ 1600)])%list.
Proof.
  apply (upsert_on_an_empty_sheet_repeats_the_first_day jakarta "2024-01-15" (Num.ofZ 1600)
           [("2024-01-16", Num.ofZ 2300)] (Num.ofZ 2056)).
  - apply (bool_decide_unpack _). vm_compute. exact I.
  - exact stableKey_jakarta_twoDays.
Defined.

(** ** The sample data *)

Lemma getMaxCaloriesFromDashboard_profile env ss1 ss2 :
  profileOf ss1 = profileOf ss2 ->
  getMaxCaloriesFromDashboard env ss1 = getMaxCaloriesFromDashboard env ss2.
Proof.
  unfold profileOf, getMaxCaloriesFromDashboard.
  destruct (dashboardSheet ss1) as [d1 |], (dashboardSheet ss2) as [d2 |];
    cbn [fmap option_fmap option_map]; try discriminate; [| reflexivity].
  intros [= H1 H2 H3 H4 H5 H6]. unfold maxCaloriesOf. rewrite H1, H2, H3, H4, H5, H6.
  reflexivity.
Qed.

Lemma contribQ_sample env k d time meal text c :
  Num.truthy (Num.ofZ c) = true ->
  Num.orElse (Str.parseFloat (Str.ofNum (Num.ofZ c))) Num.zero = Num.ofZ c ->
  contribQ env k [CDate (Some d); CStr time; CStr meal; CStr text; CNum (Num.ofZ c)]
  = if String.eqb k (formatDate env d) then inject_Z c else 0%Q.
Proof.
  intros Ht Hc. unfold contribQ, entryOf, cellAt, LOG_DATE, LOG_CALORIES.
  cbn [lookup list_lookup default from_option truthy isNumberZero newDate negb orb andb id].
  rewrite Ht. cbn [negb andb]. unfold parseFloat. cbn [toString]. rewrite Hc. reflexivity.
Qed.

(** X19. [addSampleData] on a book with its Dashboard and Log sheets,
    whatever they hold: the eight sample rows are added below the Log and
    the profile becomes the sample profile with the target 2056.  Where
    the calories counted in the Log after it are whole numbers (of
    magnitudes adding up to at most 2^53, the range in which the additions
    of the script are exact), the totals grow by 1600 for today and by
    1650 for the day of [yesterday], on top of what the Log had for those
    days, so that a second run adds them again; and on a Log without any
    row the first sample row takes the place of the header row and is not
    counted: today gets 1250. *)
Theorem addSampleData_adds_to_the_totals env yesterday ss d rows :
  dashboardSheet ss = Some d -> logSheet ss = Some rows ->
  let sample := sampleData (now env) yesterday in
  let ss' := (addSampleData env yesterday ss).1 in
  let today (k : string) (kcal : Z) : Q :=
    if String.eqb k (formatDate env (now env)) then inject_Z kcal else 0%Q in
  let dayBefore (k : string) (kcal : Z) : Q :=
    if String.eqb k (formatDate env yesterday) then inject_Z kcal else 0%Q in
  logSheet ss' = Some (rows ++ sample)%list /\
  getMaxCaloriesFromDashboard env ss' = Ok (Num.ofZ 2056) /\
  (wholeCalories env (drop 1 (rows ++ sample)) ->
   (rows <> [] ->
    forall k, (totalQ k (totalsOf env (rows ++ sample))
               == totalQ k (totalsOf env rows) + today k 1600%Z + dayBefore k 1650%Z)%Q) /\
   (rows = [] ->
    forall k, (totalQ k (totalsOf env (rows ++ sample))
               == today k 1250%Z + dayBefore k 1650%Z)%Q)).
Proof.
  intros Ed El sample ss' today dayBefore.
  assert (Hss : exists d', ss' = refreshCaloryDiary env
                               {| dashboardSheet := Some d'; logSheet := Some (rows ++ sample)%list;
                                  summarySheet := summarySheet ss |} /\
                           maxCaloriesOf env d' = Ok (Num.ofZ 2056)).
  { subst ss'. unfold addSampleData, alert. rewrite Ed, El.
    eexists. split; [destruct (hasUi env); reflexivity |]. vm_compute. reflexivity. }
  destruct Hss as (d' & -> & Hmax).
  destruct (preserved_refresh env
              {| dashboardSheet := Some d'; logSheet := Some (rows ++ sample)%list;
                 summarySheet := summarySheet ss |}) as (Hlog & Hprof & _).
  split; [exact Hlog |].
  split; [rewrite (getMaxCaloriesFromDashboard_profile _ _ _ Hprof); exact Hmax |].
  intros _.
  assert (Hsum : forall k,
            (sumQ (contribQ env k <$> sample) == today k 1600%Z + dayBefore k 1650%Z)%Q /\
            (sumQ (contribQ env k <$> drop 1 sample)
             == today k 1250%Z + dayBefore k 1650%Z)%Q).
  { intros k. subst today dayBefore sample. unfold sampleData. cbv zeta.
    cbn [drop fmap list_fmap]. rewrite !contribQ_sample by (vm_compute; reflexivity).
    destruct (String.eqb k (formatDate env (now env))),
      (String.eqb k (formatDate env yesterday)); split; vm_compute; reflexivity. }
  split.
  - intros Hne k. unfold totalsOf.
    rewrite drop_app_le by (destruct rows; [contradiction | simpl; lia]).
    rewrite foldl_app.
    destruct (addLogRow_fold env (drop 1 rows) [] allFin_nil) as (Hfin & _).
    destruct (addLogRow_fold env sample _ Hfin) as (_ & H2 & _).
    rewrite H2, (proj1 (Hsum k)). ring.
  - intros -> k. unfold totalsOf. cbn [app].
    destruct (addLogRow_fold env (drop 1 sample) [] allFin_nil) as (_ & H2 & _).
    rewrite H2, (proj2 (Hsum k)). unfold totalQ. cbn. ring.
Qed.

Lemma addSampleData_adds_to_the_totals_witness :
  let ss := Sample.book Sample.woman (Sample.meals (Sample.jan15 420 8 30))
              [Sample.summaryHeader] in
  let yesterday := Host.at_ 420 2024 1 14 21 0 in
  let log := ((Sample.logHeader :: Sample.meals (Sample.jan15 420 8 30))
              ++ sampleData (now jakarta) yesterday)%list in
  wholeCalories jakarta (drop 1 log) /\
  getMaxCaloriesFromDashboard jakarta (addSampleData jakarta yesterday ss).1
  = Ok (Num.ofZ 2056) /\
  (totalQ "2024-01-15" (totalsOf jakarta log) == 3200)%Q.
Proof.
  intros ss yesterday log.
  assert (Hw : wholeCalories jakarta (drop 1 log)).
  { subst log yesterday. unfold Sample.meals, Sample.fourMeals, sampleData. cbv zeta.
    cbn [app drop]. whole_calories. }
  split; [exact Hw |].
  destruct (addSampleData_adds_to_the_totals jakarta yesterday ss Sample.woman
              (Sample.logHeader :: Sample.meals (Sample.jan15 420 8 30)) eq_refl eq_refl)
    as (_ & Hmax & Htot).
  split; [exact Hmax |]. subst log.
  rewrite (proj1 (Htot Hw) ltac:(discriminate) "2024-01-15"). vm_compute. reflexivity.
Defined.
